(** * GitHub repository analyzer: a shallow embedding of [repo_analyzer.py]

    The development follows the class [GitHubRepoAnalyzer]: the data fetcher
    ([fetch_repo_data]), the commit heuristics ([analyze_commit_patterns]),
    the model client ([analyze_with_groq]), the score fusion
    ([calculate_final_score]), the report renderer ([generate_report]) and
    the orchestration ([analyze_repository]).  The handlers of the
    presentation shell ([app.py]) that feed the analyzer and read its
    result are in the module [App].

    Modelling choices.
    - Python values are the values [json.loads] can build, the type [value]:
      [None], booleans, integers (unbounded, [Z]), floats (binary64, the
      primitive floats of the kernel), strings, lists and dictionaries
      with string keys (association lists, in insertion order).
    - A Python [float] is a [PrimFloat.float].  What Python adds to the
      IEEE operations is defined on the exact value of a float, read off
      its sign, mantissa and exponent: the conversion of a decimal literal
      and of an [int], the exact comparison with an [int], [round(x, 1)]
      and [repr] (module [Float]).
    - A Python [str] is a Rocq [string] holding its UTF-8 encoding; lengths
      and slices count code points.  [isupper] uses the case tables of the
      Unicode character database (module [Unicode]).  [isspace] and [lower]
      are Python's on the ASCII range: a non-ASCII character is not taken
      for a space, and is left as it is by [lower].
    - A Python call either returns or raises: the error monad [py].  The
      text of a built-in exception is the one CPython 3.12 gives.
    - The libraries the class calls ([requests.get], [json.loads],
      [base64.b64decode], the Groq client) are Variables of a Section.
    - [print] appends a line to the standard output carried by [Run]. *)

From Stdlib Require Import ZArith List String Ascii Bool Lia QArith DecimalString Permutation.
From Stdlib Require PrimFloat SpecFloat FloatOps.
Import ListNotations.
Local Close Scope Q_scope.
Local Open Scope Z_scope.
Local Open Scope list_scope.
Local Open Scope string_scope.

Set Implicit Arguments.

(** ** Letter case

    [str.isupper] looks every character up in the Unicode character
    database: a character is uppercase when it has the derived property
    Uppercase, lowercase when it has the property Lowercase, and titlecase
    when its general category is Lt.  The tables are those of Unicode 14.0
    (CPython 3.11), as ranges of code points, both ends included; a
    character that a later version of the standard adds is in none of
    them. *)

Module Unicode.

(** The code points with the property Uppercase. *)
Definition uppercase : list (N * N) :=
  [(65, 90); (192, 214); (216, 222); (256, 256); (258, 258); (260, 260);
   (262, 262); (264, 264); (266, 266); (268, 268); (270, 270); (272, 272);
   (274, 274); (276, 276); (278, 278); (280, 280); (282, 282); (284, 284);
   (286, 286); (288, 288); (290, 290); (292, 292); (294, 294); (296, 296);
   (298, 298); (300, 300); (302, 302); (304, 304); (306, 306); (308, 308);
   (310, 310); (313, 313); (315, 315); (317, 317); (319, 319); (321, 321);
   (323, 323); (325, 325); (327, 327); (330, 330); (332, 332); (334, 334);
   (336, 336); (338, 338); (340, 340); (342, 342); (344, 344); (346, 346);
   (348, 348); (350, 350); (352, 352); (354, 354); (356, 356); (358, 358);
   (360, 360); (362, 362); (364, 364); (366, 366); (368, 368); (370, 370);
   (372, 372); (374, 374); (376, 377); (379, 379); (381, 381); (385, 386);
   (388, 388); (390, 391); (393, 395); (398, 401); (403, 404); (406, 408);
   (412, 413); (415, 416); (418, 418); (420, 420); (422, 423); (425, 425);
   (428, 428); (430, 431); (433, 435); (437, 437); (439, 440); (444, 444);
   (452, 452); (455, 455); (458, 458); (461, 461); (463, 463); (465, 465);
   (467, 467); (469, 469); (471, 471); (473, 473); (475, 475); (478, 478);
   (480, 480); (482, 482); (484, 484); (486, 486); (488, 488); (490, 490);
   (492, 492); (494, 494); (497, 497); (500, 500); (502, 504); (506, 506);
   (508, 508); (510, 510); (512, 512); (514, 514); (516, 516); (518, 518);
   (520, 520); (522, 522); (524, 524); (526, 526); (528, 528); (530, 530);
   (532, 532); (534, 534); (536, 536); (538, 538); (540, 540); (542, 542);
   (544, 544); (546, 546); (548, 548); (550, 550); (552, 552); (554, 554);
   (556, 556); (558, 558); (560, 560); (562, 562); (570, 571); (573, 574);
   (577, 577); (579, 582); (584, 584); (586, 586); (588, 588); (590, 590);
   (880, 880); (882, 882); (886, 886); (895, 895); (902, 902); (904, 906);
   (908, 908); (910, 911); (913, 929); (931, 939); (975, 975); (978, 980);
   (984, 984); (986, 986); (988, 988); (990, 990); (992, 992); (994, 994);
   (996, 996); (998, 998); (1000, 1000); (1002, 1002); (1004, 1004);
   (1006, 1006); (1012, 1012); (1015, 1015); (1017, 1018); (1021, 1071);
   (1120, 1120); (1122, 1122); (1124, 1124); (1126, 1126); (1128, 1128);
   (1130, 1130); (1132, 1132); (1134, 1134); (1136, 1136); (1138, 1138);
   (1140, 1140); (1142, 1142); (1144, 1144); (1146, 1146); (1148, 1148);
   (1150, 1150); (1152, 1152); (1162, 1162); (1164, 1164); (1166, 1166);
   (1168, 1168); (1170, 1170); (1172, 1172); (1174, 1174); (1176, 1176);
   (1178, 1178); (1180, 1180); (1182, 1182); (1184, 1184); (1186, 1186);
   (1188, 1188); (1190, 1190); (1192, 1192); (1194, 1194); (1196, 1196);
   (1198, 1198); (1200, 1200); (1202, 1202); (1204, 1204); (1206, 1206);
   (1208, 1208); (1210, 1210); (1212, 1212); (1214, 1214); (1216, 1217);
   (1219, 1219); (1221, 1221); (1223, 1223); (1225, 1225); (1227, 1227);
   (1229, 1229); (1232, 1232); (1234, 1234); (1236, 1236); (1238, 1238);
   (1240, 1240); (1242, 1242); (1244, 1244); (1246, 1246); (1248, 1248);
   (1250, 1250); (1252, 1252); (1254, 1254); (1256, 1256); (1258, 1258);
   (1260, 1260); (1262, 1262); (1264, 1264); (1266, 1266); (1268, 1268);
   (1270, 1270); (1272, 1272); (1274, 1274); (1276, 1276); (1278, 1278);
   (1280, 1280); (1282, 1282); (1284, 1284); (1286, 1286); (1288, 1288);
   (1290, 1290); (1292, 1292); (1294, 1294); (1296, 1296); (1298, 1298);
   (1300, 1300); (1302, 1302); (1304, 1304); (1306, 1306); (1308, 1308);
   (1310, 1310); (1312, 1312); (1314, 1314); (1316, 1316); (1318, 1318);
   (1320, 1320); (1322, 1322); (1324, 1324); (1326, 1326); (1329, 1366);
   (4256, 4293); (4295, 4295); (4301, 4301); (5024, 5109); (7312, 7354);
   (7357, 7359); (7680, 7680); (7682, 7682); (7684, 7684); (7686, 7686);
   (7688, 7688); (7690, 7690); (7692, 7692); (7694, 7694); (7696, 7696);
   (7698, 7698); (7700, 7700); (7702, 7702); (7704, 7704); (7706, 7706);
   (7708, 7708); (7710, 7710); (7712, 7712); (7714, 7714); (7716, 7716);
   (7718, 7718); (7720, 7720); (7722, 7722); (7724, 7724); (7726, 7726);
   (7728, 7728); (7730, 7730); (7732, 7732); (7734, 7734); (7736, 7736);
   (7738, 7738); (7740, 7740); (7742, 7742); (7744, 7744); (7746, 7746);
   (7748, 7748); (7750, 7750); (7752, 7752); (7754, 7754); (7756, 7756);
   (7758, 7758); (7760, 7760); (7762, 7762); (7764, 7764); (7766, 7766);
   (7768, 7768); (7770, 7770); (7772, 7772); (7774, 7774); (7776, 7776);
   (7778, 7778); (7780, 7780); (7782, 7782); (7784, 7784); (7786, 7786);
   (7788, 7788); (7790, 7790); (7792, 7792); (7794, 7794); (7796, 7796);
   (7798, 7798); (7800, 7800); (7802, 7802); (7804, 7804); (7806, 7806);
   (7808, 7808); (7810, 7810); (7812, 7812); (7814, 7814); (7816, 7816);
   (7818, 7818); (7820, 7820); (7822, 7822); (7824, 7824); (7826, 7826);
   (7828, 7828); (7838, 7838); (7840, 7840); (7842, 7842); (7844, 7844);
   (7846, 7846); (7848, 7848); (7850, 7850); (7852, 7852); (7854, 7854);
   (7856, 7856); (7858, 7858); (7860, 7860); (7862, 7862); (7864, 7864);
   (7866, 7866); (7868, 7868); (7870, 7870); (7872, 7872); (7874, 7874);
   (7876, 7876); (7878, 7878); (7880, 7880); (7882, 7882); (7884, 7884);
   (7886, 7886); (7888, 7888); (7890, 7890); (7892, 7892); (7894, 7894);
   (7896, 7896); (7898, 7898); (7900, 7900); (7902, 7902); (7904, 7904);
   (7906, 7906); (7908, 7908); (7910, 7910); (7912, 7912); (7914, 7914);
   (7916, 7916); (7918, 7918); (7920, 7920); (7922, 7922); (7924, 7924);
   (7926, 7926); (7928, 7928); (7930, 7930); (7932, 7932); (7934, 7934);
   (7944, 7951); (7960, 7965); (7976, 7983); (7992, 7999); (8008, 8013);
   (8025, 8025); (8027, 8027); (8029, 8029); (8031, 8031); (8040, 8047);
   (8120, 8123); (8136, 8139); (8152, 8155); (8168, 8172); (8184, 8187);
   (8450, 8450); (8455, 8455); (8459, 8461); (8464, 8466); (8469, 8469);
   (8473, 8477); (8484, 8484); (8486, 8486); (8488, 8488); (8490, 8493);
   (8496, 8499); (8510, 8511); (8517, 8517); (8544, 8559); (8579, 8579);
   (9398, 9423); (11264, 11311); (11360, 11360); (11362, 11364);
   (11367, 11367); (11369, 11369); (11371, 11371); (11373, 11376);
   (11378, 11378); (11381, 11381); (11390, 11392); (11394, 11394);
   (11396, 11396); (11398, 11398); (11400, 11400); (11402, 11402);
   (11404, 11404); (11406, 11406); (11408, 11408); (11410, 11410);
   (11412, 11412); (11414, 11414); (11416, 11416); (11418, 11418);
   (11420, 11420); (11422, 11422); (11424, 11424); (11426, 11426);
   (11428, 11428); (11430, 11430); (11432, 11432); (11434, 11434);
   (11436, 11436); (11438, 11438); (11440, 11440); (11442, 11442);
   (11444, 11444); (11446, 11446); (11448, 11448); (11450, 11450);
   (11452, 11452); (11454, 11454); (11456, 11456); (11458, 11458);
   (11460, 11460); (11462, 11462); (11464, 11464); (11466, 11466);
   (11468, 11468); (11470, 11470); (11472, 11472); (11474, 11474);
   (11476, 11476); (11478, 11478); (11480, 11480); (11482, 11482);
   (11484, 11484); (11486, 11486); (11488, 11488); (11490, 11490);
   (11499, 11499); (11501, 11501); (11506, 11506); (42560, 42560);
   (42562, 42562); (42564, 42564); (42566, 42566); (42568, 42568);
   (42570, 42570); (42572, 42572); (42574, 42574); (42576, 42576);
   (42578, 42578); (42580, 42580); (42582, 42582); (42584, 42584);
   (42586, 42586); (42588, 42588); (42590, 42590); (42592, 42592);
   (42594, 42594); (42596, 42596); (42598, 42598); (42600, 42600);
   (42602, 42602); (42604, 42604); (42624, 42624); (42626, 42626);
   (42628, 42628); (42630, 42630); (42632, 42632); (42634, 42634);
   (42636, 42636); (42638, 42638); (42640, 42640); (42642, 42642);
   (42644, 42644); (42646, 42646); (42648, 42648); (42650, 42650);
   (42786, 42786); (42788, 42788); (42790, 42790); (42792, 42792);
   (42794, 42794); (42796, 42796); (42798, 42798); (42802, 42802);
   (42804, 42804); (42806, 42806); (42808, 42808); (42810, 42810);
   (42812, 42812); (42814, 42814); (42816, 42816); (42818, 42818);
   (42820, 42820); (42822, 42822); (42824, 42824); (42826, 42826);
   (42828, 42828); (42830, 42830); (42832, 42832); (42834, 42834);
   (42836, 42836); (42838, 42838); (42840, 42840); (42842, 42842);
   (42844, 42844); (42846, 42846); (42848, 42848); (42850, 42850);
   (42852, 42852); (42854, 42854); (42856, 42856); (42858, 42858);
   (42860, 42860); (42862, 42862); (42873, 42873); (42875, 42875);
   (42877, 42878); (42880, 42880); (42882, 42882); (42884, 42884);
   (42886, 42886); (42891, 42891); (42893, 42893); (42896, 42896);
   (42898, 42898); (42902, 42902); (42904, 42904); (42906, 42906);
   (42908, 42908); (42910, 42910); (42912, 42912); (42914, 42914);
   (42916, 42916); (42918, 42918); (42920, 42920); (42922, 42926);
   (42928, 42932); (42934, 42934); (42936, 42936); (42938, 42938);
   (42940, 42940); (42942, 42942); (42944, 42944); (42946, 42946);
   (42948, 42951); (42953, 42953); (42960, 42960); (42966, 42966);
   (42968, 42968); (42997, 42997); (65313, 65338); (66560, 66599);
   (66736, 66771); (66928, 66938); (66940, 66954); (66956, 66962);
   (66964, 66965); (68736, 68786); (71840, 71871); (93760, 93791);
   (119808, 119833); (119860, 119885); (119912, 119937); (119964, 119964);
   (119966, 119967); (119970, 119970); (119973, 119974); (119977, 119980);
   (119982, 119989); (120016, 120041); (120068, 120069); (120071, 120074);
   (120077, 120084); (120086, 120092); (120120, 120121); (120123, 120126);
   (120128, 120132); (120134, 120134); (120138, 120144); (120172, 120197);
   (120224, 120249); (120276, 120301); (120328, 120353); (120380, 120405);
   (120432, 120457); (120488, 120512); (120546, 120570); (120604, 120628);
   (120662, 120686); (120720, 120744); (120778, 120778); (125184, 125217);
   (127280, 127305); (127312, 127337); (127344, 127369)]%N.

(** The code points with the property Lowercase. *)
Definition lowercase : list (N * N) :=
  [(97, 122); (170, 170); (181, 181); (186, 186); (223, 246); (248, 255);
   (257, 257); (259, 259); (261, 261); (263, 263); (265, 265); (267, 267);
   (269, 269); (271, 271); (273, 273); (275, 275); (277, 277); (279, 279);
   (281, 281); (283, 283); (285, 285); (287, 287); (289, 289); (291, 291);
   (293, 293); (295, 295); (297, 297); (299, 299); (301, 301); (303, 303);
   (305, 305); (307, 307); (309, 309); (311, 312); (314, 314); (316, 316);
   (318, 318); (320, 320); (322, 322); (324, 324); (326, 326); (328, 329);
   (331, 331); (333, 333); (335, 335); (337, 337); (339, 339); (341, 341);
   (343, 343); (345, 345); (347, 347); (349, 349); (351, 351); (353, 353);
   (355, 355); (357, 357); (359, 359); (361, 361); (363, 363); (365, 365);
   (367, 367); (369, 369); (371, 371); (373, 373); (375, 375); (378, 378);
   (380, 380); (382, 384); (387, 387); (389, 389); (392, 392); (396, 397);
   (402, 402); (405, 405); (409, 411); (414, 414); (417, 417); (419, 419);
   (421, 421); (424, 424); (426, 427); (429, 429); (432, 432); (436, 436);
   (438, 438); (441, 442); (445, 447); (454, 454); (457, 457); (460, 460);
   (462, 462); (464, 464); (466, 466); (468, 468); (470, 470); (472, 472);
   (474, 474); (476, 477); (479, 479); (481, 481); (483, 483); (485, 485);
   (487, 487); (489, 489); (491, 491); (493, 493); (495, 496); (499, 499);
   (501, 501); (505, 505); (507, 507); (509, 509); (511, 511); (513, 513);
   (515, 515); (517, 517); (519, 519); (521, 521); (523, 523); (525, 525);
   (527, 527); (529, 529); (531, 531); (533, 533); (535, 535); (537, 537);
   (539, 539); (541, 541); (543, 543); (545, 545); (547, 547); (549, 549);
   (551, 551); (553, 553); (555, 555); (557, 557); (559, 559); (561, 561);
   (563, 569); (572, 572); (575, 576); (578, 578); (583, 583); (585, 585);
   (587, 587); (589, 589); (591, 659); (661, 696); (704, 705); (736, 740);
   (837, 837); (881, 881); (883, 883); (887, 887); (890, 893); (912, 912);
   (940, 974); (976, 977); (981, 983); (985, 985); (987, 987); (989, 989);
   (991, 991); (993, 993); (995, 995); (997, 997); (999, 999); (1001, 1001);
   (1003, 1003); (1005, 1005); (1007, 1011); (1013, 1013); (1016, 1016);
   (1019, 1020); (1072, 1119); (1121, 1121); (1123, 1123); (1125, 1125);
   (1127, 1127); (1129, 1129); (1131, 1131); (1133, 1133); (1135, 1135);
   (1137, 1137); (1139, 1139); (1141, 1141); (1143, 1143); (1145, 1145);
   (1147, 1147); (1149, 1149); (1151, 1151); (1153, 1153); (1163, 1163);
   (1165, 1165); (1167, 1167); (1169, 1169); (1171, 1171); (1173, 1173);
   (1175, 1175); (1177, 1177); (1179, 1179); (1181, 1181); (1183, 1183);
   (1185, 1185); (1187, 1187); (1189, 1189); (1191, 1191); (1193, 1193);
   (1195, 1195); (1197, 1197); (1199, 1199); (1201, 1201); (1203, 1203);
   (1205, 1205); (1207, 1207); (1209, 1209); (1211, 1211); (1213, 1213);
   (1215, 1215); (1218, 1218); (1220, 1220); (1222, 1222); (1224, 1224);
   (1226, 1226); (1228, 1228); (1230, 1231); (1233, 1233); (1235, 1235);
   (1237, 1237); (1239, 1239); (1241, 1241); (1243, 1243); (1245, 1245);
   (1247, 1247); (1249, 1249); (1251, 1251); (1253, 1253); (1255, 1255);
   (1257, 1257); (1259, 1259); (1261, 1261); (1263, 1263); (1265, 1265);
   (1267, 1267); (1269, 1269); (1271, 1271); (1273, 1273); (1275, 1275);
   (1277, 1277); (1279, 1279); (1281, 1281); (1283, 1283); (1285, 1285);
   (1287, 1287); (1289, 1289); (1291, 1291); (1293, 1293); (1295, 1295);
   (1297, 1297); (1299, 1299); (1301, 1301); (1303, 1303); (1305, 1305);
   (1307, 1307); (1309, 1309); (1311, 1311); (1313, 1313); (1315, 1315);
   (1317, 1317); (1319, 1319); (1321, 1321); (1323, 1323); (1325, 1325);
   (1327, 1327); (1376, 1416); (4304, 4346); (4349, 4351); (5112, 5117);
   (7296, 7304); (7424, 7615); (7681, 7681); (7683, 7683); (7685, 7685);
   (7687, 7687); (7689, 7689); (7691, 7691); (7693, 7693); (7695, 7695);
   (7697, 7697); (7699, 7699); (7701, 7701); (7703, 7703); (7705, 7705);
   (7707, 7707); (7709, 7709); (7711, 7711); (7713, 7713); (7715, 7715);
   (7717, 7717); (7719, 7719); (7721, 7721); (7723, 7723); (7725, 7725);
   (7727, 7727); (7729, 7729); (7731, 7731); (7733, 7733); (7735, 7735);
   (7737, 7737); (7739, 7739); (7741, 7741); (7743, 7743); (7745, 7745);
   (7747, 7747); (7749, 7749); (7751, 7751); (7753, 7753); (7755, 7755);
   (7757, 7757); (7759, 7759); (7761, 7761); (7763, 7763); (7765, 7765);
   (7767, 7767); (7769, 7769); (7771, 7771); (7773, 7773); (7775, 7775);
   (7777, 7777); (7779, 7779); (7781, 7781); (7783, 7783); (7785, 7785);
   (7787, 7787); (7789, 7789); (7791, 7791); (7793, 7793); (7795, 7795);
   (7797, 7797); (7799, 7799); (7801, 7801); (7803, 7803); (7805, 7805);
   (7807, 7807); (7809, 7809); (7811, 7811); (7813, 7813); (7815, 7815);
   (7817, 7817); (7819, 7819); (7821, 7821); (7823, 7823); (7825, 7825);
   (7827, 7827); (7829, 7837); (7839, 7839); (7841, 7841); (7843, 7843);
   (7845, 7845); (7847, 7847); (7849, 7849); (7851, 7851); (7853, 7853);
   (7855, 7855); (7857, 7857); (7859, 7859); (7861, 7861); (7863, 7863);
   (7865, 7865); (7867, 7867); (7869, 7869); (7871, 7871); (7873, 7873);
   (7875, 7875); (7877, 7877); (7879, 7879); (7881, 7881); (7883, 7883);
   (7885, 7885); (7887, 7887); (7889, 7889); (7891, 7891); (7893, 7893);
   (7895, 7895); (7897, 7897); (7899, 7899); (7901, 7901); (7903, 7903);
   (7905, 7905); (7907, 7907); (7909, 7909); (7911, 7911); (7913, 7913);
   (7915, 7915); (7917, 7917); (7919, 7919); (7921, 7921); (7923, 7923);
   (7925, 7925); (7927, 7927); (7929, 7929); (7931, 7931); (7933, 7933);
   (7935, 7943); (7952, 7957); (7968, 7975); (7984, 7991); (8000, 8005);
   (8016, 8023); (8032, 8039); (8048, 8061); (8064, 8071); (8080, 8087);
   (8096, 8103); (8112, 8116); (8118, 8119); (8126, 8126); (8130, 8132);
   (8134, 8135); (8144, 8147); (8150, 8151); (8160, 8167); (8178, 8180);
   (8182, 8183); (8305, 8305); (8319, 8319); (8336, 8348); (8458, 8458);
   (8462, 8463); (8467, 8467); (8495, 8495); (8500, 8500); (8505, 8505);
   (8508, 8509); (8518, 8521); (8526, 8526); (8560, 8575); (8580, 8580);
   (9424, 9449); (11312, 11359); (11361, 11361); (11365, 11366);
   (11368, 11368); (11370, 11370); (11372, 11372); (11377, 11377);
   (11379, 11380); (11382, 11389); (11393, 11393); (11395, 11395);
   (11397, 11397); (11399, 11399); (11401, 11401); (11403, 11403);
   (11405, 11405); (11407, 11407); (11409, 11409); (11411, 11411);
   (11413, 11413); (11415, 11415); (11417, 11417); (11419, 11419);
   (11421, 11421); (11423, 11423); (11425, 11425); (11427, 11427);
   (11429, 11429); (11431, 11431); (11433, 11433); (11435, 11435);
   (11437, 11437); (11439, 11439); (11441, 11441); (11443, 11443);
   (11445, 11445); (11447, 11447); (11449, 11449); (11451, 11451);
   (11453, 11453); (11455, 11455); (11457, 11457); (11459, 11459);
   (11461, 11461); (11463, 11463); (11465, 11465); (11467, 11467);
   (11469, 11469); (11471, 11471); (11473, 11473); (11475, 11475);
   (11477, 11477); (11479, 11479); (11481, 11481); (11483, 11483);
   (11485, 11485); (11487, 11487); (11489, 11489); (11491, 11492);
   (11500, 11500); (11502, 11502); (11507, 11507); (11520, 11557);
   (11559, 11559); (11565, 11565); (42561, 42561); (42563, 42563);
   (42565, 42565); (42567, 42567); (42569, 42569); (42571, 42571);
   (42573, 42573); (42575, 42575); (42577, 42577); (42579, 42579);
   (42581, 42581); (42583, 42583); (42585, 42585); (42587, 42587);
   (42589, 42589); (42591, 42591); (42593, 42593); (42595, 42595);
   (42597, 42597); (42599, 42599); (42601, 42601); (42603, 42603);
   (42605, 42605); (42625, 42625); (42627, 42627); (42629, 42629);
   (42631, 42631); (42633, 42633); (42635, 42635); (42637, 42637);
   (42639, 42639); (42641, 42641); (42643, 42643); (42645, 42645);
   (42647, 42647); (42649, 42649); (42651, 42653); (42787, 42787);
   (42789, 42789); (42791, 42791); (42793, 42793); (42795, 42795);
   (42797, 42797); (42799, 42801); (42803, 42803); (42805, 42805);
   (42807, 42807); (42809, 42809); (42811, 42811); (42813, 42813);
   (42815, 42815); (42817, 42817); (42819, 42819); (42821, 42821);
   (42823, 42823); (42825, 42825); (42827, 42827); (42829, 42829);
   (42831, 42831); (42833, 42833); (42835, 42835); (42837, 42837);
   (42839, 42839); (42841, 42841); (42843, 42843); (42845, 42845);
   (42847, 42847); (42849, 42849); (42851, 42851); (42853, 42853);
   (42855, 42855); (42857, 42857); (42859, 42859); (42861, 42861);
   (42863, 42872); (42874, 42874); (42876, 42876); (42879, 42879);
   (42881, 42881); (42883, 42883); (42885, 42885); (42887, 42887);
   (42892, 42892); (42894, 42894); (42897, 42897); (42899, 42901);
   (42903, 42903); (42905, 42905); (42907, 42907); (42909, 42909);
   (42911, 42911); (42913, 42913); (42915, 42915); (42917, 42917);
   (42919, 42919); (42921, 42921); (42927, 42927); (42933, 42933);
   (42935, 42935); (42937, 42937); (42939, 42939); (42941, 42941);
   (42943, 42943); (42945, 42945); (42947, 42947); (42952, 42952);
   (42954, 42954); (42961, 42961); (42963, 42963); (42965, 42965);
   (42967, 42967); (42969, 42969); (42998, 42998); (43000, 43002);
   (43824, 43866); (43868, 43880); (43888, 43967); (64256, 64262);
   (64275, 64279); (65345, 65370); (66600, 66639); (66776, 66811);
   (66967, 66977); (66979, 66993); (66995, 67001); (67003, 67004);
   (67456, 67456); (67459, 67461); (67463, 67504); (67506, 67514);
   (68800, 68850); (71872, 71903); (93792, 93823); (119834, 119859);
   (119886, 119892); (119894, 119911); (119938, 119963); (119990, 119993);
   (119995, 119995); (119997, 120003); (120005, 120015); (120042, 120067);
   (120094, 120119); (120146, 120171); (120198, 120223); (120250, 120275);
   (120302, 120327); (120354, 120379); (120406, 120431); (120458, 120485);
   (120514, 120538); (120540, 120545); (120572, 120596); (120598, 120603);
   (120630, 120654); (120656, 120661); (120688, 120712); (120714, 120719);
   (120746, 120770); (120772, 120777); (120779, 120779); (122624, 122633);
   (122635, 122654); (125218, 125251)]%N.

(** The code points of the category Lt. *)
Definition titlecase : list (N * N) :=
  [(453, 453); (456, 456); (459, 459); (498, 498); (8072, 8079);
   (8088, 8095); (8104, 8111); (8124, 8124); (8140, 8140); (8188, 8188)]%N.

Definition in_ranges (c : N) (ranges : list (N * N)) : bool :=
  existsb (fun r => (fst r <=? c)%N && (c <=? snd r)%N) ranges.

Definition is_upper (c : N) : bool := in_ranges c uppercase.

Definition is_lower (c : N) : bool := in_ranges c lowercase.

Definition is_title (c : N) : bool := in_ranges c titlecase.

End Unicode.

(** ** Strings *)

Module Str.

Definition code (c : ascii) : nat := nat_of_ascii c.

(** [str.isspace] on the ASCII range: TAB..CR, FS..US and the space. *)
Definition isspace (c : ascii) : bool :=
  let n := code c in
  ((9 <=? n) && (n <=? 13) || (28 <=? n) && (n <=? 32))%nat.

Definition isupper_char (c : ascii) : bool :=
  let n := code c in ((65 <=? n) && (n <=? 90))%nat.

Definition lower_char (c : ascii) : ascii :=
  if isupper_char c then ascii_of_nat (code c + 32) else c.

(** [s.lower()] on the ASCII letters.  The class only asks whether the
    result contains one of five ASCII words, and for that question the
    other characters do not matter: the only ones whose lowercase has an
    ASCII letter are U+212A, which gives [k], a letter none of the words
    has, and U+0130, which gives [i] followed by U+0307, while no word ends
    in [i]. *)
Fixpoint lower (s : string) : string :=
  match s with
  | EmptyString => EmptyString
  | String c s' => String (lower_char c) (lower s')
  end.

Fixpoint existsb_char (p : ascii -> bool) (s : string) : bool :=
  match s with
  | EmptyString => false
  | String c s' => p c || existsb_char p s'
  end.

(** [needle in hay] for two strings. *)
Fixpoint contains (needle hay : string) : bool :=
  String.prefix needle hay ||
  match hay with
  | EmptyString => false
  | String _ h => contains needle h
  end.

(** A byte that continues a UTF-8 sequence ([10xxxxxx]). *)
Definition is_cont (c : ascii) : bool :=
  let n := code c in ((128 <=? n) && (n <? 192))%nat.

(** [len(s)]: the number of code points. *)
Fixpoint len (s : string) : nat :=
  match s with
  | EmptyString => O
  | String c s' => if is_cont c then len s' else S (len s')
  end.

(** [s[:n]]: the first [n] code points. *)
Fixpoint take (n : nat) (s : string) : string :=
  match s with
  | EmptyString => EmptyString
  | String c s' =>
      if is_cont c then String c (take n s')
      else match n with
           | O => EmptyString
           | S k => String c (take k s')
           end
  end.

(** The code points of [s], each as a one-character string (iteration over
    a [str]). *)
Fixpoint chars_aux (cur : option string) (s : string) : list string :=
  match s with
  | EmptyString => match cur with None => [] | Some w => [w] end
  | String c s' =>
      if is_cont c then
        chars_aux (Some (match cur with None => String c "" | Some w => w ++ String c "" end)) s'
      else
        match cur with
        | None => chars_aux (Some (String c "")) s'
        | Some w => w :: chars_aux (Some (String c "")) s'
        end
  end.

Definition chars (s : string) : list string := chars_aux None s.

(** The code point of a one-character string: the payload bits of the
    first byte, then six bits of every byte that follows. *)
Definition lead_bits (c : ascii) : N :=
  let n := N.of_nat (code c) in
  if (n <? 128)%N then n
  else if (n <? 224)%N then n - 192
  else if (n <? 240)%N then n - 224
  else n - 240.

Fixpoint codepoint_from (acc : N) (s : string) : N :=
  match s with
  | EmptyString => acc
  | String c s' => codepoint_from (64 * acc + (N.of_nat (code c) - 128)) s'
  end.

Definition codepoint (ch : string) : N :=
  match ch with
  | EmptyString => 0
  | String c rest => codepoint_from (lead_bits c) rest
  end.

(** [s.isupper()]: no character is lowercase or titlecase, and some
    character is uppercase. *)
Definition isupper (s : string) : bool :=
  let cps := map codepoint (chars s) in
  negb (existsb (fun c => Unicode.is_lower c || Unicode.is_title c) cps)
  && existsb Unicode.is_upper cps.

Fixpoint lstrip (s : string) : string :=
  match s with
  | EmptyString => EmptyString
  | String c s' => if isspace c then lstrip s' else s
  end.

(** Drops the trailing characters that satisfy [p]. *)
Fixpoint rstrip_by (p : ascii -> bool) (s : string) : string :=
  match s with
  | EmptyString => EmptyString
  | String c s' =>
      match rstrip_by p s' with
      | EmptyString => if p c then EmptyString else String c EmptyString
      | r => String c r
      end
  end.

(** [s.strip()] *)
Definition strip (s : string) : string := rstrip_by isspace (lstrip s).

(** [s.rstrip('/')] *)
Definition rstrip_slash (s : string) : string :=
  rstrip_by (fun c => Ascii.eqb c "/"%char) s.

(** [s.split(sep)] for a one-character separator: never the empty list. *)
Fixpoint split (sep : ascii) (s : string) : list string :=
  match s with
  | EmptyString => [EmptyString]
  | String c s' =>
      if Ascii.eqb c sep then EmptyString :: split sep s'
      else match split sep s' with
           | [] => [String c EmptyString]
           | w :: ws => String c w :: ws
           end
  end.

(** [sep.join(l)] *)
Fixpoint join (sep : string) (l : list string) : string :=
  match l with
  | [] => EmptyString
  | [w] => w
  | w :: ws => w ++ sep ++ join sep ws
  end.

(** [str(n)] for an integer. *)
Definition of_Z (n : Z) : string := NilZero.string_of_int (Z.to_int n).

Definition of_nat (n : nat) : string := of_Z (Z.of_nat n).

End Str.

(** ** Floats

    A finite float other than zero has the exact value [(-1)^s * m * 2^e],
    with [s], [m] and [e] as [FloatOps.Prim2SF] gives them. *)

Module Float.

Import PrimFloat SpecFloat FloatOps.

(** The float nearest to [(-1)^neg * n / d] (ties to even). *)
Definition of_ratio (neg : bool) (n d : positive) : float :=
  SF2Prim (SFdiv prec emax (S754_finite neg n 0) (S754_finite false d 0)).

(** [float(text)] for a decimal literal: the float nearest to
    [(-1)^neg * digits * 10^exp10] (ties to even).  A literal of 400 digits
    or more before the point is beyond every float, one that starts 400
    places or more after the point is nearer to zero than to any other
    float. *)
Definition of_decimal (neg : bool) (digits : N) (exp10 : Z) : float :=
  match digits with
  | N0 => if neg then neg_zero else zero
  | Npos p =>
      let len := Z.of_nat (String.length (Str.of_Z (Zpos p))) in
      if (400 <=? len + exp10)%Z then (if neg then neg_infinity else infinity)
      else if (len + exp10 <=? -400)%Z then (if neg then neg_zero else zero)
      else if (0 <=? exp10)%Z then
        SF2Prim (binary_normalize prec emax
                   (if neg then Zneg p * 10 ^ exp10 else Zpos p * 10 ^ exp10) 0 false)
      else of_ratio neg p (Z.to_pos (10 ^ (- exp10)))
  end.

(** [float(n)] for an [int]: the nearest float (ties to even); [None]
    stands for the [OverflowError] of an [int] beyond every float. *)
Definition of_Z (n : Z) : option float :=
  let x := SF2Prim (binary_normalize prec emax n 0 false) in
  if is_infinity x then None else Some x.

(** [x ? n] for an [int] [n], on the exact values; [None] for a NaN. *)
Definition compare_Z (x : float) (n : Z) : option comparison :=
  match Prim2SF x with
  | S754_nan => None
  | S754_infinity s => Some (if s then Lt else Gt)
  | S754_zero _ => Some (0 ?= n)%Z
  | S754_finite s m e =>
      let v := if s then Zneg m else Zpos m in
      Some (if (0 <=? e)%Z then (v * 2 ^ e ?= n)%Z else (v ?= n * 2 ^ (- e))%Z)
  end.

(** [x ? y] for two floats; [None] when one is a NaN. *)
Definition compare (x y : float) : option comparison :=
  match PrimFloat.compare x y with
  | FEq => Some Eq
  | FLt => Some Lt
  | FGt => Some Gt
  | FNotComparable => None
  end.

(** [n / d] rounded to the nearest integer, ties to even. *)
Definition div_half_even (n d : Z) : Z :=
  let q := (n / d)%Z in
  match (2 * (n mod d) ?= d)%Z with
  | Lt => q
  | Gt => q + 1
  | Eq => if Z.even q then q else q + 1
  end.

(** The number of tenths nearest to [m * 2^e] (ties to even). *)
Definition tenths (m : positive) (e : Z) : Z :=
  if (0 <=? e)%Z then Zpos m * 2 ^ e * 10
  else div_half_even (Zpos m * 10) (2 ^ (- e)).

(** [round(x, 1)]: the decimal with one digit after the point that is
    nearest to the exact value of [x] (ties to even), read back as a
    float; an infinity, a NaN or a zero is returned as it is. *)
Definition round1 (x : float) : float :=
  match Prim2SF x with
  | S754_finite s m e => of_decimal s (Z.to_N (tenths m e)) (-1)
  | _ => x
  end.

(** The exact value of a positive finite float, as a fraction. *)
Definition fraction (m : positive) (e : Z) : Z * Z :=
  if (0 <=? e)%Z then (Zpos m * 2 ^ e, 1) else (Zpos m, 2 ^ (- e)).

(** [10^p <= num / den] *)
Definition pow10_le (p : Z) (num den : Z) : bool :=
  if (0 <=? p)%Z then (10 ^ p * den <=? num)%Z else (den <=? num * 10 ^ (- p))%Z.

(** The [p] with [10^p <= m * 2^e < 10^(p+1)]: the estimate made from the
    number of bits is off by one at most. *)
Definition exponent10 (m : positive) (e : Z) : Z :=
  let '(num, den) := fraction m e in
  let est := ((Zpos (digits2_pos m) + e - 1) * 30103 / 100000)%Z in
  if pow10_le (est + 1) num den then est + 1
  else if pow10_le est num den then est
  else est - 1.

(** Among the decimals [c * 10^k] with [n] significant digits, the two
    next to [x = m * 2^e]: the nearer one if it reads back as [x],
    otherwise the other one if that one does. *)
Definition candidate (x : float) (m : positive) (e : Z) (p : Z) (n : Z) : option (Z * Z) :=
  let '(num, den) := fraction m e in
  let k := p - n + 1 in
  let '(a, b) := if (0 <=? k)%Z then (num, den * 10 ^ k) else (num * 10 ^ (- k), den) in
  let lo := (a / b)%Z in
  let r := (a mod b)%Z in
  let reads_back c := Leibniz.eqb (of_decimal false (Z.to_N c) k) x in
  let near := if (2 * r <=? b)%Z then lo else lo + 1 in
  let far := if (2 * r <=? b)%Z then lo + 1 else lo in
  if reads_back near then Some (near, k)
  else if reads_back far then Some (far, k)
  else None.

(** The shortest decimal that reads back as [x]: [n] significant digits
    are tried for [n = 1, 2, ...]; 17 always do. *)
Fixpoint shortest (fuel : nat) (x : float) (m : positive) (e : Z) (p : Z) (n : Z) : Z * Z :=
  match fuel with
  | O => (0, 0)
  | S f =>
      match candidate x m e p n with
      | Some ck => ck
      | None => shortest f x m e p (n + 1)
      end
  end.

Fixpoint strip_zeros (rev_digits : list ascii) : list ascii :=
  match rev_digits with
  | "0"%char :: rest => strip_zeros rest
  | _ => rev_digits
  end.

Definition without_trailing_zeros (d : string) : string :=
  string_of_list_ascii (rev (strip_zeros (rev (list_ascii_of_string d)))).

Fixpoint zeros (n : nat) : string :=
  match n with
  | O => EmptyString
  | S k => String "0" (zeros k)
  end.

(** The digits [d] of a number [0.d * 10^decpt] laid out as [repr] does:
    in fixed notation when [-4 < decpt <= 16], with [.0] after a whole
    number; otherwise with one digit before the point and an exponent of
    two digits at least. *)
Definition layout (d : string) (decpt : Z) : string :=
  let len := Z.of_nat (String.length d) in
  if ((decpt <=? -4) || (16 <? decpt))%Z then
    let ex := decpt - 1 in
    let mantissa :=
      match d with
      | String c (String _ _ as rest) => String c ("." ++ rest)
      | _ => d
      end in
    mantissa ++ "e" ++ (if (ex <? 0)%Z then "-" else "+")
             ++ (if (Z.abs ex <? 10)%Z then "0" else EmptyString)
             ++ Str.of_Z (Z.abs ex)
  else if (decpt <=? 0)%Z then "0." ++ zeros (Z.to_nat (- decpt)) ++ d
  else if (len <=? decpt)%Z then d ++ zeros (Z.to_nat (decpt - len)) ++ ".0"
  else String.substring 0 (Z.to_nat decpt) d ++ "."
       ++ String.substring (Z.to_nat decpt) (Z.to_nat (len - decpt)) d.

(** [repr(x)] *)
Definition repr (x : float) : string :=
  match Prim2SF x with
  | S754_nan => "nan"
  | S754_infinity s => if s then "-inf" else "inf"
  | S754_zero s => if s then "-0.0" else "0.0"
  | S754_finite s m e =>
      let '(c, k) := shortest 17 (abs x) m e (exponent10 m e) 1 in
      let d := Str.of_Z c in
      let decpt := Z.of_nat (String.length d) + k in
      (if s then "-" else EmptyString) ++ layout (without_trailing_zeros d) decpt
  end.

End Float.

(** ** Exceptions and the error monad *)

(** An exception: [requests.exceptions.HTTPError] carries the response's
    status code; any other [Exception] is kept with its class name.  The
    string is [str(e)]. *)
Inductive exn : Type :=
| HTTPError (status_code : Z) (msg : string)
| Error (cls : string) (msg : string).

Definition exn_str (e : exn) : string :=
  match e with
  | HTTPError _ m => m
  | Error _ m => m
  end.

Inductive py (A : Type) : Type :=
| Ret (a : A)
| Raise (e : exn).

Arguments Ret {A} a.
Arguments Raise {A} e.

Definition bind {A B : Type} (m : py A) (k : A -> py B) : py B :=
  match m with
  | Ret a => k a
  | Raise e => Raise e
  end.

Declare Scope py_scope.
Delimit Scope py_scope with py.
Notation "x <- m ;; k" := (bind m (fun x => k))
  (at level 61, m at next level, right associativity) : py_scope.
Notation "m ;;; k" := (bind m (fun _ => k))
  (at level 61, right associativity) : py_scope.
Local Open Scope py_scope.

(** [try: m except Exception as e: h e] *)
Definition try_except {A : Type} (m : py A) (h : exn -> py A) : py A :=
  match m with
  | Ret a => Ret a
  | Raise e => h e
  end.

Definition returns {A : Type} (m : py A) : Prop := exists a, m = Ret a.

Definition raises {A : Type} (m : py A) : Prop := exists e, m = Raise e.

Fixpoint mapM {A B : Type} (f : A -> py B) (l : list A) : py (list B) :=
  match l with
  | [] => Ret []
  | a :: l' => b <- f a ;; bs <- mapM f l' ;; Ret (b :: bs)
  end.

(** ** Python values *)

#[local] Set Warnings "-register-all".

Inductive value : Type :=
| VNone
| VBool (b : bool)
| VInt (n : Z)
| VFloat (x : PrimFloat.float)
| VStr (s : string)
| VList (l : list value)
| VDict (d : list (string * value)).

Definition dict := list (string * value).

Fixpoint lookup (k : string) (d : dict) : option value :=
  match d with
  | [] => None
  | (k', v) :: d' => if String.eqb k k' then Some v else lookup k d'
  end.

(** [type(v).__name__] *)
Definition type_name (v : value) : string :=
  match v with
  | VNone => "NoneType"
  | VBool _ => "bool"
  | VInt _ => "int"
  | VFloat _ => "float"
  | VStr _ => "str"
  | VList _ => "list"
  | VDict _ => "dict"
  end.

Definition TypeError {A : Type} (msg : string) : py A := Raise (Error "TypeError" msg).

Definition AttributeError {A : Type} (v : value) (attr : string) : py A :=
  Raise (Error "AttributeError"
           ("'" ++ type_name v ++ "' object has no attribute '" ++ attr ++ "'")).

(** [bool(v)] *)
Definition truthy (v : value) : bool :=
  match v with
  | VNone => false
  | VBool b => b
  | VInt n => negb (n =? 0)%Z
  | VFloat x => negb (PrimFloat.eqb x PrimFloat.zero)
  | VStr s => negb (String.eqb s "")
  | VList l => match l with [] => false | _ => true end
  | VDict d => match d with [] => false | _ => true end
  end.

(** [repr(s)] of a string: single quotes unless the text has a single quote
    and no double quote; backslash, the quote, newline, carriage return and
    tab escaped, other ASCII control characters as [\xhh]. *)
Definition hex_digit (n : nat) : ascii :=
  ascii_of_nat (if (n <? 10)%nat then 48 + n else 87 + n).

Definition repr_char (q : ascii) (c : ascii) : string :=
  let n := Str.code c in
  if Ascii.eqb c "\"%char then "\\"
  else if Ascii.eqb c q then String "\"%char (String q "")
  else if (n =? 10)%nat then "\n"
  else if (n =? 13)%nat then "\r"
  else if (n =? 9)%nat then "\t"
  else if ((n <? 32) || (n =? 127))%nat then
    "\x" ++ String (hex_digit (n / 16)) (String (hex_digit (n mod 16)) "")
  else String c "".

Fixpoint repr_body (q : ascii) (s : string) : string :=
  match s with
  | EmptyString => EmptyString
  | String c s' => repr_char q c ++ repr_body q s'
  end.

Definition dquote : ascii := ascii_of_nat 34.

Definition repr_str (s : string) : string :=
  let q := if Str.contains "'" s && negb (Str.contains (String dquote "") s)
           then dquote else "'"%char in
  String q (repr_body q s ++ String q "").

(** [repr(v)] and [str(v)] *)
Fixpoint repr (v : value) : string :=
  match v with
  | VNone => "None"
  | VBool b => if b then "True" else "False"
  | VInt n => Str.of_Z n
  | VFloat x => Float.repr x
  | VStr s => repr_str s
  | VList l => "[" ++ Str.join ", " (map repr l) ++ "]"
  | VDict d =>
      "{" ++ Str.join ", " (map (fun kv => repr_str (fst kv) ++ ": " ++ repr (snd kv)) d) ++ "}"
  end.

Definition str (v : value) : string :=
  match v with
  | VStr s => s
  | _ => repr v
  end.

(** [d.get(k, default)] on any value: only a dict has the method. *)
Definition get (v : value) (k : string) (default : value) : py value :=
  match v with
  | VDict d => Ret (match lookup k d with Some x => x | None => default end)
  | _ => AttributeError v "get"
  end.

(** [v[k]] for a string key. *)
Definition subscript (v : value) (k : string) : py value :=
  match v with
  | VDict d =>
      match lookup k d with
      | Some x => Ret x
      | None => Raise (Error "KeyError" (repr_str k))
      end
  | VList _ => TypeError "list indices must be integers or slices, not str"
  | VStr _ => TypeError "string indices must be integers, not 'str'"
  | _ => TypeError ("'" ++ type_name v ++ "' object is not subscriptable")
  end.

Definition not_iterable {A : Type} (v : value) : py A :=
  TypeError ("'" ++ type_name v ++ "' object is not iterable").

(** The items a [for] loop (or [list.extend], [enumerate]) draws from [v]. *)
Definition iter (v : value) : py (list value) :=
  match v with
  | VList l => Ret l
  | VStr s => Ret (map VStr (Str.chars s))
  | VDict d => Ret (map (fun kv => VStr (fst kv)) d)
  | _ => not_iterable v
  end.

(** [len(v)] *)
Definition len (v : value) : py nat :=
  match v with
  | VList l => Ret (List.length l)
  | VStr s => Ret (Str.len s)
  | VDict d => Ret (List.length d)
  | _ => TypeError ("object of type '" ++ type_name v ++ "' has no len()")
  end.

(** [x == s] for a string [s]. *)
Definition eq_str (s : string) (x : value) : bool :=
  match x with
  | VStr t => String.eqb s t
  | _ => false
  end.

(** [s in v] for a string [s]: substring of a str, element of a list, key of
    a dict. *)
Definition contains (s : string) (v : value) : py bool :=
  match v with
  | VStr t => Ret (Str.contains s t)
  | VList l => Ret (existsb (eq_str s) l)
  | VDict d => Ret (match lookup s d with Some _ => true | None => false end)
  | _ => TypeError ("argument of type '" ++ type_name v ++ "' is not iterable")
  end.

(** [v[:n]].  A dict has no slice among its keys (before CPython 3.12 a
    slice is unhashable, a [TypeError]). *)
Definition slice_to (n : nat) (v : value) : py value :=
  match v with
  | VList l => Ret (VList (firstn n l))
  | VStr s => Ret (VStr (Str.take n s))
  | VDict _ => Raise (Error "KeyError" ("slice(None, " ++ Str.of_nat n ++ ", None)"))
  | _ => TypeError ("'" ++ type_name v ++ "' object is not subscriptable")
  end.

(** [v[0]] *)
Definition index0 (v : value) : py value :=
  match v with
  | VList (x :: _) => Ret x
  | VList [] => Raise (Error "IndexError" "list index out of range")
  | VStr s =>
      match Str.chars s with
      | c :: _ => Ret (VStr c)
      | [] => Raise (Error "IndexError" "string index out of range")
      end
  | VDict _ => Raise (Error "KeyError" "0")
  | _ => TypeError ("'" ++ type_name v ++ "' object is not subscriptable")
  end.

(** The [str] methods the class calls: [v.isupper()], [v.lower()],
    [v.strip()]. *)
Definition isupper (v : value) : py bool :=
  match v with
  | VStr s => Ret (Str.isupper s)
  | _ => AttributeError v "isupper"
  end.

Definition lower (v : value) : py string :=
  match v with
  | VStr s => Ret (Str.lower s)
  | _ => AttributeError v "lower"
  end.

Definition strip (v : value) : py string :=
  match v with
  | VStr s => Ret (Str.strip s)
  | _ => AttributeError v "strip"
  end.

(** The integer a value stands for in arithmetic ([bool] is a subclass of
    [int]). *)
Definition as_int (v : value) : option Z :=
  match v with
  | VInt n => Some n
  | VBool b => Some (if b then 1 else 0)
  | _ => None
  end.

(** A number: an [int] (or a [bool], which counts as one) or a [float]. *)
Inductive num : Type :=
| NInt (n : Z)
| NFloat (x : PrimFloat.float).

Definition of_num (n : num) : value :=
  match n with
  | NInt n => VInt n
  | NFloat x => VFloat x
  end.

Definition as_num (v : value) : option num :=
  match v with
  | VInt n => Some (NInt n)
  | VBool b => Some (NInt (if b then 1 else 0))
  | VFloat x => Some (NFloat x)
  | _ => None
  end.

(** The conversion of an [int] operand that meets a [float]. *)
Definition to_float (n : Z) : py PrimFloat.float :=
  match Float.of_Z n with
  | Some x => Ret x
  | None => Raise (Error "OverflowError" "int too large to convert to float")
  end.

(** [a - b]: exact on two [int]s, the IEEE subtraction as soon as one
    operand is a [float]. *)
Definition sub (a b : value) : py num :=
  match as_num a, as_num b with
  | Some (NInt x), Some (NInt y) => Ret (NInt (x - y))
  | Some (NFloat x), Some (NFloat y) => Ret (NFloat (PrimFloat.sub x y))
  | Some (NInt x), Some (NFloat y) => fx <- to_float x ;; Ret (NFloat (PrimFloat.sub fx y))
  | Some (NFloat x), Some (NInt y) => fy <- to_float y ;; Ret (NFloat (PrimFloat.sub x fy))
  | _, _ =>
      TypeError ("unsupported operand type(s) for -: '" ++ type_name a
                 ++ "' and '" ++ type_name b ++ "'")
  end.

(** The comparison of two numbers, which Python makes on their exact
    values; [None] when one of them is a NaN, which makes every ordering
    test false. *)
Definition num_compare (a b : num) : option comparison :=
  match a, b with
  | NInt x, NInt y => Some (x ?= y)%Z
  | NFloat x, NFloat y => Float.compare x y
  | NFloat x, NInt y => Float.compare_Z x y
  | NInt x, NFloat y => option_map CompOpp (Float.compare_Z y x)
  end.

(** [a < b], [a > b], [a >= b] *)
Definition num_lt (a b : num) : bool :=
  match num_compare a b with Some Lt => true | _ => false end.

Definition num_gt (a b : num) : bool :=
  match num_compare a b with Some Gt => true | _ => false end.

Definition num_ge (a b : num) : bool :=
  match num_compare a b with Some Gt | Some Eq => true | _ => false end.

(** [min(a, b)]: [b] when [b < a], otherwise [a]. *)
Definition num_min (a b : num) : num := if num_lt b a then b else a.

(** [max(a, b)]: [b] when [b > a], otherwise [a]. *)
Definition num_max (a b : num) : num := if num_gt b a then b else a.

(** [sep.join(l)]: every item has to be a str. *)
Fixpoint str_items (i : nat) (l : list value) : py (list string) :=
  match l with
  | [] => Ret []
  | VStr s :: l' => ss <- str_items (S i) l' ;; Ret (s :: ss)
  | v :: _ =>
      TypeError ("sequence item " ++ Str.of_nat i ++ ": expected str instance, "
                 ++ type_name v ++ " found")
  end.

Definition join (sep : string) (l : list value) : py string :=
  ss <- str_items 0 l ;; Ret (Str.join sep ss).

(** [x or y] *)
Definition or_else (x y : value) : value := if truthy x then x else y.

(** ** Text helpers of the templates *)

Definition nl : string := String (ascii_of_nat 10) "".

(** The text whose lines are [l] (joined by newlines, [chr(10)]). *)
Definition lines (l : list string) : string := Str.join nl l.

(** [dq s] is [s] with every apostrophe replaced by a double quote: the way
    JSON texts are written in this file. *)
Fixpoint dq (s : string) : string :=
  match s with
  | EmptyString => EmptyString
  | String c s' => String (if Ascii.eqb c "'"%char then dquote else c) (dq s')
  end.

(** ** Regular expressions of the model client *)

Module Re.

(** [re.sub(lit + r'\s*', '', s)] for a non-empty literal [lit]: the matches
    are found left to right and do not overlap; each is the literal followed
    by the longest run of whitespace.  [skip] counts the characters of the
    literal still to drop and [ws] says that a match is being extended by
    whitespace. *)
Fixpoint sub_lit_ws (lit : string) (skip : nat) (ws : bool) (s : string) : string :=
  match s with
  | EmptyString => EmptyString
  | String c s' =>
      match skip with
      | S k => sub_lit_ws lit k true s'
      | O =>
          if ws && Str.isspace c then sub_lit_ws lit O true s'
          else if String.prefix lit s then sub_lit_ws lit (String.length lit - 1) true s'
          else String c (sub_lit_ws lit O false s')
      end
  end.

(** [re.sub(r'```json\s*', '', s)] *)
Definition sub_fence_json (s : string) : string := sub_lit_ws "```json" 0 false s.

(** [re.sub(r'```\s*', '', s)] *)
Definition sub_fence (s : string) : string := sub_lit_ws "```" 0 false s.

(** The suffix of [s] that starts at the first [c]. *)
Fixpoint from_first (c : ascii) (s : string) : option string :=
  match s with
  | EmptyString => None
  | String a s' => if Ascii.eqb a c then Some s else from_first c s'
  end.

(** The prefix of [s] that ends at the last [c]. *)
Fixpoint upto_last (c : ascii) (s : string) : option string :=
  match s with
  | EmptyString => None
  | String a s' =>
      match upto_last c s' with
      | Some r => Some (String a r)
      | None => if Ascii.eqb a c then Some (String a EmptyString) else None
      end
  end.

(** [re.search(r'\{.*\}', s, re.DOTALL)]: the leftmost match starts at the
    first opening brace and, [.*] being greedy and matching newlines, ends
    at the last closing brace after it; [None] when there is none. *)
Definition search_braces (s : string) : option string :=
  match from_first "{"%char s with
  | Some t => upto_last "}"%char t
  | None => None
  end.

End Re.

(** ** The analyzer *)

(** What [requests.get] returns: the status code, the outcome of
    [response.json()], and the text of the [HTTPError] that
    [raise_for_status] raises for this response. *)
Record response : Type := {
  status_code : Z;
  json : py value;
  http_error_text : string
}.

(** [response.ok]: [raise_for_status] does not raise. *)
Definition is_http_error (r : response) : bool :=
  (400 <=? status_code r)%Z && (status_code r <? 600)%Z.

Definition ok (r : response) : bool := negb (is_http_error r).

Definition raise_for_status (r : response) : py unit :=
  if is_http_error r then Raise (HTTPError (status_code r) (http_error_text r))
  else Ret tt.

(** [{"error": msg}] *)
Definition error_result (msg : string) : value := VDict [("error", VStr msg)].

(** [sum(1 for x in l if p(x))] *)
Fixpoint count_if (p : value -> py bool) (l : list value) : py nat :=
  match l with
  | [] => Ret O
  | x :: l' =>
      b <- p x ;;
      n <- count_if p l' ;;
      Ret (if b then S n else n)
  end.

(** [k / n > q] for counts [k], [n] with [n > 0] and a decimal literal [q].
    Python divides and compares in binary floating point; for lists shorter
    than 2^50 entries the rounded quotient exceeds the rounded literal
    exactly when the exact quotient exceeds the exact literal, which is the
    comparison made here, over the rationals. *)
Definition ratio_exceeds (k n : nat) (q : Q) : bool :=
  negb (Qle_bool (Z.of_nat k # Pos.of_nat n) q).

(** [len(msg) > 50 and msg[0].isupper() and '.' in msg] *)
Definition is_perfect (msg : value) : py bool :=
  n <- len msg ;;
  if (50 <? n)%nat then
    c <- index0 msg ;;
    u <- isupper c ;;
    if u then contains "." msg else Ret false
  else Ret false.

Definition generic_words : list string :=
  ["update"; "fix"; "initial commit"; "first commit"; "changes"].

(** [any(word in msg.lower() for word in words)] *)
Fixpoint any_word_in_lower (msg : value) (words : list string) : py bool :=
  match words with
  | [] => Ret false
  | word :: rest =>
      l <- lower msg ;;
      if Str.contains word l then Ret true else any_word_in_lower msg rest
  end.

Definition is_generic (msg : value) : py bool := any_word_in_lower msg generic_words.

(** [commit.get('commit', {}).get('message', '')] *)
Definition commit_message (commit : value) : py value :=
  c <- get commit "commit" (VDict []) ;;
  get c "message" (VStr "").

Definition flag_if (b : bool) (flag : string) : list value :=
  if b then [VStr flag] else [].

(** [analyze_commit_patterns(self, commits)] *)
Definition analyze_commit_patterns (commits : value) : py value :=
  if negb (truthy commits) then
    Ret (VDict [("total_commits", VInt 0);
                ("red_flags", VList [VStr "No commit data available"]);
                ("commit_messages", VList []);
                ("pattern_score", VInt 20)])
  else
    items <- iter commits ;;
    commit_messages <- mapM commit_message items ;;
    let n := List.length commit_messages in
    perfect <-
      (if (0 <? n)%nat then
         perfect_count <- count_if is_perfect commit_messages ;;
         Ret (ratio_exceeds perfect_count n (8 # 10))
       else Ret false) ;;
    total <- len commits ;;
    generic <-
      (if (0 <? n)%nat then
         generic_count <- count_if is_generic commit_messages ;;
         Ret (ratio_exceeds generic_count n (6 # 10))
       else Ret false) ;;
    let red_flags :=
      (flag_if perfect "Most commits have perfect grammar (AI-generated?)"
       ++ flag_if (total <? 5)%nat "Very few commits (< 5)"
       ++ flag_if generic "Over 60% generic commit messages")%list in
    Ret (VDict [("total_commits", VInt (Z.of_nat total));
                ("red_flags", VList red_flags);
                ("commit_messages", VList (firstn 10 commit_messages));
                ("pattern_score", VInt (Z.of_nat (List.length red_flags) * 15))]).

(** [round(x, 1)]: an [int] is returned as it is, a [float] is rounded to
    one decimal. *)
Definition round1 (x : num) : num :=
  match x with
  | NInt n => NInt n
  | NFloat f => NFloat (Float.round1 f)
  end.

(** The [if]/[elif] chain of [calculate_final_score]: category, risk and
    color of a final score. *)
Definition bands (final_score : num) : string * string * string :=
  if num_ge final_score (NInt 75) then ("✅ AUTHENTIC", "Low", "green")
  else if num_ge final_score (NInt 50) then ("⚠️ SUSPICIOUS", "Medium", "yellow")
  else if num_ge final_score (NInt 25) then ("🚨 LIKELY PADDED", "High", "orange")
  else ("💀 FAKE/COPIED", "Critical", "red").

(** [calculate_final_score(self, groq_analysis, commit_analysis)] *)
Definition calculate_final_score (groq_analysis commit_analysis : value) : py value :=
  base_score <- get groq_analysis "authenticity_score" (VInt 50) ;;
  commit_penalty <- get commit_analysis "pattern_score" (VInt 0) ;;
  diff <- sub base_score commit_penalty ;;
  let final_score := num_max (NInt 0) (num_min (NInt 100) diff) in
  let '(category, risk, color) := bands final_score in
  model_flags <- get groq_analysis "red_flags" (VList []) ;;
  l1 <- iter model_flags ;;
  indicators <- get groq_analysis "ai_indicators" (VList []) ;;
  l2 <- iter indicators ;;
  commit_flags <- get commit_analysis "red_flags" (VList []) ;;
  l3 <- iter commit_flags ;;
  let all_red_flags := (l1 ++ l2 ++ l3)%list in
  ai_generated_score <- get groq_analysis "ai_generated_score" (VInt 0) ;;
  technical_complexity <- get groq_analysis "technical_complexity" (VInt 5) ;;
  hiring_recommendation <- get groq_analysis "hiring_recommendation" (VStr "") ;;
  Ret (VDict [("authenticity_score", of_num (round1 final_score));
              ("category", VStr category);
              ("risk_level", VStr risk);
              ("color", VStr color);
              ("ai_generated_score", ai_generated_score);
              ("technical_complexity", technical_complexity);
              ("red_flags", VList (firstn 10 all_red_flags));
              ("hiring_recommendation", hiring_recommendation);
              ("groq_analysis", groq_analysis);
              ("commit_analysis", commit_analysis)]).

(** The numbered lines of the red-flag section:
    [for i, flag in enumerate(flags, 1): report += f"{i}. {flag}\n"]. *)
Fixpoint numbered (i : nat) (flags : list value) : string :=
  match flags with
  | [] => EmptyString
  | flag :: rest => Str.of_nat i ++ ". " ++ str flag ++ nl ++ numbered (S i) rest
  end.

(** [generate_report(self, repo_data, final_analysis)] *)
Definition generate_report (repo_data final_analysis : value) : py string :=
  name <- get repo_data "name" VNone ;;
  owner <- get repo_data "owner" VNone ;;
  repo <- get repo_data "repo" VNone ;;
  stars <- get repo_data "stars" VNone ;;
  score <- subscript final_analysis "authenticity_score" ;;
  category <- subscript final_analysis "category" ;;
  risk_level <- subscript final_analysis "risk_level" ;;
  ai_generated_score <- subscript final_analysis "ai_generated_score" ;;
  technical_complexity <- subscript final_analysis "technical_complexity" ;;
  groq1 <- subscript final_analysis "groq_analysis" ;;
  padding <- get groq1 "resume_padding_score" (VInt 0) ;;
  flags1 <- subscript final_analysis "red_flags" ;;
  n_flags <- len flags1 ;;
  let report :=
    lines ["# 🔍 GITHUB REPOSITORY ANALYSIS";
           "";
           "## Repository: " ++ str name;
           "**URL:** https://github.com/" ++ str owner ++ "/" ++ str repo ++ "  ";
           "**Stars:** ⭐ " ++ str stars;
           "";
           "---";
           "";
           "## 🎯 AUTHENTICITY SCORE: " ++ str score ++ "/100";
           "";
           "**Category:** " ++ str category ++ "  ";
           "**Risk Level:** " ++ str risk_level;
           "";
           "---";
           "";
           "## 📊 KEY METRICS";
           "";
           "| Metric | Score |";
           "|--------|-------|";
           "| **AI-Generated Code** | " ++ str ai_generated_score ++ "/100 |";
           "| **Technical Complexity** | " ++ str technical_complexity ++ "/10 |";
           "| **Resume Padding Risk** | " ++ str padding ++ "/100 |";
           "";
           "---";
           "";
           "## 🚩 RED FLAGS (" ++ Str.of_nat n_flags ++ ")";
           "";
           ""] in
  flags2 <- subscript final_analysis "red_flags" ;;
  report <-
    (if truthy flags2 then
       flags3 <- subscript final_analysis "red_flags" ;;
       items <- iter flags3 ;;
       Ret (report ++ numbered 1 items)
     else Ret (report ++ "*No major red flags detected*" ++ nl)) ;;
  hiring <- subscript final_analysis "hiring_recommendation" ;;
  groq2 <- subscript final_analysis "groq_analysis" ;;
  complexity <- get groq2 "complexity_reasoning" (VStr "N/A") ;;
  groq3 <- subscript final_analysis "groq_analysis" ;;
  authenticity <- get groq3 "authenticity_reasoning" (VStr "N/A") ;;
  Ret (report ++
       lines ["";
              "---";
              "";
              "## 💡 HIRING RECOMMENDATION";
              "";
              str hiring;
              "";
              "---";
              "";
              "## 🔬 DETAILED ANALYSIS";
              "";
              "### Technical Complexity";
              str complexity;
              "";
              "### Authenticity Assessment";
              str authenticity;
              "";
              "---";
              "";
              "*Generated by GitHub Repo Scanner • Powered by Groq AI*";
              ""]).

(** ** Standard output *)

(** A computation that may print: the lines printed so far are threaded
    through, and kept when the computation raises. *)
Definition Run (A : Type) : Type := list string -> py A * list string.

Definition lift {A : Type} (m : py A) : Run A := fun out => (m, out).

Definition print (line : string) : Run unit := fun out => (Ret tt, (out ++ [line])%list).

Definition bindR {A B : Type} (m : Run A) (k : A -> Run B) : Run B :=
  fun out =>
    match m out with
    | (Ret a, out') => k a out'
    | (Raise e, out') => (Raise e, out')
    end.

Declare Scope run_scope.
Delimit Scope run_scope with run.
Notation "x <- m ;; k" := (bindR m (fun x => k))
  (at level 61, m at next level, right associativity) : run_scope.
Notation "m ;;; k" := (bindR m (fun _ => k))
  (at level 61, right associativity) : run_scope.

(** The text the response parser works on: the reply stripped, then with
    the two fence patterns removed. *)
Definition response_text (content : string) : string :=
  Re.sub_fence (Re.sub_fence_json (Str.strip content)).

(** A reply wrapped in a fenced block with the language tag [json]. *)
Definition fenced (text : string) : string :=
  "```json" ++ nl ++ text ++ nl ++ "```".

(** The character [c] does not occur in [s]. *)
Definition lacks (c : ascii) (s : string) : Prop :=
  Str.existsb_char (Ascii.eqb c) s = false.


(** Two calls that return the same value, or both raise. *)
Definition same_outcome {A : Type} (m1 m2 : py A) : Prop :=
  match m1, m2 with
  | Ret a, Ret b => a = b
  | Raise _, Raise _ => True
  | _, _ => False
  end.

Section Analyzer.

(** [requests.get(url, timeout=10)] *)
Variable requests_get : string -> py response.

(** [json.loads(text)] *)
Variable json_loads : string -> py value.

(** [base64.b64decode(x).decode('utf-8', errors='ignore')] *)
Variable b64decode_utf8 : value -> py string.

(** [self.groq_client.chat.completions.create(...)] for the user prompt
    (model, system message, temperature and token budget are constants of
    the call), followed by [.choices[0].message.content]. *)
Variable groq_create : string -> py value.

(** The body of the [try] block of [fetch_repo_data]. *)
Definition fetch_try (owner repo : string) : py value :=
  let api_url := "https://api.github.com/repos/" ++ owner ++ "/" ++ repo in
  response <- requests_get api_url ;;
  raise_for_status response ;;;
  repo_data <- json response ;;
  commits_response <- requests_get (api_url ++ "/commits") ;;
  commits <- (if ok commits_response then json commits_response else Ret (VList [])) ;;
  lang_response <- requests_get (api_url ++ "/languages") ;;
  languages <- (if ok lang_response then json lang_response else Ret (VDict [])) ;;
  readme_response <- requests_get (api_url ++ "/readme") ;;
  readme_content <-
    (if ok readme_response then
       readme_data <- json readme_response ;;
       content <- get readme_data "content" (VStr "") ;;
       b64decode_utf8 content
     else Ret "") ;;
  name <- get repo_data "name" VNone ;;
  description <- get repo_data "description" (VStr "") ;;
  stars <- get repo_data "stargazers_count" (VInt 0) ;;
  forks <- get repo_data "forks_count" (VInt 0) ;;
  created_at <- get repo_data "created_at" VNone ;;
  updated_at <- get repo_data "updated_at" VNone ;;
  language <- get repo_data "language" VNone ;;
  commits20 <- slice_to 20 commits ;;
  Ret (VDict [("name", name);
              ("description", description);
              ("stars", stars);
              ("forks", forks);
              ("created_at", created_at);
              ("updated_at", updated_at);
              ("language", language);
              ("languages", languages);
              ("commits", commits20);
              ("readme", VStr (Str.take 5000 readme_content));
              ("owner", VStr owner);
              ("repo", VStr repo)]).

(** The two [except] clauses of [fetch_repo_data]. *)
Definition fetch_except (e : exn) : py value :=
  match e with
  | HTTPError status msg =>
      if (status =? 404)%Z then Ret (error_result "Repository not found")
      else if (status =? 403)%Z then Ret (error_result "Rate limit exceeded. Wait 1 hour.")
      else Ret (error_result ("GitHub API error: " ++ msg))
  | Error _ msg => Ret (error_result ("Failed to fetch repo: " ++ msg))
  end.

(** [parts[-2]], [parts[-1]] *)
Definition from_end (k : nat) (parts : list string) : string :=
  nth (List.length parts - k) parts EmptyString.

(** [fetch_repo_data(self, repo_url)] *)
Definition fetch_repo_data (repo_url : string) : py value :=
  let parts := Str.split "/" (Str.rstrip_slash repo_url) in
  if (List.length parts <? 2)%nat then Ret (error_result "Invalid GitHub URL")
  else
    let owner := from_end 2 parts in
    let repo := from_end 1 parts in
    try_except (fetch_try owner repo) fetch_except.

(** The commit messages quoted in the prompt: the non-empty messages of the
    first ten commits. *)
Fixpoint prompt_messages (commits : list value) : py (list value) :=
  match commits with
  | [] => Ret []
  | commit :: rest =>
      msg <- commit_message commit ;;
      msgs <- prompt_messages rest ;;
      Ret (if truthy msg then msg :: msgs else msgs)
  end.

(** The prompt of [analyze_with_groq]. *)
Definition build_prompt (repo_data : value) (commit_msgs : list value) : py string :=
  name <- get repo_data "name" VNone ;;
  description <- get repo_data "description" VNone ;;
  language <- get repo_data "language" VNone ;;
  stars <- get repo_data "stars" VNone ;;
  recent <-
    (match commit_msgs with
     | [] => Ret "No commits"
     | _ => join nl commit_msgs
     end) ;;
  readme <- get repo_data "readme" (VStr "No README") ;;
  readme2000 <- slice_to 2000 readme ;;
  Ret (lines
    ["Analyze this GitHub repository for authenticity and technical complexity.";
     "";
     "Repository: " ++ str name;
     "Description: " ++ str (or_else description (VStr "No description"));
     "Language: " ++ str (or_else language (VStr "Unknown"));
     "Stars: " ++ str stars;
     "";
     "Recent Commits:";
     recent;
     "";
     "README:";
     str readme2000;
     "";
     "Analyze:";
     "1. AI-Generated Code Score (0-100)";
     "2. Resume Padding Score (0-100)";
     "3. Technical Complexity (1-10)";
     "4. Authenticity Score (0-100)";
     "";
     "Respond with ONLY valid JSON:";
     "{";
     dq "    'ai_generated_score': 45,";
     dq "    'ai_indicators': ['indicator1', 'indicator2'],";
     dq "    'resume_padding_score': 30,";
     dq "    'padding_indicators': ['indicator1'],";
     dq "    'technical_complexity': 5,";
     dq "    'complexity_reasoning': 'explanation',";
     dq "    'authenticity_score': 65,";
     dq "    'authenticity_reasoning': 'explanation',";
     dq "    'overall_assessment': 'SUSPICIOUS',";
     dq "    'red_flags': ['flag1', 'flag2'],";
     dq "    'hiring_recommendation': 'recommendation'";
     "}"]).

(** The response parser of [analyze_with_groq]: the statements between the
    chat completion and the outer [except]. *)
Definition parse_response (content : value) : py value :=
  stripped <- strip content ;;
  let text := Re.sub_fence (Re.sub_fence_json stripped) in
  try_except (json_loads text)
    (fun _ =>
       match Re.search_braces text with
       | Some span => json_loads span
       | None => Ret (error_result "Could not parse response")
       end).

(** The statements of [analyze_with_groq] that come before its [try]. *)
Definition model_prompt (repo_data : value) : py string :=
  commits <- get repo_data "commits" (VList []) ;;
  first10 <- slice_to 10 commits ;;
  items <- iter first10 ;;
  commit_msgs <- prompt_messages items ;;
  build_prompt repo_data commit_msgs.

(** [analyze_with_groq(self, repo_data)] *)
Definition analyze_with_groq (repo_data : value) : py value :=
  prompt <- model_prompt repo_data ;;
  try_except
    (content <- groq_create prompt ;;
     parse_response content)
    (fun e => Ret (error_result ("Groq analysis failed: " ++ exn_str e))).

Local Open Scope run_scope.

(** [analyze_repository(self, repo_url)] *)
Definition analyze_repository (repo_url : string) : Run value :=
  print ("🔍 Analyzing: " ++ repo_url) ;;;
  print "📥 Fetching data..." ;;;
  repo_data <- lift (fetch_repo_data repo_url) ;;
  fetch_failed <- lift (contains "error" repo_data) ;;
  if fetch_failed then lift (Ret repo_data)
  else
    print "📊 Analyzing commits..." ;;;
    commits <- lift (get repo_data "commits" (VList [])) ;;
    commit_analysis <- lift (analyze_commit_patterns commits) ;;
    print "🤖 Running AI analysis..." ;;;
    groq_analysis <- lift (analyze_with_groq repo_data) ;;
    model_failed <- lift (contains "error" groq_analysis) ;;
    if model_failed then lift (Ret groq_analysis)
    else
      print "🎯 Calculating score..." ;;;
      final_analysis <- lift (calculate_final_score groq_analysis commit_analysis) ;;
      print "📄 Generating report..." ;;;
      report <- lift (generate_report repo_data final_analysis) ;;
      lift (Ret (VDict [("repo_data", repo_data);
                        ("final_analysis", final_analysis);
                        ("report", VStr report)])).

Local Close Scope run_scope.

End Analyzer.

(** ** A reference [json.loads]

    The decoder of CPython's [json] module: objects, arrays, strings with
    the single-character escapes, integers, reals, the three literals and
    the constants [NaN], [Infinity] and [-Infinity].  It instantiates the
    Variable [json_loads] in the closed examples; [\u] escapes are
    reported as not modelled.  The error text has CPython's form
    [msg: line L column C (char N)]. *)

Module Json.

Inductive outcome (A : Type) : Type :=
| Ok (a : A) (rest : string)
| Bad (msg : string) (at_ : string)
| NotModelled (what : string).

Arguments Ok {A} a rest.
Arguments Bad {A} msg at_.
Arguments NotModelled {A} what.

Definition is_ws (c : ascii) : bool :=
  let n := Str.code c in ((n =? 32) || (n =? 9) || (n =? 10) || (n =? 13))%nat.

Fixpoint skip_ws (s : string) : string :=
  match s with
  | EmptyString => EmptyString
  | String c s' => if is_ws c then skip_ws s' else s
  end.

Definition is_digit (c : ascii) : bool :=
  let n := Str.code c in ((48 <=? n) && (n <=? 57))%nat.

(** The digits at the head of [s], as a number, and what follows them. *)
Fixpoint digits (acc : Z) (s : string) : Z * string :=
  match s with
  | EmptyString => (acc, s)
  | String c s' =>
      if is_digit c then digits (10 * acc + Z.of_nat (Str.code c - 48)) s'
      else (acc, s)
  end.

(** A fraction at the head of [s], a point and one digit at least: the
    digits [n] read so far extended by those of the fraction, the number of
    these, and what follows. *)
Definition fraction_part (n : Z) (s : string) : option (Z * nat * string) :=
  match s with
  | String "."%char (String d _ as r) =>
      if is_digit d then
        let '(m, rest) := digits n r in
        Some (m, (String.length r - String.length rest)%nat, rest)
      else None
  | _ => None
  end.

(** An exponent at the head of [s]: [e] or [E], an optional sign and one
    digit at least. *)
Definition exponent_part (s : string) : option (Z * string) :=
  match s with
  | String c r =>
      if Ascii.eqb c "e"%char || Ascii.eqb c "E"%char then
        let '(neg, body) :=
          match r with
          | String "-"%char b => (true, b)
          | String "+"%char b => (false, b)
          | _ => (false, r)
          end in
        match body with
        | String d _ =>
            if is_digit d then
              let '(k, rest) := digits 0 body in
              Some (if neg then - k else k, rest)
            else None
        | EmptyString => None
        end
      else None
  | EmptyString => None
  end.

(** A number at the head of [s]: an optional minus sign, then [0] or a
    digit run that does not start with [0], then an optional fraction and
    an optional exponent.  With neither it is an [int], otherwise a
    [float]. *)
Definition number (s : string) : outcome value :=
  let '(neg, body) :=
    match s with
    | String "-"%char r => (true, r)
    | _ => (false, s)
    end in
  match body with
  | String c r =>
      if is_digit c then
        let '(n, rest) := if Ascii.eqb c "0"%char then (0, r) else digits 0 body in
        match fraction_part n rest, exponent_part rest with
        | None, None => Ok (VInt (if neg then - n else n)) rest
        | None, Some (k, rest') =>
            Ok (VFloat (Float.of_decimal neg (Z.to_N n) k)) rest'
        | Some (m, places, rest'), _ =>
            match exponent_part rest' with
            | None =>
                Ok (VFloat (Float.of_decimal neg (Z.to_N m) (- Z.of_nat places))) rest'
            | Some (k, rest'') =>
                Ok (VFloat (Float.of_decimal neg (Z.to_N m) (k - Z.of_nat places))) rest''
            end
        end
      else Bad "Expecting value" s
  | EmptyString => Bad "Expecting value" s
  end.

Definition unescape (c : ascii) : option ascii :=
  if Ascii.eqb c dquote then Some dquote
  else if Ascii.eqb c "\"%char then Some "\"%char
  else if Ascii.eqb c "/"%char then Some "/"%char
  else if Ascii.eqb c "b"%char then Some (ascii_of_nat 8)
  else if Ascii.eqb c "f"%char then Some (ascii_of_nat 12)
  else if Ascii.eqb c "n"%char then Some (ascii_of_nat 10)
  else if Ascii.eqb c "r"%char then Some (ascii_of_nat 13)
  else if Ascii.eqb c "t"%char then Some (ascii_of_nat 9)
  else None.

(** The characters of a string up to its closing quote; [start] is the text
    from the opening quote on. *)
Fixpoint string_body (start : string) (s : string) : outcome string :=
  match s with
  | EmptyString => Bad "Unterminated string starting at" start
  | String c s' =>
      if Ascii.eqb c dquote then Ok EmptyString s'
      else if Ascii.eqb c "\"%char then
        match s' with
        | EmptyString => Bad "Unterminated string starting at" start
        | String e s'' =>
            if Ascii.eqb e "u"%char then NotModelled "a \u escape"
            else match unescape e with
                 | None => Bad "Invalid \escape" s
                 | Some a =>
                     match string_body start s'' with
                     | Ok w rest => Ok (String a w) rest
                     | other => other
                     end
                 end
        end
      else if (Str.code c <? 32)%nat then Bad "Invalid control character at" s
      else
        match string_body start s' with
        | Ok w rest => Ok (String c w) rest
        | other => other
        end
  end.

(** [d[k] = v] *)
Fixpoint dict_set (k : string) (v : value) (d : dict) : dict :=
  match d with
  | [] => [(k, v)]
  | (k', v') :: d' =>
      if String.eqb k k' then (k, v) :: d' else (k', v') :: dict_set k v d'
  end.

Definition starts_with (c : ascii) (s : string) : bool :=
  match s with
  | String a _ => Ascii.eqb a c
  | EmptyString => false
  end.

Definition tail (s : string) : string :=
  match s with
  | String _ r => r
  | EmptyString => EmptyString
  end.

Definition literal (word : string) (v : value) (s : string) : outcome value :=
  if String.prefix word s
  then Ok v (String.substring (String.length word) (String.length s - String.length word) s)
  else Bad "Expecting value" s.

Fixpoint scan (fuel : nat) (s : string) : outcome value :=
  match fuel with
  | O => NotModelled "nesting beyond the fuel"
  | S f =>
      if starts_with dquote s then
        match string_body s (tail s) with
        | Ok w rest => Ok (VStr w) rest
        | Bad m a => Bad m a
        | NotModelled w => NotModelled w
        end
      else if starts_with "{"%char s then
        let r := skip_ws (tail s) in
        if starts_with "}"%char r then Ok (VDict []) (tail r)
        else members f [] r
      else if starts_with "["%char s then
        let r := skip_ws (tail s) in
        if starts_with "]"%char r then Ok (VList []) (tail r)
        else elements f [] r
      else if starts_with "n"%char s then literal "null" VNone s
      else if starts_with "t"%char s then literal "true" (VBool true) s
      else if starts_with "f"%char s then literal "false" (VBool false) s
      else if String.prefix "NaN" s then literal "NaN" (VFloat PrimFloat.nan) s
      else if String.prefix "Infinity" s then
        literal "Infinity" (VFloat PrimFloat.infinity) s
      else if String.prefix "-Infinity" s then
        literal "-Infinity" (VFloat PrimFloat.neg_infinity) s
      else number s
  end

with members (fuel : nat) (acc : dict) (s : string) : outcome value :=
  match fuel with
  | O => NotModelled "nesting beyond the fuel"
  | S f =>
      if negb (starts_with dquote s)
      then Bad "Expecting property name enclosed in double quotes" s
      else
        match string_body s (tail s) with
        | Bad m a => Bad m a
        | NotModelled w => NotModelled w
        | Ok key r =>
            let r := skip_ws r in
            if negb (starts_with ":"%char r) then Bad "Expecting ':' delimiter" r
            else
              match scan f (skip_ws (tail r)) with
              | Bad m a => Bad m a
              | NotModelled w => NotModelled w
              | Ok v r =>
                  let acc := dict_set key v acc in
                  let r := skip_ws r in
                  if starts_with "}"%char r then Ok (VDict acc) (tail r)
                  else if starts_with ","%char r then members f acc (skip_ws (tail r))
                  else Bad "Expecting ',' delimiter" r
              end
        end
  end

with elements (fuel : nat) (acc : list value) (s : string) : outcome value :=
  match fuel with
  | O => NotModelled "nesting beyond the fuel"
  | S f =>
      match scan f s with
      | Bad m a => Bad m a
      | NotModelled w => NotModelled w
      | Ok v r =>
          let acc := (acc ++ [v])%list in
          let r := skip_ws r in
          if starts_with "]"%char r then Ok (VList acc) (tail r)
          else if starts_with ","%char r then elements f acc (skip_ws (tail r))
          else Bad "Expecting ',' delimiter" r
      end
  end.

Fixpoint count_char (c : ascii) (s : string) : nat :=
  match s with
  | EmptyString => O
  | String a s' => (if Ascii.eqb a c then 1 else 0) + count_char c s'
  end.

(** The text after the last newline of [s] ([s] itself when it has none). *)
Fixpoint last_line (s : string) : string :=
  match s with
  | EmptyString => EmptyString
  | String a s' =>
      if (0 <? count_char (ascii_of_nat 10) s)%nat
      then (if Ascii.eqb a (ascii_of_nat 10) && (count_char (ascii_of_nat 10) s' =? 0)%nat
            then s' else last_line s')
      else s
  end.

(** [JSONDecodeError(msg, doc, pos)], [at_] being [doc[pos:]]. *)
Definition decode_error (doc : string) (msg : string) (at_ : string) : exn :=
  let before := String.substring 0 (String.length doc - String.length at_) doc in
  let pos := Str.len before in
  let lineno := S (count_char (ascii_of_nat 10) before) in
  let colno := S (Str.len (last_line before)) in
  Error "JSONDecodeError"
    (msg ++ ": line " ++ Str.of_nat lineno ++ " column " ++ Str.of_nat colno
         ++ " (char " ++ Str.of_nat pos ++ ")").

(** [json.loads(doc)] *)
Definition loads (doc : string) : py value :=
  match scan (S (String.length doc)) (skip_ws doc) with
  | Ok v rest =>
      match skip_ws rest with
      | EmptyString => Ret v
      | extra => Raise (decode_error doc "Extra data" extra)
      end
  | Bad msg at_ => Raise (decode_error doc msg at_)
  | NotModelled what => Raise (Error "NotModelled" what)
  end.

End Json.

(** ** Well-formed inputs *)

Definition is_int (v : value) : bool :=
  match v with VInt _ => true | _ => false end.

Definition is_str (v : value) : bool :=
  match v with VStr _ => true | _ => false end.

Definition is_list (v : value) : bool :=
  match v with VList _ => true | _ => false end.

(** The field [k] of [d] is absent, or has the type [ty]. *)
Definition field_ok (ty : value -> bool) (k : string) (d : dict) : bool :=
  match lookup k d with
  | None => true
  | Some v => ty v
  end.

Definition is_number (v : value) : bool :=
  match as_num v with Some _ => true | None => false end.

(** A model assessment whose score is an integer and whose flag lists are
    lists, each when present. *)
Definition wf_assessment (g : dict) : bool :=
  field_ok is_int "authenticity_score" g
  && field_ok is_list "red_flags" g
  && field_ok is_list "ai_indicators" g.

(** A model assessment whose score is a number, an integer or a real, and
    whose flag lists are lists, each when present. *)
Definition numeric_assessment (g : dict) : bool :=
  field_ok is_number "authenticity_score" g
  && field_ok is_list "red_flags" g
  && field_ok is_list "ai_indicators" g.

(** A value a loop can draw items from: a list, a string, an object. *)
Definition is_iterable (v : value) : bool :=
  match v with
  | VList _ | VStr _ | VDict _ => true
  | _ => false
  end.

(** A model assessment the fusion can read: a score that is a number and
    flag fields that can be iterated, each when present. *)
Definition readable_assessment (g : dict) : bool :=
  field_ok is_number "authenticity_score" g
  && field_ok is_iterable "red_flags" g
  && field_ok is_iterable "ai_indicators" g.

(** A commit-heuristic result, likewise. *)
Definition wf_heuristic (c : dict) : bool :=
  field_ok is_int "pattern_score" c && field_ok is_list "red_flags" c.

(** A commit entry: an object whose ["commit"], when present, is an object
    whose ["message"], when present, is a string. *)
Definition wf_commit (commit : value) : bool :=
  match commit with
  | VDict d =>
      match lookup "commit" d with
      | None => true
      | Some (VDict c) => field_ok is_str "message" c
      | Some _ => false
      end
  | _ => false
  end.

(** The integer field [k] of [d], [default] when it is absent. *)
Definition int_field (k : string) (default : Z) (d : dict) : Z :=
  match lookup k d with
  | Some (VInt n) => n
  | _ => default
  end.

(** The list field [k] of [d], empty when it is absent. *)
Definition list_field (k : string) (d : dict) : list value :=
  match lookup k d with
  | Some (VList l) => l
  | _ => []
  end.

(** The field [k] of the dictionary a call returned. *)
Definition field (k : string) (m : py value) : option value :=
  match m with
  | Ret (VDict d) => lookup k d
  | _ => None
  end.

(** The numeric field [k] of [d], [default] when it is absent. *)
Definition num_field (k : string) (default : Z) (d : dict) : num :=
  match lookup k d with
  | Some v => match as_num v with Some n => n | None => NInt default end
  | None => NInt default
  end.

(** [m[k]] for the value a call returned. *)
Definition subscript_of (m : py value) (k : string) : py value :=
  r <- m ;; subscript r k.

(** [clamp(x, 0, 100)] *)
Definition clamp (x : Z) : Z := Z.max 0 (Z.min 100 x).

(** [max(0, min(100, x))] as Python evaluates it on a number. *)
Definition clamp_num (x : num) : num := num_max (NInt 0) (num_min (NInt 100) x).

(** [lo <= x <= hi] *)
Definition num_between (lo hi : Z) (x : num) : bool :=
  num_ge x (NInt lo) && num_ge (NInt hi) x.

(** The float a decimal literal of a JSON text stands for:
    [decimal n k] is read from the digits of [n] with [k] of them after
    the point. *)
Definition decimal (n : Z) (places : nat) : PrimFloat.float :=
  Float.of_decimal (n <? 0)%Z (Z.to_N (Z.abs n)) (- Z.of_nat places).

(** The message of a well-formed commit entry. *)
Definition message_of (commit : value) : string :=
  match commit with
  | VDict d =>
      match lookup "commit" d with
      | Some (VDict c) =>
          match lookup "message" c with
          | Some (VStr s) => s
          | _ => EmptyString
          end
      | _ => EmptyString
      end
  | _ => EmptyString
  end.

(** A message that contains a generic word, letter case ignored. *)
Definition generic_message (msg : string) : bool :=
  existsb (fun word => Str.contains word (Str.lower msg)) generic_words.

Definition generic_count (commits : list value) : nat :=
  List.length (filter generic_message (map message_of commits)).

(** ** A sample run *)

Module Sample.

Definition http_ok (body : value) : response :=
  {| status_code := 200; json := Ret body; http_error_text := EmptyString |}.

Definition not_found (url : string) : response :=
  {| status_code := 404;
     json := Ret (VDict [("message", VStr "Not Found")]);
     http_error_text := "404 Client Error: Not Found for url: " ++ url |}.

Definition commit (msg : string) : value :=
  VDict [("sha", VStr "7fd1a60b01f91b314f59955a4e4d4e80d8edf11d");
         ("commit", VDict [("message", VStr msg)])].

Definition repo_body : value :=
  VDict [("name", VStr "Hello-World");
         ("description", VStr "My first repository on GitHub!");
         ("stargazers_count", VInt 2500);
         ("forks_count", VInt 1800);
         ("created_at", VStr "2011-01-26T19:01:12Z");
         ("updated_at", VStr "2024-05-01T10:00:00Z");
         ("language", VNone)].

Definition commits_body : value :=
  VList [commit "Merge pull request #6 from Spaceghost/patch-1";
         commit "New line at end of file.";
         commit "first commit"].

Definition api : string := "https://api.github.com/repos/octocat/Hello-World".

(** The hosting platform: one repository, without a README. *)
Definition requests_get (url : string) : py response :=
  if String.eqb url api then Ret (http_ok repo_body)
  else if String.eqb url (api ++ "/commits") then Ret (http_ok commits_body)
  else if String.eqb url (api ++ "/languages") then Ret (http_ok (VDict [("Ruby", VInt 120)]))
  else Ret (not_found url).

(** No README is served, so nothing is ever decoded. *)
Definition b64decode_utf8 (content : value) : py string :=
  match content with
  | VStr EmptyString => Ret EmptyString
  | _ => Raise (Error "NotModelled" "base64")
  end.

(** A model that answers [text] to every prompt. *)
Definition groq_says (text : string) (prompt : string) : py value := Ret (VStr text).

Definition url : string := "https://github.com/octocat/Hello-World".

Definition run (reply : string) : py value * list string :=
  analyze_repository requests_get Json.loads b64decode_utf8 (groq_says reply) url [].

(** The record fetched for [url], the heuristics of its commits, the prompt
    built from it, and a fused result. *)
Definition record : value :=
  Eval vm_compute in
    match fetch_repo_data requests_get b64decode_utf8 url with
    | Ret v => v
    | Raise _ => VNone
    end.

Definition heuristics : value :=
  Eval vm_compute in
    match analyze_commit_patterns commits_body with
    | Ret v => v
    | Raise _ => VNone
    end.

Definition prompt : string :=
  Eval vm_compute in
    match model_prompt record with
    | Ret p => p
    | Raise _ => EmptyString
    end.

Definition fused : value :=
  Eval vm_compute in
    match calculate_final_score (VDict [("authenticity_score", VInt 80)]) heuristics with
    | Ret v => v
    | Raise _ => VNone
    end.

(** Ten commit entries, the first [k] of them with the message [hit] and
    the others with the message [miss]. *)
Definition ten_commits (k : nat) (hit miss : string) : list value :=
  (repeat (commit hit) k ++ repeat (commit miss) (10 - k))%list.

End Sample.

(** ** Specification-side functions *)

(** The grammar test of a message, as a function of its text. *)
Definition perfect_message (msg : string) : bool :=
  (50 <? Str.len msg)%nat
  && match Str.chars msg with
     | c :: _ => Str.isupper c
     | [] => false
     end
  && Str.contains "." msg.

(** The three checks of [analyze_commit_patterns], in the order of their
    flags. *)
Definition heuristic_flags (commits : list value) : list value :=
  let msgs := map message_of commits in
  let n := List.length commits in
  (flag_if (ratio_exceeds (List.length (filter perfect_message msgs)) n (8 # 10))
     "Most commits have perfect grammar (AI-generated?)"
   ++ flag_if (n <? 5)%nat "Very few commits (< 5)"
   ++ flag_if (ratio_exceeds (generic_count commits) n (6 # 10))
        "Over 60% generic commit messages")%list.

(** The flags of the grammar check and of the size check, and the number
    of messages that pass the grammar test. *)
Definition grammar_flag : value := VStr "Most commits have perfect grammar (AI-generated?)".

Definition few_flag : value := VStr "Very few commits (< 5)".

Definition perfect_count (commits : list value) : nat :=
  List.length (filter perfect_message (map message_of commits)).

(** The lines [analyze_repository] has printed when the fetch is over,
    when the model stage is over, and at the end. *)
Definition printed_to_fetch (repo_url : string) : list string :=
  ["🔍 Analyzing: " ++ repo_url; "📥 Fetching data..."].

Definition printed_to_model (repo_url : string) : list string :=
  (printed_to_fetch repo_url ++ ["📊 Analyzing commits..."; "🤖 Running AI analysis..."])%list.

Definition printed_to_end (repo_url : string) : list string :=
  (printed_to_model repo_url ++ ["🎯 Calculating score..."; "📄 Generating report..."])%list.

(** ** The presentation shell ([app.py])

    The script is run again at every interaction; what is modelled are the
    handlers that decide on the analyzer's inputs and outputs.  A widget
    call is an event of the list a handler returns, and the session state
    is the record [session].  [config.GROQ_API_KEY] (the module [config] is
    not part of the sources) and the outcome of the [GitHubRepoAnalyzer]
    constructor are arguments. *)

Module App.

Inductive ui : Type :=
| StError (body : value)
| StWarning (body : value)
| StSuccess (body : value)
| StException (e : exn)
| StRerun.

(** [st.session_state]: [result] is [None] until an analysis succeeds. *)
Record session : Type := {
  result : value;
  analyzing : bool
}.

(** [groq_key = groq_key_input if groq_key_input else config.GROQ_API_KEY] *)
Definition groq_key (groq_key_input : string) (config_key : value) : value :=
  if truthy (VStr groq_key_input) then VStr groq_key_input else config_key.

(** The body of [if analyze_btn and not st.session_state.analyzing:]. *)
Definition on_analyze (key : value) (repo_url : string) (s : session) : session * list ui :=
  if negb (truthy key) then
    (s, [StError (VStr "⚠️ Add Groq API key to config.py")])
  else if negb (truthy (VStr repo_url))
          || negb (String.prefix "https://github.com/" repo_url) then
    (s, [StError (VStr "⚠️ Enter valid GitHub URL")])
  else
    ({| result := result s; analyzing := true |}, [StRerun]).

(** The [try] block under the spinner: the constructor, the run, the test
    for the key ["error"] and, when it is there, the reading of the
    message. *)
Definition attempt (construct : py unit) (run : py value) : py (value + value) :=
  construct ;;;
  r <- run ;;
  failed <- contains "error" r ;;
  if failed then
    msg <- subscript r "error" ;;
    Ret (inl msg)
  else Ret (inr r).

(** The body of [if st.session_state.analyzing:], with its [except]. *)
Definition analysis_step (construct : py unit) (run : py value) (s : session)
  : session * list ui :=
  match attempt construct run with
  | Ret (inl msg) =>
      ({| result := result s; analyzing := false |},
       [StError (VStr ("❌ Error: " ++ str msg))])
  | Ret (inr r) =>
      ({| result := r; analyzing := false |},
       [StSuccess (VStr "✅ Analysis Complete!"); StRerun])
  | Raise e =>
      ({| result := result s; analyzing := false |},
       [StError (VStr ("❌ Analysis failed: " ++ exn_str e)); StException e])
  end.

(** [{"green": "green-score", ...}.get(color, "green-score")] *)
Definition color_class (color : value) : py string :=
  match color with
  | VStr c =>
      Ret (if String.eqb c "green" then "green-score"
           else if String.eqb c "yellow" then "yellow-score"
           else if String.eqb c "orange" then "orange-score"
           else if String.eqb c "red" then "red-score"
           else "green-score")
  | VList _ | VDict _ => TypeError ("unhashable type: '" ++ type_name color ++ "'")
  | _ => Ret "green-score"
  end.

(** [v >= n] for an integer literal [n]. *)
Definition ge (v : value) (n : Z) : py bool :=
  match as_num v with
  | Some x => Ret (num_ge x (NInt n))
  | None =>
      TypeError ("'>=' not supported between instances of '" ++ type_name v
                 ++ "' and 'int'")
  end.

(** The hiring recommendation of the result view:
    [if score >= 75: st.success(...) elif score >= 50: st.warning(...)
     else: st.error(...)]. *)
Definition recommendation_box (analysis : value) : py ui :=
  score <- subscript analysis "authenticity_score" ;;
  high <- ge score 75 ;;
  if high then
    text <- subscript analysis "hiring_recommendation" ;;
    Ret (StSuccess text)
  else
    medium <- ge score 50 ;;
    if medium then
      text <- subscript analysis "hiring_recommendation" ;;
      Ret (StWarning text)
    else
      text <- subscript analysis "hiring_recommendation" ;;
      Ret (StError text).

(** [v * n] for an integer literal [n >= 0]: a product for a number, a
    repetition for a string or a list. *)
Definition times (v : value) (n : nat) : py value :=
  match v with
  | VInt x => Ret (VInt (x * Z.of_nat n))
  | VBool b => Ret (VInt ((if b then 1 else 0) * Z.of_nat n))
  | VFloat x => fn <- to_float (Z.of_nat n) ;; Ret (VFloat (PrimFloat.mul x fn))
  | VStr s => Ret (VStr (String.concat EmptyString (repeat s n)))
  | VList l => Ret (VList (List.concat (repeat l n)))
  | VNone | VDict _ =>
      TypeError ("unsupported operand type(s) for *: '" ++ type_name v ++ "' and 'int'")
  end.

(** [padding = analysis['groq_analysis'].get('resume_padding_score', 0)] *)
Definition padding (analysis : value) : py value :=
  g <- subscript analysis "groq_analysis" ;;
  get g "resume_padding_score" (VInt 0).

(** The values of the radar chart:
    [[analysis['authenticity_score'], analysis['technical_complexity'] * 10,
      100 - analysis['ai_generated_score']]]. *)
Definition radar_values (analysis : value) : py (list value) :=
  authenticity <- subscript analysis "authenticity_score" ;;
  complexity <- subscript analysis "technical_complexity" ;;
  complexity10 <- times complexity 10 ;;
  ai <- subscript analysis "ai_generated_score" ;;
  originality <- sub (VInt 100) ai ;;
  Ret [authenticity; complexity10; of_num originality].

(** The scores of the bar chart:
    [[analysis['ai_generated_score'], padding,
      (10 - analysis['technical_complexity']) * 10]]. *)
Definition risk_scores (analysis padding : value) : py (list value) :=
  ai <- subscript analysis "ai_generated_score" ;;
  complexity <- subscript analysis "technical_complexity" ;;
  low <- sub (VInt 10) complexity ;;
  low10 <- times (of_num low) 10 ;;
  Ret [ai; padding; low10].

End App.

(** ** More sample worlds *)

Module World.

(** Only the repository metadata is served; the three other requests are
    answered with 404. *)
Definition bare (url : string) : py response :=
  if String.eqb url Sample.api then Ret (Sample.http_ok Sample.repo_body)
  else Ret (Sample.not_found url).

(** The commit request times out. *)
Definition commits_down (url : string) : py response :=
  if String.eqb url Sample.api then Ret (Sample.http_ok Sample.repo_body)
  else if String.eqb url (Sample.api ++ "/commits")
  then Raise (Error "ReadTimeout" "Read timed out. (read timeout=10)")
  else Ret (Sample.not_found url).

(** Twenty-five commits are served. *)
Definition busy (url : string) : py response :=
  if String.eqb url Sample.api then Ret (Sample.http_ok Sample.repo_body)
  else if String.eqb url (Sample.api ++ "/commits")
  then Ret (Sample.http_ok (VList (repeat (Sample.commit "wip") 25)))
  else Ret (Sample.not_found url).

(** The repository does not exist. *)
Definition missing (url : string) : py response := Ret (Sample.not_found url).

(** A model assessment with twelve flags of its own. *)
Definition talkative : dict :=
  [("authenticity_score", VInt 90);
   ("red_flags", VList (repeat (VStr "model flag") 7));
   ("ai_indicators", VList (repeat (VStr "indicator") 5))].

End World.

(** * Properties *)

Unset Implicit Arguments.

(** ** Strings *)

Example lower_ex : Str.lower "Fix THE Bug" = "fix the bug".
Proof. reflexivity. Qed.

Example split_ex :
  Str.split "/" "https://github.com/a/b" = ["https:"; ""; "github.com"; "a"; "b"].
Proof. reflexivity. Qed.

Example of_Z_ex : (Str.of_Z 0, Str.of_Z (-15), Str.of_Z 100) = ("0", "-15", "100").
Proof. reflexivity. Qed.

Example len_ex : (Str.len "✅ OK", String.length "✅ OK") = (4%nat, 6%nat).
Proof. reflexivity. Qed.

Example chars_ex : Str.chars "a✅b" = ["a"; "✅"; "b"].
Proof. reflexivity. Qed.

Example strip_ex : Str.strip "  {}
 " = "{}".
Proof. reflexivity. Qed.

Example isupper_ex :
  map Str.isupper ["A"; "a"; "É"; "é"; "Д"; "ǅ"; "1"; "ÉA"; "Éa"; ""]
  = [true; false; true; false; true; false; false; true; false; false].
Proof. vm_compute. reflexivity. Qed.

(** ** Floats *)

(** Decimal literals are read to the nearest float and written back in
    the shortest form. *)
Example repr_ex :
  map Float.repr [decimal 7496 2; decimal 1 1; decimal 750 1; decimal (-25) 1;
                  Float.of_decimal false 1 16; Float.of_decimal false 1 (-5);
                  Float.of_decimal false 1 400; PrimFloat.nan]
  = ["74.96"; "0.1"; "75.0"; "-2.5"; "1e+16"; "1e-05"; "inf"; "nan"].
Proof. vm_compute. reflexivity. Qed.

(** [round(x, 1)] rounds the exact value: 0.25 is a tie and goes to the
    even 0.2, 0.35 is a float just below the tie and goes to 0.3, and
    74.96 goes to 75.0. *)
Example round1_ex :
  map (fun x => Float.repr (Float.round1 x))
      [decimal 25 2; decimal 35 2; decimal 7496 2; decimal 7494 2; decimal 4 2]
  = ["0.2"; "0.3"; "75.0"; "74.9"; "0.0"].
Proof. vm_compute. reflexivity. Qed.

(** An [int] and a [float] are compared on their exact values, and the
    subtraction of a [float] and an [int] is the one of floats. *)
Example num_ex :
  (num_ge (NFloat (decimal 7496 2)) (NInt 75), num_ge (NFloat (decimal 750 1)) (NInt 75),
   num_lt (NFloat PrimFloat.nan) (NInt 100),
   option_map (fun d => str (of_num d)) (match sub (VFloat (decimal 501 1)) (VInt 15) with
                                         | Ret d => Some d
                                         | Raise _ => None
                                         end))
  = (false, true, false, Some "35.1").
Proof. vm_compute. reflexivity. Qed.

(** ** Dictionaries and the error monad *)

Lemma get_dict (d : dict) (k : string) (default : value) :
  get (VDict d) k default = Ret (match lookup k d with Some x => x | None => default end).
Proof. reflexivity. Qed.

Lemma get_int_field (d : dict) (k : string) (default : Z) :
  field_ok is_int k d = true ->
  get (VDict d) k (VInt default) = Ret (VInt (int_field k default d)).
Proof.
  unfold field_ok, int_field; simpl.
  destruct (lookup k d) as [v|]; [|reflexivity].
  destruct v; simpl; intros H; try discriminate H; reflexivity.
Qed.

Lemma get_list_field (d : dict) (k : string) :
  field_ok is_list k d = true ->
  get (VDict d) k (VList []) = Ret (VList (list_field k d)).
Proof.
  unfold field_ok, list_field; simpl.
  destruct (lookup k d) as [v|]; [|reflexivity].
  destruct v; simpl; intros H; try discriminate H; reflexivity.
Qed.

Lemma wf_assessment_fields (g : dict) :
  wf_assessment g = true ->
  field_ok is_int "authenticity_score" g = true
  /\ field_ok is_list "red_flags" g = true
  /\ field_ok is_list "ai_indicators" g = true.
Proof.
  unfold wf_assessment; intros H.
  apply andb_prop in H; destruct H as [H H3].
  apply andb_prop in H; destruct H as [H1 H2]; auto.
Qed.

Lemma wf_heuristic_fields (c : dict) :
  wf_heuristic c = true ->
  field_ok is_int "pattern_score" c = true /\ field_ok is_list "red_flags" c = true.
Proof. unfold wf_heuristic; intros H; apply andb_prop in H; exact H. Qed.

Lemma clamp_range (x : Z) : 0 <= clamp x <= 100.
Proof. unfold clamp; lia. Qed.

Lemma clamp_id (x : Z) : 0 <= x <= 100 -> clamp x = x.
Proof. unfold clamp; lia. Qed.

(** ** Numbers *)

Lemma num_ge_int (a b : Z) : num_ge (NInt a) (NInt b) = (b <=? a)%Z.
Proof.
  unfold num_ge, num_compare.
  destruct (Z.compare_spec a b); symmetry;
    [apply Z.leb_le | apply Z.leb_gt | apply Z.leb_le]; lia.
Qed.

Lemma num_lt_int (a b : Z) : num_lt (NInt a) (NInt b) = (a <? b)%Z.
Proof.
  unfold num_lt, num_compare.
  destruct (Z.compare_spec a b); symmetry;
    [apply Z.ltb_ge | apply Z.ltb_lt | apply Z.ltb_ge]; lia.
Qed.

Lemma num_gt_int (a b : Z) : num_gt (NInt a) (NInt b) = (b <? a)%Z.
Proof.
  unfold num_gt, num_compare.
  destruct (Z.compare_spec a b); symmetry;
    [apply Z.ltb_ge | apply Z.ltb_ge | apply Z.ltb_lt]; lia.
Qed.

Lemma clamp_num_int (z : Z) : clamp_num (NInt z) = NInt (clamp z).
Proof.
  unfold clamp_num, num_min, num_max, clamp. rewrite num_lt_int.
  destruct (Z.ltb_spec z 100); rewrite num_gt_int.
  - destruct (Z.ltb_spec 0 z); f_equal; lia.
  - cbn. f_equal. lia.
Qed.

Lemma bands_int (s : Z) :
  bands (NInt s)
  = if (75 <=? s)%Z then ("✅ AUTHENTIC", "Low", "green")
    else if (50 <=? s)%Z then ("⚠️ SUSPICIOUS", "Medium", "yellow")
    else if (25 <=? s)%Z then ("🚨 LIKELY PADDED", "High", "orange")
    else ("💀 FAKE/COPIED", "Critical", "red").
Proof. unfold bands. rewrite !num_ge_int. reflexivity. Qed.

(** The subtraction sees a [bool] as the [int] it counts as. *)
Lemma sub_as_num (v : value) (n : num) (p : Z) :
  as_num v = Some n -> sub v (VInt p) = sub (of_num n) (VInt p).
Proof.
  intros H. unfold sub. rewrite H.
  destruct n; cbn [of_num as_num]; reflexivity.
Qed.

(** A float that compares with one integer compares with every integer:
    it is not a NaN. *)
Lemma compare_Z_defined (x : PrimFloat.float) (n k : Z) (c : comparison) :
  Float.compare_Z x n = Some c -> exists c', Float.compare_Z x k = Some c'.
Proof.
  unfold Float.compare_Z.
  destruct (FloatOps.Prim2SF x); intros H; try discriminate H; eexists; reflexivity.
Qed.

(** A number that is at least [k] is at least every [j <= k]. *)
Lemma num_ge_mono (d : num) (j k : Z) :
  j <= k -> num_ge d (NInt k) = true -> num_ge d (NInt j) = true.
Proof.
  intros Hjk. destruct d as [z|x].
  - rewrite !num_ge_int. intros H. apply Z.leb_le in H. apply Z.leb_le. lia.
  - unfold num_ge. cbn [num_compare]. unfold Float.compare_Z.
    destruct (FloatOps.Prim2SF x) as [s|s| |s m e]; try discriminate.
    + destruct (Z.compare_spec 0 k), (Z.compare_spec 0 j);
        intros; try discriminate; try reflexivity; lia.
    + destruct s; intros; try discriminate; reflexivity.
    + set (v := if s then Z.neg m else Z.pos m).
      destruct (0 <=? e)%Z eqn:He; [apply Z.leb_le in He | apply Z.leb_gt in He].
      * destruct (Z.compare_spec (v * 2 ^ e) k), (Z.compare_spec (v * 2 ^ e) j);
          intros; try discriminate; try reflexivity; lia.
      * assert (D : 0 < 2 ^ (- e)) by (apply Z.pow_pos_nonneg; lia).
        assert (M : j * 2 ^ (- e) <= k * 2 ^ (- e))
          by (apply Z.mul_le_mono_nonneg_r; lia).
        destruct (Z.compare_spec v (k * 2 ^ (- e))), (Z.compare_spec v (j * 2 ^ (- e)));
          intros; try discriminate; try reflexivity; lia.
Qed.

(** The clamp of a number is an integer of [0,100], or the number itself,
    a float strictly between 0 and 100. *)
Lemma clamp_num_cases (d : num) :
  (exists z, clamp_num d = NInt z /\ 0 <= z <= 100)
  \/ (exists x, d = NFloat x /\ clamp_num d = NFloat x
                /\ Float.compare_Z x 0 = Some Gt
                /\ Float.compare_Z x 100 = Some Lt).
Proof.
  destruct d as [z|x].
  - left. exists (clamp z). split; [apply clamp_num_int | apply clamp_range].
  - unfold clamp_num, num_min, num_lt. cbn [num_compare].
    destruct (Float.compare_Z x 100) as [[| |]|] eqn:E100;
      try (left; exists 100; split; [reflexivity | lia]).
    unfold num_max, num_gt. cbn [num_compare].
    destruct (Float.compare_Z x 0) as [[| |]|] eqn:E0;
      try (left; exists 0; split; [reflexivity | lia]).
    right. exists x. repeat split; assumption.
Qed.

(** The tenths of a float strictly between 0 and 100 number 0 to 1000. *)
Lemma tenths_range (m : positive) (e : Z) :
  (if (0 <=? e)%Z then (Zpos m * 2 ^ e ?= 100)%Z else (Zpos m ?= 100 * 2 ^ (- e))%Z) = Lt ->
  0 <= Float.tenths m e <= 1000.
Proof.
  unfold Float.tenths, Float.div_half_even.
  destruct (0 <=? e)%Z eqn:He; [apply Z.leb_le in He | apply Z.leb_gt in He]; intros H.
  - rewrite Z.compare_lt_iff in H.
    assert (0 < Z.pos m * 2 ^ e)
      by (apply Z.mul_pos_pos; [lia | apply Z.pow_pos_nonneg; lia]).
    lia.
  - rewrite Z.compare_lt_iff in H.
    assert (D : 0 < 2 ^ (- e)) by (apply Z.pow_pos_nonneg; lia).
    set (d := 2 ^ (- e)) in *.
    assert (Q0 : 0 <= Z.pos m * 10 / d) by (apply Z.div_pos; lia).
    assert (Q1 : Z.pos m * 10 / d < 1000) by (apply Z.div_lt_upper_bound; lia).
    destruct (2 * ((Z.pos m * 10) mod d) ?= d)%Z; [destruct (Z.even _)| |]; lia.
Qed.

(** Every number of tenths from 0 to 1000 is read back as a float of
    [0,100]. *)
Lemma tenths_read_back (t : Z) :
  0 <= t <= 1000 ->
  num_between 0 100 (NFloat (Float.of_decimal false (Z.to_N t) (-1))) = true.
Proof.
  intros Ht.
  assert (T : forallb (fun n => num_between 0 100
                                  (NFloat (Float.of_decimal false (N.of_nat n) (-1))))
                      (seq 0 1001) = true) by (vm_compute; reflexivity).
  rewrite forallb_forall in T.
  replace (Z.to_N t) with (N.of_nat (Z.to_nat t)) by lia.
  apply T, in_seq. lia.
Qed.

(** [round(x, 1)] of a float strictly between 0 and 100 lies in [0,100]. *)
Lemma round1_between (x : PrimFloat.float) :
  Float.compare_Z x 0 = Some Gt ->
  Float.compare_Z x 100 = Some Lt ->
  num_between 0 100 (NFloat (Float.round1 x)) = true.
Proof.
  unfold Float.compare_Z, Float.round1.
  destruct (FloatOps.Prim2SF x) as [s|s| |s m e]; try discriminate.
  - destruct s; discriminate.
  - intros H0 H100.
    destruct s.
    + exfalso. injection H0 as H0.
      destruct (0 <=? e)%Z eqn:He; [apply Z.leb_le in He | apply Z.leb_gt in He].
      * rewrite Z.compare_gt_iff in H0.
        assert (Pw : 0 < 2 ^ e) by (apply Z.pow_pos_nonneg; lia).
        destruct (2 ^ e); lia.
      * cbn in H0. discriminate H0.
    + injection H100 as H100.
      apply tenths_read_back, tenths_range, H100.
Qed.

(** The returned score lies in [0,100], whatever the difference is. *)
Lemma rounded_clamp_between (d : num) :
  num_between 0 100 (round1 (clamp_num d)) = true.
Proof.
  destruct (clamp_num_cases d) as [(z & -> & Hz) | (x & _ & -> & H0 & H100)].
  - cbn [round1]. unfold num_between. rewrite !num_ge_int.
    apply andb_true_intro; split; apply Z.leb_le; lia.
  - cbn [round1]. apply round1_between; assumption.
Qed.

(** The conversion of a small integer to a float never overflows. *)
Lemma to_float_small (p : Z) :
  0 <= p <= 100 -> exists fp, to_float p = Ret fp.
Proof.
  intros Hp.
  assert (T : forallb (fun n => match to_float (Z.of_nat n) with
                                | Ret _ => true
                                | Raise _ => false
                                end) (seq 0 101) = true) by (vm_compute; reflexivity).
  rewrite forallb_forall in T.
  specialize (T (Z.to_nat p)). rewrite Z2Nat.id in T by lia.
  destruct (to_float p) as [fp|]; [exists fp; reflexivity|].
  discriminate T. apply in_seq. lia.
Qed.

(** ** Score fusion *)

Lemma numeric_assessment_fields (g : dict) :
  numeric_assessment g = true ->
  field_ok is_number "authenticity_score" g = true
  /\ field_ok is_list "red_flags" g = true
  /\ field_ok is_list "ai_indicators" g = true.
Proof.
  unfold numeric_assessment; intros H.
  apply andb_prop in H; destruct H as [H H3].
  apply andb_prop in H; destruct H as [H1 H2]; auto.
Qed.

Lemma wf_assessment_numeric (g : dict) :
  wf_assessment g = true -> numeric_assessment g = true.
Proof.
  unfold wf_assessment, numeric_assessment, field_ok.
  destruct (lookup "authenticity_score" g) as [[]|]; cbn; try discriminate; auto.
Qed.

(** What [calculate_final_score] returns once the difference is known. *)
Lemma calculate_final_score_diff (g c : dict) (diff : num) :
  field_ok is_list "red_flags" g = true ->
  field_ok is_list "ai_indicators" g = true ->
  wf_heuristic c = true ->
  sub (match lookup "authenticity_score" g with Some v => v | None => VInt 50 end)
      (VInt (int_field "pattern_score" 0 c)) = Ret diff ->
  let d := clamp_num diff in
  exists category risk color ai tc hr,
    bands d = (category, risk, color)
    /\ calculate_final_score (VDict g) (VDict c) =
       Ret (VDict [("authenticity_score", of_num (round1 d));
                   ("category", VStr category);
                   ("risk_level", VStr risk);
                   ("color", VStr color);
                   ("ai_generated_score", ai);
                   ("technical_complexity", tc);
                   ("red_flags",
                    VList (firstn 10 (list_field "red_flags" g
                                      ++ list_field "ai_indicators" g
                                      ++ list_field "red_flags" c)%list));
                   ("hiring_recommendation", hr);
                   ("groq_analysis", VDict g);
                   ("commit_analysis", VDict c)]).
Proof.
  intros Hrf Hai Hc Hsub d.
  destruct (wf_heuristic_fields c Hc) as (Hp & Hcf).
  unfold calculate_final_score.
  rewrite (get_dict g "authenticity_score").
  rewrite (get_int_field c "pattern_score" 0 Hp).
  rewrite (get_list_field g "red_flags" Hrf).
  rewrite (get_list_field g "ai_indicators" Hai).
  rewrite (get_list_field c "red_flags" Hcf).
  rewrite !get_dict.
  cbn [bind]. rewrite Hsub. cbn [bind iter].
  fold (clamp_num diff). fold d.
  destruct (bands d) as [[category risk] color].
  do 6 eexists; split; reflexivity.
Qed.

(** What [calculate_final_score] returns on well-formed inputs with
    integer scores. *)
Lemma calculate_final_score_wf (g c : dict) :
  wf_assessment g = true ->
  wf_heuristic c = true ->
  let s := clamp (int_field "authenticity_score" 50 g - int_field "pattern_score" 0 c) in
  exists category risk color ai tc hr,
    bands (NInt s) = (category, risk, color)
    /\ calculate_final_score (VDict g) (VDict c) =
       Ret (VDict [("authenticity_score", VInt s);
                   ("category", VStr category);
                   ("risk_level", VStr risk);
                   ("color", VStr color);
                   ("ai_generated_score", ai);
                   ("technical_complexity", tc);
                   ("red_flags",
                    VList (firstn 10 (list_field "red_flags" g
                                      ++ list_field "ai_indicators" g
                                      ++ list_field "red_flags" c)%list));
                   ("hiring_recommendation", hr);
                   ("groq_analysis", VDict g);
                   ("commit_analysis", VDict c)]).
Proof.
  intros Hg Hc s.
  destruct (wf_assessment_fields g Hg) as (Ha & Hrf & Hai).
  assert (Hsub : sub (match lookup "authenticity_score" g with
                      | Some v => v
                      | None => VInt 50
                      end) (VInt (int_field "pattern_score" 0 c))
                 = Ret (NInt (int_field "authenticity_score" 50 g
                              - int_field "pattern_score" 0 c))).
  { unfold field_ok in Ha. unfold int_field at 2.
    destruct (lookup "authenticity_score" g) as [[]|]; try discriminate Ha; reflexivity. }
  destruct (calculate_final_score_diff g c _ Hrf Hai Hc Hsub)
    as (category & risk & color & ai & tc & hr & B & E).
  rewrite clamp_num_int in B, E. fold s in B, E. cbn [round1 of_num] in E.
  exists category, risk, color, ai, tc, hr. split; assumption.
Qed.

(** C1, as the code has it.  On well-formed inputs [calculate_final_score]
    returns [round(clamp(a - p, 0, 100), 1)], where [a] is the model's
    [authenticity_score] (50 when the field is absent) and [p] the
    heuristic [pattern_score] (0 when absent).  For an integer [a] (a
    [bool] counting as 0 or 1) that is the integer [clamp(a - p, 0, 100)];
    for a real [a] and a penalty from 0 to 45 the difference is the
    floating-point one, and what is returned is its clamp rounded to one
    decimal.  In both cases the returned score lies in [0,100]; base 10
    with penalty 45 gives 0 and base 95 with penalty 0 gives 95. *)
Theorem final_score_is_rounded_clamped_difference (g c : dict) :
  numeric_assessment g = true ->
  wf_heuristic c = true ->
  let p := int_field "pattern_score" 0 c in
  let returned := field "authenticity_score" (calculate_final_score (VDict g) (VDict c)) in
  (forall a,
     lookup "authenticity_score" g = Some (VInt a)
     \/ (exists b, lookup "authenticity_score" g = Some (VBool b)
                   /\ a = if b then 1 else 0)
     \/ (lookup "authenticity_score" g = None /\ a = 50) ->
     returned = Some (VInt (Z.max 0 (Z.min 100 (a - p))))
     /\ 0 <= Z.max 0 (Z.min 100 (a - p)) <= 100)
  /\ (forall x,
        lookup "authenticity_score" g = Some (VFloat x) ->
        0 <= p <= 45 ->
        exists fp,
          to_float p = Ret fp
          /\ returned
             = Some (of_num (round1 (clamp_num (NFloat (PrimFloat.sub x fp)))))
          /\ num_between 0 100 (round1 (clamp_num (NFloat (PrimFloat.sub x fp)))) = true)
  /\ field "authenticity_score"
       (calculate_final_score (VDict [("authenticity_score", VInt 10)])
                              (VDict [("pattern_score", VInt 45)]))
     = Some (VInt 0)
  /\ field "authenticity_score"
       (calculate_final_score (VDict [("authenticity_score", VInt 95)])
                              (VDict [("pattern_score", VInt 0)]))
     = Some (VInt 95).
Proof.
  intros Hg Hc p returned.
  destruct (numeric_assessment_fields g Hg) as (_ & Hrf & Hai).
  split; [|split; [|split; reflexivity]].
  - intros a Ha.
    assert (Hsub : sub (match lookup "authenticity_score" g with
                        | Some v => v
                        | None => VInt 50
                        end) (VInt p) = Ret (NInt (a - p))).
    { destruct Ha as [-> | [(b & -> & ->) | [-> ->]]]; reflexivity. }
    destruct (calculate_final_score_diff g c _ Hrf Hai Hc Hsub)
      as (category & risk & color & ai & tc & hr & _ & E).
    unfold returned. rewrite E, clamp_num_int. cbn [field lookup String.eqb
      Ascii.eqb Bool.eqb round1 of_num]. unfold clamp. split; [reflexivity | lia].
  - intros x Hx Hp.
    destruct (to_float_small p ltac:(lia)) as [fp Hfp].
    exists fp. split; [exact Hfp|].
    assert (Hsub : sub (match lookup "authenticity_score" g with
                        | Some v => v
                        | None => VInt 50
                        end) (VInt p) = Ret (NFloat (PrimFloat.sub x fp))).
    { rewrite Hx. unfold sub. cbn [as_num]. rewrite Hfp. reflexivity. }
    destruct (calculate_final_score_diff g c _ Hrf Hai Hc Hsub)
      as (category & risk & color & ai & tc & hr & _ & E).
    unfold returned. rewrite E. split; [reflexivity | apply rounded_clamp_between].
Qed.

Lemma final_score_is_rounded_clamped_difference_witness :
  numeric_assessment [("authenticity_score", VFloat (decimal 8125 2))] = true
  /\ wf_heuristic [("pattern_score", VInt 30)] = true
  /\ field "authenticity_score"
       (calculate_final_score (VDict [("authenticity_score", VFloat (decimal 8125 2))])
                              (VDict [("pattern_score", VInt 30)]))
     = Some (VFloat (decimal 512 1)).
Proof.
  split; [reflexivity | split; [reflexivity |]].
  destruct (final_score_is_rounded_clamped_difference
              [("authenticity_score", VFloat (decimal 8125 2))]
              [("pattern_score", VInt 30)] eq_refl eq_refl)
    as (_ & F & _).
  destruct (F (decimal 8125 2) eq_refl) as (fp & Hfp & E & _);
    [cbn; lia|].
  rewrite E. vm_compute in Hfp. injection Hfp as <-.
  vm_compute. reflexivity.
Defined.

(** The claim of C1 fails on a real score: for the reply
    [{"authenticity_score": 74.96}] and no penalty, [a - p] is 74.96 and
    so is its clamp, and the score returned is 75.0. *)
Lemma real_score_is_rounded_after_the_clamp :
  Json.loads (dq "{'authenticity_score': 74.96}")
  = Ret (VDict [("authenticity_score", VFloat (decimal 7496 2))])
  /\ sub (VFloat (decimal 7496 2)) (VInt 0) = Ret (NFloat (decimal 7496 2))
  /\ clamp_num (NFloat (decimal 7496 2)) = NFloat (decimal 7496 2)
  /\ field "authenticity_score"
       (calculate_final_score (VDict [("authenticity_score", VFloat (decimal 7496 2))])
                              (VDict []))
     = Some (VFloat (decimal 750 1))
  /\ VFloat (decimal 750 1) <> of_num (clamp_num (NFloat (decimal 7496 2)))
  /\ (str (VFloat (decimal 7496 2)), str (VFloat (decimal 750 1))) = ("74.96", "75.0").
Proof.
  split; [vm_compute; reflexivity|].
  split; [vm_compute; reflexivity|].
  split; [vm_compute; reflexivity|].
  split; [vm_compute; reflexivity|].
  split; [|vm_compute; reflexivity].
  intros H.
  assert (E : str (VFloat (decimal 750 1))
              = str (of_num (clamp_num (NFloat (decimal 7496 2)))))
    by (rewrite H; reflexivity).
  vm_compute in E. discriminate E.
Qed.

(** C2, as the code has it.  The category, color and risk are fixed by the
    band of the clamped difference before it is rounded: 75 and above is
    AUTHENTIC, green, Low; from 50 up to 75 is SUSPICIOUS, yellow, Medium;
    from 25 up to 50 is LIKELY PADDED, orange, High; below 25 is
    FAKE/COPIED, red, Critical, and exactly one of the four cases holds.
    For an integer score the clamped difference is the score returned, so
    the bands partition the returned scores 0 to 100 with the inclusive
    lower bounds 75, 50 and 25, and each of these scores is returned for
    some input. *)
Theorem bands_partition_clamped_difference (g c : dict) (diff : num) :
  numeric_assessment g = true ->
  wf_heuristic c = true ->
  sub (of_num (num_field "authenticity_score" 50 g))
      (VInt (int_field "pattern_score" 0 c)) = Ret diff ->
  let d := clamp_num diff in
  let r := calculate_final_score (VDict g) (VDict c) in
  (exists category color risk,
     field "authenticity_score" r = Some (of_num (round1 d))
     /\ field "category" r = Some (VStr category)
     /\ field "color" r = Some (VStr color)
     /\ field "risk_level" r = Some (VStr risk)
     /\ num_between 0 100 d = true
     /\ (num_ge d (NInt 75) = true ->
         (category, color, risk) = ("✅ AUTHENTIC", "green", "Low"))
     /\ (num_ge d (NInt 50) = true -> num_lt d (NInt 75) = true ->
         (category, color, risk) = ("⚠️ SUSPICIOUS", "yellow", "Medium"))
     /\ (num_ge d (NInt 25) = true -> num_lt d (NInt 50) = true ->
         (category, color, risk) = ("🚨 LIKELY PADDED", "orange", "High"))
     /\ (num_lt d (NInt 25) = true ->
         (category, color, risk) = ("💀 FAKE/COPIED", "red", "Critical"))
     /\ (forall k, num_lt d (NInt k) = negb (num_ge d (NInt k))))
  /\ (forall s, d = NInt s ->
        field "authenticity_score" r = Some (VInt s)
        /\ 0 <= s <= 100
        /\ (75 <= s -> field "category" r = Some (VStr "✅ AUTHENTIC"))
        /\ (50 <= s < 75 -> field "category" r = Some (VStr "⚠️ SUSPICIOUS"))
        /\ (25 <= s < 50 -> field "category" r = Some (VStr "🚨 LIKELY PADDED"))
        /\ (s < 25 -> field "category" r = Some (VStr "💀 FAKE/COPIED")))
  /\ (forall s, 0 <= s <= 100 ->
        field "authenticity_score"
          (calculate_final_score (VDict [("authenticity_score", VInt s)]) (VDict []))
        = Some (VInt s)).
Proof.
  intros Hg Hc Hsub d r.
  destruct (numeric_assessment_fields g Hg) as (Hn & Hrf & Hai).
  assert (Hsub' : sub (match lookup "authenticity_score" g with
                       | Some v => v
                       | None => VInt 50
                       end) (VInt (int_field "pattern_score" 0 c)) = Ret diff).
  { rewrite <- Hsub. unfold num_field, field_ok, is_number in *.
    destruct (lookup "authenticity_score" g) as [v|]; [|reflexivity].
    destruct (as_num v) as [n|] eqn:En; [|discriminate Hn].
    apply sub_as_num, En. }
  destruct (calculate_final_score_diff g c diff Hrf Hai Hc Hsub')
    as (category & risk & color & ai & tc & hr & B & E).
  fold d in B, E. fold r in E.
  assert (Total : forall k, num_lt d (NInt k) = negb (num_ge d (NInt k))).
  { intros k. unfold d.
    destruct (clamp_num_cases diff) as [(z & -> & _) | (x & _ & -> & H0 & _)].
    - rewrite num_lt_int, num_ge_int. apply Z.ltb_antisym.
    - unfold num_lt, num_ge. cbn [num_compare].
      destruct (compare_Z_defined x 0 k Gt H0) as [c' ->]. destruct c'; reflexivity. }
  assert (Between : num_between 0 100 d = true).
  { unfold d.
    destruct (clamp_num_cases diff) as [(z & -> & Hz) | (x & _ & -> & H0 & H100)].
    - unfold num_between. rewrite !num_ge_int.
      apply andb_true_intro; split; apply Z.leb_le; lia.
    - unfold num_between, num_ge. cbn [num_compare]. rewrite H0, H100. reflexivity. }
  split; [|split].
  - exists category, color, risk. rewrite E. cbn [field].
    repeat (split; [reflexivity|]).
    split; [exact Between|].
    unfold bands in B.
    repeat split.
    + intros H75. rewrite H75 in B. congruence.
    + intros H50 H75. rewrite Total, negb_true_iff in H75.
      rewrite H75, H50 in B. congruence.
    + intros H25 H50. rewrite Total, negb_true_iff in H50.
      assert (H75 : num_ge d (NInt 75) = false).
      { destruct (num_ge d (NInt 75)) eqn:G75; [|reflexivity].
        rewrite (num_ge_mono d 50 75) in H50 by (lia || exact G75). discriminate H50. }
      rewrite H75, H50, H25 in B. congruence.
    + intros H25. rewrite Total, negb_true_iff in H25.
      assert (H50 : num_ge d (NInt 50) = false).
      { destruct (num_ge d (NInt 50)) eqn:G50; [|reflexivity].
        rewrite (num_ge_mono d 25 50) in H25 by (lia || exact G50). discriminate H25. }
      assert (H75 : num_ge d (NInt 75) = false).
      { destruct (num_ge d (NInt 75)) eqn:G75; [|reflexivity].
        rewrite (num_ge_mono d 50 75) in H50 by (lia || exact G75). discriminate H50. }
      rewrite H75, H50, H25 in B. congruence.
    + exact Total.
  - intros s Hs. rewrite E. cbn [field lookup String.eqb Ascii.eqb Bool.eqb].
    rewrite Hs in *. cbn [round1 of_num].
    rewrite bands_int in B.
    assert (Rs : 0 <= s <= 100).
    { unfold num_between in Between. rewrite !num_ge_int in Between.
      apply andb_prop in Between. destruct Between as [A B'].
      apply Z.leb_le in A, B'. lia. }
    split; [reflexivity|]. split; [exact Rs|].
    destruct (75 <=? s)%Z eqn:E75; [apply Z.leb_le in E75 | apply Z.leb_gt in E75].
    { inversion B; subst. repeat split; intros; try reflexivity; lia. }
    destruct (50 <=? s)%Z eqn:E50; [apply Z.leb_le in E50 | apply Z.leb_gt in E50].
    { inversion B; subst. repeat split; intros; try reflexivity; lia. }
    destruct (25 <=? s)%Z eqn:E25; [apply Z.leb_le in E25 | apply Z.leb_gt in E25].
    { inversion B; subst. repeat split; intros; try reflexivity; lia. }
    inversion B; subst. repeat split; intros; try reflexivity; lia.
  - intros s Hs.
    destruct (calculate_final_score_wf [("authenticity_score", VInt s)] [] eq_refl eq_refl)
      as (category' & risk' & color' & ai' & tc' & hr' & _ & E').
    rewrite E'. cbn [field lookup String.eqb Ascii.eqb Bool.eqb int_field].
    rewrite Z.sub_0_r, (clamp_id s Hs). reflexivity.
Qed.

Lemma bands_partition_clamped_difference_witness :
  numeric_assessment [("authenticity_score", VInt 75)] = true
  /\ wf_heuristic [] = true
  /\ sub (of_num (num_field "authenticity_score" 50 [("authenticity_score", VInt 75)]))
         (VInt (int_field "pattern_score" 0 [])) = Ret (NInt 75)
  /\ field "category" (calculate_final_score (VDict [("authenticity_score", VInt 75)]) (VDict []))
     = Some (VStr "✅ AUTHENTIC").
Proof.
  split; [reflexivity | split; [reflexivity | split; [reflexivity|]]].
  destruct (bands_partition_clamped_difference
              [("authenticity_score", VInt 75)] [] (NInt 75) eq_refl eq_refl eq_refl)
    as (_ & H & _).
  destruct (H 75 eq_refl) as (_ & _ & H75 & _).
  apply H75. lia.
Defined.

(** The claim of C2 fails on a real score: for the reply
    [{"authenticity_score": 74.96}] and no penalty the score returned is
    75.0, which is not below the boundary 75, and the category is
    SUSPICIOUS, the color yellow and the risk Medium. *)
Lemma rounded_score_can_leave_its_band :
  let r := calculate_final_score
             (VDict [("authenticity_score", VFloat (decimal 7496 2))]) (VDict []) in
  field "authenticity_score" r = Some (VFloat (decimal 750 1))
  /\ num_ge (NFloat (decimal 750 1)) (NInt 75) = true
  /\ field "category" r = Some (VStr "⚠️ SUSPICIOUS")
  /\ field "color" r = Some (VStr "yellow")
  /\ field "risk_level" r = Some (VStr "Medium").
Proof. cbv zeta. repeat split; vm_compute; reflexivity. Qed.



(** ** Commit heuristics *)

(** [msg[0]] exists for a message of positive length. *)
Lemma chars_aux_nil (cur : option string) (s : string) :
  Str.chars_aux cur s = [] -> cur = None /\ s = EmptyString.
Proof.
  revert cur; induction s as [|c s IH]; intros cur; simpl.
  - destruct cur; [discriminate | auto].
  - destruct (Str.is_cont c).
    + intros H; apply IH in H; destruct H as [H _]; discriminate H.
    + destruct cur; [discriminate |].
      intros H; apply IH in H; destruct H as [H _]; discriminate H.
Qed.

Lemma len_pos_chars (s : string) :
  (0 < Str.len s)%nat -> exists c rest, Str.chars s = c :: rest.
Proof.
  intros H. unfold Str.chars.
  destruct (Str.chars_aux None s) as [|c rest] eqn:E; [|eauto].
  apply chars_aux_nil in E; destruct E as [_ ->]; simpl in H; lia.
Qed.

Lemma is_perfect_str (msg : string) :
  is_perfect (VStr msg) = Ret (perfect_message msg).
Proof.
  unfold is_perfect, perfect_message; cbn [len bind].
  destruct (50 <? Str.len msg)%nat eqn:E; [|reflexivity].
  apply Nat.ltb_lt in E.
  destruct (len_pos_chars msg) as (c & rest & Ec); [lia|].
  cbn [index0]. rewrite Ec. cbn [bind isupper andb].
  destruct (Str.isupper c); reflexivity.
Qed.

Lemma any_word_in_lower_str (msg : string) (words : list string) :
  any_word_in_lower (VStr msg) words
  = Ret (existsb (fun word => Str.contains word (Str.lower msg)) words).
Proof.
  induction words as [|w ws IH]; [reflexivity|].
  cbn [any_word_in_lower lower bind existsb].
  destruct (Str.contains w (Str.lower msg)); [reflexivity | exact IH].
Qed.

Lemma is_generic_str (msg : string) :
  is_generic (VStr msg) = Ret (generic_message msg).
Proof. apply any_word_in_lower_str. Qed.

Lemma count_if_str (p : value -> py bool) (q : string -> bool) (msgs : list string) :
  (forall s, p (VStr s) = Ret (q s)) ->
  count_if p (map VStr msgs) = Ret (List.length (filter q msgs)).
Proof.
  intros H; induction msgs as [|m msgs IH]; [reflexivity|].
  cbn [map count_if filter]. rewrite H, IH. cbn [bind].
  destruct (q m); reflexivity.
Qed.

Lemma commit_message_wf (commit : value) :
  wf_commit commit = true -> commit_message commit = Ret (VStr (message_of commit)).
Proof.
  unfold wf_commit, commit_message, message_of.
  destruct commit as [| | | | |l|d]; try discriminate.
  rewrite get_dict.
  destruct (lookup "commit" d) as [c|]; [|reflexivity].
  destruct c as [| | | | |l|c]; try discriminate.
  cbn [bind]. rewrite get_dict. unfold field_ok.
  destruct (lookup "message" c) as [m|]; [|reflexivity].
  destruct m; simpl; intros H; try discriminate H; reflexivity.
Qed.

Lemma mapM_commit_message (commits : list value) :
  forallb wf_commit commits = true ->
  mapM commit_message commits = Ret (map VStr (map message_of commits)).
Proof.
  induction commits as [|c commits IH]; [reflexivity|].
  cbn [forallb]. intros H; apply andb_prop in H; destruct H as [Hc H].
  cbn [mapM map]. rewrite (commit_message_wf c Hc), (IH H). reflexivity.
Qed.

(** What [analyze_commit_patterns] returns on a non-empty list of
    well-formed commit entries. *)
Lemma analyze_commit_patterns_wf (commits : list value) :
  commits <> [] ->
  forallb wf_commit commits = true ->
  analyze_commit_patterns (VList commits) =
  Ret (VDict [("total_commits", VInt (Z.of_nat (List.length commits)));
              ("red_flags", VList (heuristic_flags commits));
              ("commit_messages", VList (firstn 10 (map VStr (map message_of commits))));
              ("pattern_score",
               VInt (Z.of_nat (List.length (heuristic_flags commits)) * 15))]).
Proof.
  intros Hne Hwf.
  unfold analyze_commit_patterns.
  destruct commits as [|c0 cs]; [contradiction|].
  cbn [truthy negb iter bind].
  rewrite (mapM_commit_message (c0 :: cs) Hwf). cbn [bind].
  rewrite !length_map.
  change (0 <? List.length (c0 :: cs))%nat with true. cbv iota.
  rewrite (count_if_str is_perfect perfect_message _ is_perfect_str).
  rewrite (count_if_str is_generic generic_message _ is_generic_str).
  reflexivity.
Qed.

Lemma flag_if_length (b : bool) (flag : string) : (List.length (flag_if b flag) <= 1)%nat.
Proof. destruct b; simpl; lia. Qed.

Lemma heuristic_flags_length (commits : list value) :
  (List.length (heuristic_flags commits) <= 3)%nat.
Proof.
  unfold heuristic_flags. cbv zeta. rewrite !length_app.
  repeat match goal with
         | |- context [List.length (flag_if ?b ?f)] =>
             let H := fresh in pose proof (flag_if_length b f) as H;
             generalize dependent (List.length (flag_if b f)); intros
         end.
  lia.
Qed.

Lemma ratio_exceeds_iff (k n : nat) (q : Q) :
  ratio_exceeds k n q = true <-> (q < Z.of_nat k # Pos.of_nat n)%Q.
Proof.
  unfold ratio_exceeds. rewrite negb_true_iff.
  split.
  - intros H. apply Qnot_le_lt. intros L.
    apply Qle_bool_iff in L. congruence.
  - intros H. destruct (Qle_bool (Z.of_nat k # Pos.of_nat n) q) eqn:E; [|reflexivity].
    apply Qle_bool_iff in E. exfalso. exact (Qlt_not_le _ _ H E).
Qed.

Lemma generic_flag_iff (commits : list value) :
  In (VStr "Over 60% generic commit messages") (heuristic_flags commits)
  <-> ratio_exceeds (generic_count commits) (List.length commits) (6 # 10) = true.
Proof.
  unfold heuristic_flags. cbv zeta. rewrite !in_app_iff.
  split.
  - intros [H | [H | H]].
    + destruct (ratio_exceeds _ _ (8 # 10)); simpl in H;
        [destruct H as [H|[]]; discriminate H | contradiction].
    + destruct (List.length commits <? 5)%nat; simpl in H;
        [destruct H as [H|[]]; discriminate H | contradiction].
    + destruct (ratio_exceeds _ _ (6 # 10)); [reflexivity | contradiction].
  - intros ->. right; right; left; reflexivity.
Qed.

(** C5.  For the empty commit list [analyze_commit_patterns] returns a total
    of 0 commits, the single flag "No commit data available" and the
    penalty 20; none of the three checks runs (the too-few-commits flag,
    which an empty list would otherwise raise, is absent), and any other
    empty value short-circuits in the same way. *)
Theorem no_commit_data_short_circuit :
  analyze_commit_patterns (VList []) =
  Ret (VDict [("total_commits", VInt 0);
              ("red_flags", VList [VStr "No commit data available"]);
              ("commit_messages", VList []);
              ("pattern_score", VInt 20)])
  /\ ~ In (VStr "Very few commits (< 5)") [VStr "No commit data available"]
  /\ analyze_commit_patterns VNone = analyze_commit_patterns (VList [])
  /\ analyze_commit_patterns (VStr EmptyString) = analyze_commit_patterns (VList []).
Proof.
  repeat split.
  intros [H | []]. discriminate H.
Qed.

(** C6.  For a non-empty list of commit entries the penalty is 15 times the
    number of flags raised, hence at most 45; the generic-message flag is
    raised exactly when the fraction of messages that contain a generic
    word (letter case ignored) is strictly above 0.6: 7 such messages out
    of 10 raise it, 6 out of 10 do not. *)
Theorem heuristic_penalty_and_generic_flag (commits : list value) :
  commits <> [] ->
  forallb wf_commit commits = true ->
  exists flags,
    let r := analyze_commit_patterns (VList commits) in
    let generic := VStr "Over 60% generic commit messages" in
    field "red_flags" r = Some (VList flags)
    /\ field "pattern_score" r = Some (VInt (Z.of_nat (List.length flags) * 15))
    /\ Z.of_nat (List.length flags) * 15 <= 45
    /\ (In generic flags <->
        (6 # 10 < Z.of_nat (generic_count commits) # Pos.of_nat (List.length commits))%Q)
    /\ (List.length commits = 10%nat -> generic_count commits = 7%nat -> In generic flags)
    /\ (List.length commits = 10%nat -> generic_count commits = 6%nat -> ~ In generic flags).
Proof.
  intros Hne Hwf.
  exists (heuristic_flags commits). cbv zeta.
  rewrite (analyze_commit_patterns_wf commits Hne Hwf). cbn [field].
  assert (Hiff : In (VStr "Over 60% generic commit messages") (heuristic_flags commits) <->
                 (6 # 10 < Z.of_nat (generic_count commits) # Pos.of_nat (List.length commits))%Q).
  { rewrite generic_flag_iff. apply ratio_exceeds_iff. }
  split; [reflexivity|].
  split; [reflexivity|].
  split; [pose proof (heuristic_flags_length commits); lia|].
  split; [exact Hiff|].
  split.
  - intros Hn Hk. apply Hiff. rewrite Hn, Hk. reflexivity.
  - intros Hn Hk Hin. apply Hiff in Hin. rewrite Hn, Hk in Hin. discriminate Hin.
Qed.

Lemma heuristic_penalty_and_generic_flag_witness :
  Sample.ten_commits 7 "Fix the UPDATE script" "add parser" <> []
  /\ forallb wf_commit (Sample.ten_commits 7 "Fix the UPDATE script" "add parser") = true
  /\ exists flags,
       field "red_flags"
         (analyze_commit_patterns
            (VList (Sample.ten_commits 7 "Fix the UPDATE script" "add parser")))
       = Some (VList flags)
       /\ field "pattern_score"
            (analyze_commit_patterns
               (VList (Sample.ten_commits 7 "Fix the UPDATE script" "add parser")))
          = Some (VInt (Z.of_nat (List.length flags) * 15))
       /\ In (VStr "Over 60% generic commit messages") flags.
Proof.
  split; [discriminate | split; [reflexivity |]].
  destruct (heuristic_penalty_and_generic_flag
              (Sample.ten_commits 7 "Fix the UPDATE script" "add parser"))
    as (flags & Hf & Hs & _ & _ & H7 & _); [discriminate | reflexivity |].
  exists flags. split; [exact Hf | split; [exact Hs |]].
  apply H7; reflexivity.
Defined.

(** Seven of ten messages with "fix" or "update" raise the flag; six of ten
    do not. *)
Example generic_seven_of_ten :
  field "red_flags"
    (analyze_commit_patterns (VList (Sample.ten_commits 7 "fix crash on update" "add parser")))
  = Some (VList [VStr "Over 60% generic commit messages"])
  /\ field "red_flags"
       (analyze_commit_patterns (VList (Sample.ten_commits 6 "fix crash on update" "add parser")))
     = Some (VList []).
Proof. split; vm_compute; reflexivity. Qed.

(** ** Data fetcher *)

(** Inverts one [bind] of a hypothesis [bind m k = Ret v]. *)
Ltac bind_inv H :=
  match type of H with
  | bind ?m _ = Ret _ =>
      let x := fresh "x" in
      let E := fresh "E" in
      destruct m as [x|] eqn:E; [cbn [bind] in H | discriminate H]
  end.

Lemma split_no_sep (sep : ascii) (s : string) :
  Str.existsb_char (Ascii.eqb sep) s = false -> Str.split sep s = [s].
Proof.
  induction s as [|c s IH]; [reflexivity|].
  cbn [Str.existsb_char Str.split]. intros H.
  apply orb_false_elim in H; destruct H as [Hc H].
  rewrite Ascii.eqb_sym, Hc, (IH H). reflexivity.
Qed.

Lemma rstrip_by_none (p : ascii -> bool) (s : string) :
  Str.existsb_char p s = false -> Str.rstrip_by p s = s.
Proof.
  induction s as [|c s IH]; [reflexivity|].
  cbn [Str.existsb_char Str.rstrip_by]. intros H.
  apply orb_false_elim in H; destruct H as [Hc H].
  rewrite (IH H), Hc. destruct s; reflexivity.
Qed.


Section FetcherFacts.

Variable requests_get : string -> py response.
Variable b64decode_utf8 : value -> py string.

(** A successful fetch returns the twelve-field record, with the owner and
    the repository name it was asked for. *)
Lemma fetch_try_record (owner repo : string) (v : value) :
  fetch_try requests_get b64decode_utf8 owner repo = Ret v ->
  exists name description stars forks created updated language languages commits readme,
    v = VDict [("name", name);
               ("description", description);
               ("stars", stars);
               ("forks", forks);
               ("created_at", created);
               ("updated_at", updated);
               ("language", language);
               ("languages", languages);
               ("commits", commits);
               ("readme", VStr readme);
               ("owner", VStr owner);
               ("repo", VStr repo)].
Proof.
  unfold fetch_try. intros H.
  repeat bind_inv H.
  inversion H. do 10 eexists. reflexivity.
Qed.

Lemma fetch_except_error (e : exn) :
  exists msg, fetch_except e = Ret (error_result msg) /\ msg <> "Invalid GitHub URL".
Proof.
  destruct e as [status msg | cls msg]; cbn [fetch_except].
  - destruct (status =? 404)%Z; [eexists; split; [reflexivity | discriminate]|].
    destruct (status =? 403)%Z; eexists; split; try reflexivity; discriminate.
  - eexists; split; [reflexivity | discriminate].
Qed.

(** [fetch_repo_data] never raises: it returns a record or an error
    result. *)
Lemma fetch_repo_data_returns (repo_url : string) :
  exists v, fetch_repo_data requests_get b64decode_utf8 repo_url = Ret v
            /\ ((exists msg, v = error_result msg)
                \/ exists owner repo, fetch_try requests_get b64decode_utf8 owner repo = Ret v).
Proof.
  unfold fetch_repo_data. cbv zeta.
  destruct (_ <? 2)%nat.
  - eexists; split; [reflexivity | left; eexists; reflexivity].
  - match goal with |- context [try_except ?m _] => destruct m as [v|e] eqn:E end.
    + exists v; split; [reflexivity | right; eauto].
    + destruct (fetch_except_error e) as (msg & Em & _).
      exists (error_result msg); split; [exact Em | left; eexists; reflexivity].
Qed.

End FetcherFacts.

(** ** Report renderer *)

(** A fused result is the ten-field record over a model assessment that is
    a dictionary. *)
Lemma calculate_final_score_record (g c fa : value) :
  calculate_final_score g c = Ret fa ->
  exists gd score category risk color ai tc flags hr,
    g = VDict gd
    /\ fa = VDict [("authenticity_score", of_num score);
                   ("category", VStr category);
                   ("risk_level", VStr risk);
                   ("color", VStr color);
                   ("ai_generated_score", ai);
                   ("technical_complexity", tc);
                   ("red_flags", VList flags);
                   ("hiring_recommendation", hr);
                   ("groq_analysis", g);
                   ("commit_analysis", c)].
Proof.
  unfold calculate_final_score. intros H.
  destruct g as [| | | | |l|gd]; try discriminate H.
  do 3 bind_inv H.
  destruct (bands _) as [[category risk] color].
  repeat bind_inv H.
  inversion H. do 9 eexists. split; reflexivity.
Qed.

(** On a fused result the renderer reads every field it needs. *)
Lemma generate_report_returns (rd : dict) (g c fa : value) :
  calculate_final_score g c = Ret fa ->
  returns (generate_report (VDict rd) fa).
Proof.
  intros H.
  destruct (calculate_final_score_record g c fa H)
    as (gd & score & category & risk & color & ai & tc & flags & hr & -> & ->).
  unfold generate_report, returns.
  rewrite !get_dict.
  cbn [bind subscript lookup String.eqb Ascii.eqb Bool.eqb len get].
  destruct (truthy (VList flags)); cbn [bind iter]; eexists; reflexivity.
Qed.

(** C9.  [generate_report] is a function of its two arguments alone: run
    after anything else has been printed it prints nothing, and two runs on
    the same repository record and fused result have the same outcome; on
    a record and a fused result of [calculate_final_score] that outcome is
    the report text. *)
Theorem generate_report_is_pure (repo_data final_analysis : value) (out1 out2 : list string) :
  snd (lift (generate_report repo_data final_analysis) out1) = out1
  /\ fst (lift (generate_report repo_data final_analysis) out1)
     = fst (lift (generate_report repo_data final_analysis) out2)
  /\ (forall rd g c,
        repo_data = VDict rd ->
        calculate_final_score g c = Ret final_analysis ->
        exists report,
          lift (generate_report repo_data final_analysis) out1 = (Ret report, out1)
          /\ lift (generate_report repo_data final_analysis) out2 = (Ret report, out2)).
Proof.
  split; [reflexivity | split; [reflexivity |]].
  intros rd g c -> H.
  destruct (generate_report_returns rd g c final_analysis H) as [report E].
  exists report. unfold lift. rewrite E. split; reflexivity.
Qed.

Lemma generate_report_is_pure_witness :
  calculate_final_score (VDict [("authenticity_score", VInt 80)]) Sample.heuristics
  = Ret Sample.fused
  /\ exists report,
       lift (generate_report Sample.record Sample.fused) [] = (Ret report, [])
       /\ lift (generate_report Sample.record Sample.fused) ["📄 Generating report..."]
          = (Ret report, ["📄 Generating report..."]).
Proof.
  split; [reflexivity|].
  destruct (generate_report_is_pure Sample.record Sample.fused [] ["📄 Generating report..."])
    as (_ & _ & H).
  match eval unfold Sample.record in Sample.record with
  | VDict ?rd =>
      exact (H rd (VDict [("authenticity_score", VInt 80)]) Sample.heuristics eq_refl eq_refl)
  end.
Defined.

(** ** Response parser: the text operations *)

Lemma lacks_cons (c a : ascii) (s : string) :
  lacks c (String a s) <-> Ascii.eqb c a = false /\ lacks c s.
Proof.
  unfold lacks; cbn [Str.existsb_char]. split.
  - intros H; apply orb_false_elim in H; exact H.
  - intros [-> ->]; reflexivity.
Qed.

Lemma lacks_app (c : ascii) (s t : string) :
  lacks c (s ++ t) <-> lacks c s /\ lacks c t.
Proof.
  induction s as [|a s IH]; cbn [String.append].
  - split; [intros H; split; [reflexivity | exact H] | intros [_ H]; exact H].
  - rewrite !lacks_cons, IH. tauto.
Qed.

Lemma lacks_lstrip (c : ascii) (s : string) : lacks c s -> lacks c (Str.lstrip s).
Proof.
  induction s as [|a s IH]; [auto|].
  cbn [Str.lstrip]. intros H. destruct (Str.isspace a); [|exact H].
  apply IH. apply lacks_cons in H. tauto.
Qed.

Lemma lacks_rstrip_by (c : ascii) (p : ascii -> bool) (s : string) :
  lacks c s -> lacks c (Str.rstrip_by p s).
Proof.
  induction s as [|a s IH]; [auto|].
  cbn [Str.rstrip_by]. intros H. apply lacks_cons in H; destruct H as [Ha H].
  specialize (IH H).
  destruct (Str.rstrip_by p s) as [|b r].
  - destruct (p a); [reflexivity | apply lacks_cons; split; [exact Ha | reflexivity]].
  - apply lacks_cons; split; assumption.
Qed.

Lemma lacks_strip (c : ascii) (s : string) : lacks c s -> lacks c (Str.strip s).
Proof. intros H. apply lacks_rstrip_by, lacks_lstrip, H. Qed.

Lemma lacks_sub_lit_ws (c : ascii) (lit : string) (s : string) :
  lacks c s -> forall skip ws, lacks c (Re.sub_lit_ws lit skip ws s).
Proof.
  induction s as [|a s IH]; intros H skip ws; [reflexivity|].
  apply lacks_cons in H; destruct H as [Ha H].
  cbn [Re.sub_lit_ws].
  destruct skip as [|k]; [|apply IH, H].
  destruct (ws && Str.isspace a); [apply IH, H|].
  destruct (String.prefix lit (String a s)); [apply IH, H|].
  apply lacks_cons; split; [exact Ha | apply IH, H].
Qed.

Lemma lacks_response_text (c : ascii) (s : string) :
  lacks c s -> lacks c (response_text s).
Proof.
  intros H. unfold response_text, Re.sub_fence, Re.sub_fence_json.
  apply lacks_sub_lit_ws, lacks_sub_lit_ws, lacks_strip, H.
Qed.

(** A text without a backtick has no fence to remove. *)
Lemma sub_lit_ws_no_backtick (lit : string) (s : string) :
  lacks "`" s ->
  Re.sub_lit_ws (String "`" lit) 0 false s = s.
Proof.
  induction s as [|a s IH]; intros H; [reflexivity|].
  apply lacks_cons in H; destruct H as [Ha H].
  cbn [Re.sub_lit_ws andb String.prefix].
  destruct (ascii_dec "`" a) as [<- | _].
  - rewrite Ascii.eqb_refl in Ha; discriminate Ha.
  - rewrite (IH H). reflexivity.
Qed.

Lemma response_text_no_backtick (s : string) :
  lacks "`" s -> response_text s = Str.strip s.
Proof.
  intros H. unfold response_text, Re.sub_fence, Re.sub_fence_json.
  rewrite (sub_lit_ws_no_backtick "``json" (Str.strip s)) by (apply lacks_strip, H).
  apply sub_lit_ws_no_backtick, lacks_strip, H.
Qed.

Lemma from_first_none (c : ascii) (s : string) :
  lacks c s -> Re.from_first c s = None.
Proof.
  induction s as [|a s IH]; intros H; [reflexivity|].
  apply lacks_cons in H; destruct H as [Ha H].
  cbn [Re.from_first]. rewrite Ascii.eqb_sym, Ha. apply IH, H.
Qed.

Lemma from_first_app (c : ascii) (s t : string) :
  lacks c s -> Re.from_first c (s ++ t) = Re.from_first c t.
Proof.
  induction s as [|a s IH]; intros H; [reflexivity|].
  apply lacks_cons in H; destruct H as [Ha H].
  cbn [String.append Re.from_first]. rewrite Ascii.eqb_sym, Ha. apply IH, H.
Qed.

Lemma upto_last_end (c : ascii) (s : string) :
  Re.upto_last c (s ++ String c EmptyString) = Some (s ++ String c EmptyString).
Proof.
  induction s as [|a s IH]; cbn [String.append Re.upto_last].
  - rewrite Ascii.eqb_refl. reflexivity.
  - rewrite IH. reflexivity.
Qed.

Lemma rstrip_by_end (p : ascii -> bool) (s : string) (c : ascii) :
  p c = false ->
  Str.rstrip_by p (s ++ String c EmptyString) = s ++ String c EmptyString.
Proof.
  intros Hc. induction s as [|a s IH]; cbn [String.append Str.rstrip_by].
  - rewrite Hc. reflexivity.
  - rewrite IH. destruct s; reflexivity.
Qed.

(** Leading whitespace is dropped from the prose only, when the object
    follows. *)
Lemma lstrip_before_brace (prose rest : string) :
  exists prose',
    Str.lstrip (prose ++ String "{" rest) = prose' ++ String "{" rest
    /\ forall c, lacks c prose -> lacks c prose'.
Proof.
  induction prose as [|a s IH]; cbn [String.append Str.lstrip].
  - exists EmptyString. split; [reflexivity | auto].
  - destruct (Str.isspace a).
    + destruct IH as (p' & E & L). exists p'. split; [exact E|].
      intros c H. apply L. apply lacks_cons in H. tauto.
    + exists (String a s). split; [reflexivity | auto].
Qed.

Lemma search_braces_object (prose body : string) :
  lacks "{" prose ->
  Re.search_braces (prose ++ "{" ++ body ++ "}") = Some ("{" ++ body ++ "}").
Proof.
  intros H. unfold Re.search_braces.
  rewrite (from_first_app "{" prose _ H).
  cbn [String.append Re.from_first Ascii.eqb Bool.eqb].
  change (String "{" (body ++ "}")) with (String "{" body ++ "}").
  apply upto_last_end.
Qed.

Lemma append_assoc (s t u : string) : (s ++ t) ++ u = s ++ (t ++ u).
Proof.
  induction s as [|a s IH]; cbn [String.append]; [reflexivity | rewrite IH; reflexivity].
Qed.

Lemma sub_lit_ws_app (lit : string) (s t : string) :
  lacks "`" s ->
  Re.sub_lit_ws (String "`" lit) 0 false (s ++ t)
  = s ++ Re.sub_lit_ws (String "`" lit) 0 false t.
Proof.
  induction s as [|a s IH]; intros H; [reflexivity|].
  apply lacks_cons in H; destruct H as [Ha H].
  cbn [String.append Re.sub_lit_ws andb String.prefix].
  destruct (ascii_dec "`" a) as [<- | _].
  - rewrite Ascii.eqb_refl in Ha; discriminate Ha.
  - rewrite (IH H). reflexivity.
Qed.

(** After a fence, the whitespace that opens the text is part of the
    match. *)
Lemma sub_lit_ws_after_fence (lit : string) (s t : string) :
  lacks "`" s ->
  Str.lstrip s <> EmptyString ->
  Re.sub_lit_ws (String "`" lit) 0 true (s ++ t)
  = Str.lstrip s ++ Re.sub_lit_ws (String "`" lit) 0 false t.
Proof.
  induction s as [|a s IH]; intros H Hne; [contradiction Hne; reflexivity|].
  apply lacks_cons in H; destruct H as [Ha H].
  cbn [String.append Re.sub_lit_ws andb Str.lstrip] in *.
  destruct (Str.isspace a).
  - apply IH; assumption.
  - cbn [String.prefix].
    destruct (ascii_dec "`" a) as [<- | _].
    + rewrite Ascii.eqb_refl in Ha; discriminate Ha.
    + rewrite (sub_lit_ws_app lit s t H). reflexivity.
Qed.

Lemma strip_fenced (text : string) : Str.strip (fenced text) = fenced text.
Proof.
  unfold Str.strip, fenced.
  change (Str.lstrip ("```json" ++ nl ++ text ++ nl ++ "```"))
    with ("```json" ++ nl ++ text ++ nl ++ "```").
  replace ("```json" ++ nl ++ text ++ nl ++ "```")
    with (("```json" ++ nl ++ text ++ nl ++ "``") ++ "`").
  - apply rstrip_by_end. reflexivity.
  - rewrite !append_assoc. reflexivity.
Qed.

(** The fences and the line breaks next to them go; the reply stays, less
    its leading whitespace. *)
Lemma response_text_fenced (text : string) :
  lacks "`" text ->
  Str.lstrip text <> EmptyString ->
  response_text (fenced text) = Str.lstrip text ++ nl.
Proof.
  intros H Hne. unfold response_text. rewrite strip_fenced.
  unfold Re.sub_fence_json, fenced.
  change (Re.sub_lit_ws "```json" 0 false ("```json" ++ nl ++ text ++ nl ++ "```"))
    with (Re.sub_lit_ws "```json" 0 true (text ++ nl ++ "```")).
  rewrite (sub_lit_ws_after_fence "``json" text (nl ++ "```") H Hne).
  change (Re.sub_lit_ws "```json" 0 false (nl ++ "```")) with (nl ++ "```").
  unfold Re.sub_fence.
  rewrite (sub_lit_ws_app "``" (Str.lstrip text) (nl ++ "```") (lacks_lstrip "`" text H)).
  reflexivity.
Qed.

Lemma upto_last_none (c : ascii) (s : string) :
  lacks c s -> Re.upto_last c s = None.
Proof.
  induction s as [|a s IH]; intros H; [reflexivity|].
  apply lacks_cons in H; destruct H as [Ha H].
  cbn [Re.upto_last]. rewrite (IH H), Ascii.eqb_sym, Ha. reflexivity.
Qed.

Lemma upto_last_app_lacks (c : ascii) (s w : string) :
  lacks c w -> Re.upto_last c (s ++ w) = Re.upto_last c s.
Proof.
  intros H. induction s as [|a s IH]; cbn [String.append Re.upto_last].
  - apply upto_last_none, H.
  - rewrite IH. reflexivity.
Qed.

Lemma from_first_app_some (c : ascii) (s u w : string) :
  Re.from_first c s = Some u -> Re.from_first c (s ++ w) = Some (u ++ w).
Proof.
  induction s as [|a s IH]; cbn [String.append Re.from_first]; [discriminate|].
  destruct (Ascii.eqb a c).
  - intros E; inversion E; reflexivity.
  - exact IH.
Qed.

Lemma from_first_total (c : ascii) (s : string) :
  lacks c s \/ exists u, Re.from_first c s = Some u.
Proof.
  induction s as [|a s IH]; [left; reflexivity|].
  cbn [Re.from_first]. destruct (Ascii.eqb a c) eqn:E.
  - right; eexists; reflexivity.
  - destruct IH as [L | [u Eu]].
    + left. apply lacks_cons. rewrite Ascii.eqb_sym. auto.
    + right; eauto.
Qed.

Lemma search_braces_app_lacks (s w : string) :
  lacks "{" w -> lacks "}" w ->
  Re.search_braces (s ++ w) = Re.search_braces s.
Proof.
  intros Ho Hc. unfold Re.search_braces.
  destruct (from_first_total "{" s) as [L | [u Eu]].
  - rewrite (from_first_app "{" s w L), (from_first_none "{" w Ho),
      (from_first_none "{" s L). reflexivity.
  - rewrite (from_first_app_some "{" s u w Eu), Eu.
    apply upto_last_app_lacks, Hc.
Qed.

Lemma rstrip_by_cons (p : ascii -> bool) (a : ascii) (s : string) :
  p a = false -> Str.rstrip_by p (String a s) = String a (Str.rstrip_by p s).
Proof.
  intros H. cbn [Str.rstrip_by]. rewrite H. destruct (Str.rstrip_by p s); reflexivity.
Qed.

Lemma from_first_rstrip_by (p : ascii -> bool) (c : ascii) (s : string) :
  p c = false ->
  Re.from_first c (Str.rstrip_by p s) = option_map (Str.rstrip_by p) (Re.from_first c s).
Proof.
  intros Hc. induction s as [|a s IH]; [reflexivity|].
  cbn [Re.from_first].
  destruct (Ascii.eqb a c) eqn:E.
  - apply Ascii.eqb_eq in E; subst a.
    cbn [option_map]. rewrite (rstrip_by_cons p c s Hc). cbn [Re.from_first].
    rewrite Ascii.eqb_refl. reflexivity.
  - rewrite <- IH. cbn [Str.rstrip_by].
    destruct (Str.rstrip_by p s) as [|b r].
    + destruct (p a); cbn [Re.from_first]; [reflexivity | rewrite E; reflexivity].
    + cbn [Re.from_first]. rewrite E. reflexivity.
Qed.

Lemma upto_last_rstrip_by (p : ascii -> bool) (c : ascii) (s : string) :
  p c = false ->
  Re.upto_last c (Str.rstrip_by p s) = Re.upto_last c s.
Proof.
  intros Hc. induction s as [|a s IH]; [reflexivity|].
  cbn [Str.rstrip_by Re.upto_last]. rewrite <- IH.
  destruct (Str.rstrip_by p s) as [|b r].
  - cbn [Re.upto_last].
    destruct (p a) eqn:Ea; cbn [Re.upto_last]; [|reflexivity].
    destruct (Ascii.eqb a c) eqn:E; [|reflexivity].
    apply Ascii.eqb_eq in E; subst a. congruence.
  - reflexivity.
Qed.

Lemma search_braces_rstrip (s : string) :
  Re.search_braces (Str.rstrip_by Str.isspace s) = Re.search_braces s.
Proof.
  unfold Re.search_braces.
  rewrite (from_first_rstrip_by Str.isspace "{" s eq_refl).
  destruct (Re.from_first "{" s) as [u|]; cbn [option_map]; [|reflexivity].
  apply upto_last_rstrip_by. reflexivity.
Qed.

(** ** Model client *)

Section ClientFacts.

Variable json_loads : string -> py value.
Variable groq_create : string -> py value.

Lemma parse_response_str (content : string) :
  parse_response json_loads (VStr content) =
  try_except (json_loads (response_text content))
    (fun _ =>
       match Re.search_braces (response_text content) with
       | Some span => json_loads span
       | None => Ret (error_result "Could not parse response")
       end).
Proof. reflexivity. Qed.

(** The direct parse, when it succeeds, is the answer. *)
Lemma parse_response_direct (content : string) (v : value) :
  json_loads (response_text content) = Ret v ->
  parse_response json_loads (VStr content) = Ret v.
Proof. intros H. rewrite parse_response_str, H. reflexivity. Qed.

(** A fenced reply is parsed like the reply itself, for a parser that does
    not mind the line break left at the end. *)
Lemma parse_response_fenced (text : string) :
  lacks "`" text ->
  Str.lstrip text <> EmptyString ->
  same_outcome (json_loads (Str.lstrip text ++ nl)) (json_loads (Str.strip text)) ->
  parse_response json_loads (VStr (fenced text)) = parse_response json_loads (VStr text).
Proof.
  intros H Hne Hsame.
  rewrite !parse_response_str.
  rewrite (response_text_fenced text H Hne), (response_text_no_backtick text H).
  assert (Es : Re.search_braces (Str.lstrip text ++ nl) = Re.search_braces (Str.strip text)).
  { rewrite search_braces_app_lacks by reflexivity.
    unfold Str.strip. symmetry. apply search_braces_rstrip. }
  rewrite Es.
  destruct (json_loads (Str.lstrip text ++ nl)) as [a|e1],
           (json_loads (Str.strip text)) as [b|e2];
    cbn [same_outcome try_except] in *; try contradiction; congruence.
Qed.

(** Prose, then an object: when the whole text does not parse, the object
    is parsed. *)
Lemma parse_response_prose (prose body : string) :
  lacks "`" prose -> lacks "`" body -> lacks "{" prose ->
  raises (json_loads (response_text (prose ++ "{" ++ body ++ "}"))) ->
  parse_response json_loads (VStr (prose ++ "{" ++ body ++ "}"))
  = json_loads ("{" ++ body ++ "}").
Proof.
  intros Hp Hb Ho [e He].
  rewrite parse_response_str, He. cbn [try_except].
  assert (Hall : lacks "`" (prose ++ "{" ++ body ++ "}")).
  { apply lacks_app; split; [exact Hp|].
    cbn [String.append]. apply lacks_cons; split; [reflexivity|].
    apply lacks_app; split; [exact Hb | reflexivity]. }
  rewrite (response_text_no_backtick _ Hall).
  unfold Str.strip. cbn [String.append].
  destruct (lstrip_before_brace prose (body ++ "}")) as (p' & -> & L).
  replace (p' ++ String "{" (body ++ "}")) with ((p' ++ String "{" body) ++ "}")
    by (rewrite append_assoc; reflexivity).
  rewrite (rstrip_by_end Str.isspace (p' ++ String "{" body) "}" eq_refl).
  rewrite append_assoc.
  change (String "{" body ++ "}") with ("{" ++ body ++ "}").
  rewrite (search_braces_object p' body (L "{"%char Ho)). reflexivity.
Qed.

(** No opening brace anywhere: the parse error is reported as such. *)
Lemma parse_response_no_brace (content : string) :
  lacks "{" content ->
  raises (json_loads (response_text content)) ->
  parse_response json_loads (VStr content) = Ret (error_result "Could not parse response").
Proof.
  intros H [e He].
  rewrite parse_response_str, He. cbn [try_except].
  unfold Re.search_braces.
  rewrite (from_first_none "{" _ (lacks_response_text "{" content H)). reflexivity.
Qed.

(** A span that does not parse: the second error leaves the parser. *)
Lemma parse_response_retry_raises (content span : string) (e : exn) :
  raises (json_loads (response_text content)) ->
  Re.search_braces (response_text content) = Some span ->
  json_loads span = Raise e ->
  parse_response json_loads (VStr content) = Raise e.
Proof.
  intros [e1 He1] Hs He.
  rewrite parse_response_str, He1. cbn [try_except]. rewrite Hs. exact He.
Qed.

(** The three ways through the [try] of [analyze_with_groq]. *)
Lemma analyze_with_groq_cases (repo_data : value) (prompt : string) :
  model_prompt repo_data = Ret prompt ->
  (forall e, groq_create prompt = Raise e ->
     analyze_with_groq json_loads groq_create repo_data
     = Ret (error_result ("Groq analysis failed: " ++ exn_str e)))
  /\ (forall content g, groq_create prompt = Ret content ->
        parse_response json_loads content = Ret g ->
        analyze_with_groq json_loads groq_create repo_data = Ret g)
  /\ (forall content e, groq_create prompt = Ret content ->
        parse_response json_loads content = Raise e ->
        analyze_with_groq json_loads groq_create repo_data
        = Ret (error_result ("Groq analysis failed: " ++ exn_str e))).
Proof.
  intros Hp. unfold analyze_with_groq. rewrite Hp. cbn [bind].
  repeat split.
  - intros e ->. reflexivity.
  - intros content g -> H. cbn [bind]. rewrite H. reflexivity.
  - intros content e -> H. cbn [bind]. rewrite H. reflexivity.
Qed.

(** Once the prompt is built, the client returns. *)
Lemma analyze_with_groq_returns (repo_data : value) (prompt : string) :
  model_prompt repo_data = Ret prompt ->
  returns (analyze_with_groq json_loads groq_create repo_data).
Proof.
  intros Hp. destruct (analyze_with_groq_cases repo_data prompt Hp) as (H1 & H2 & H3).
  destruct (groq_create prompt) as [content|e] eqn:E.
  - destruct (parse_response json_loads content) as [g|e] eqn:P.
    + eexists. apply (H2 content g eq_refl P).
    + eexists. apply (H3 content e eq_refl P).
  - eexists. apply (H1 e eq_refl).
Qed.

End ClientFacts.

(** ** Orchestration *)

Lemma str_items_map (i : nat) (msgs : list string) :
  str_items i (map VStr msgs) = Ret msgs.
Proof.
  revert i; induction msgs as [|m msgs IH]; intros i; [reflexivity|].
  cbn [map str_items]. rewrite IH. reflexivity.
Qed.

Lemma forallb_firstn {A : Type} (p : A -> bool) (n : nat) (l : list A) :
  forallb p l = true -> forallb p (firstn n l) = true.
Proof.
  revert n; induction l as [|a l IH]; intros n H.
  - destruct n; reflexivity.
  - destruct n; [reflexivity|].
    cbn [forallb firstn] in *. apply andb_prop in H; destruct H as [Ha H].
    rewrite Ha, (IH n H). reflexivity.
Qed.

Lemma prompt_messages_wf (commits : list value) :
  forallb wf_commit commits = true ->
  exists msgs, prompt_messages commits = Ret (map VStr msgs).
Proof.
  induction commits as [|c commits IH]; [exists []; reflexivity|].
  cbn [forallb]. intros H; apply andb_prop in H; destruct H as [Hc H].
  destruct (IH H) as [msgs E].
  cbn [prompt_messages]. rewrite (commit_message_wf c Hc), E. cbn [bind].
  destruct (truthy (VStr (message_of c))).
  - exists (message_of c :: msgs). reflexivity.
  - exists msgs. reflexivity.
Qed.

(** The prompt is built for a record whose commits are well formed and
    whose README is a string. *)
Lemma model_prompt_returns (rd : dict) (commits : list value) (readme : string) :
  lookup "commits" rd = Some (VList commits) ->
  forallb wf_commit commits = true ->
  lookup "readme" rd = Some (VStr readme) ->
  returns (model_prompt (VDict rd)).
Proof.
  intros Hc Hwf Hr. unfold model_prompt, returns.
  rewrite get_dict, Hc. cbn [bind slice_to iter].
  destruct (prompt_messages_wf (firstn 10 commits) (forallb_firstn wf_commit 10 commits Hwf))
    as [msgs E].
  rewrite E. cbn [bind]. unfold build_prompt, join.
  rewrite !get_dict, Hr, str_items_map. cbn [bind slice_to].
  destruct (map VStr msgs); eexists; reflexivity.
Qed.

(** The commit heuristics return a well-formed result on well-formed
    commits. *)
Lemma analyze_commit_patterns_returns (commits : list value) :
  forallb wf_commit commits = true ->
  exists ca, analyze_commit_patterns (VList commits) = Ret (VDict ca)
             /\ wf_heuristic ca = true
             /\ 0 <= int_field "pattern_score" 0 ca <= 45.
Proof.
  intros Hwf. destruct commits as [|c0 cs].
  - eexists; split; [reflexivity|]. split; [reflexivity | cbn; lia].
  - rewrite (analyze_commit_patterns_wf (c0 :: cs)); [|discriminate | exact Hwf].
    eexists; split; [reflexivity|]. split; [reflexivity|].
    pose proof (heuristic_flags_length (c0 :: cs)).
    unfold int_field. cbn [lookup String.eqb Ascii.eqb Bool.eqb]. lia.
Qed.

(** The fusion returns on an assessment it can read, for every penalty the
    heuristics can give. *)
Lemma calculate_final_score_readable_returns (g c : dict) :
  readable_assessment g = true ->
  wf_heuristic c = true ->
  0 <= int_field "pattern_score" 0 c <= 45 ->
  returns (calculate_final_score (VDict g) (VDict c)).
Proof.
  intros Hg Hc Hp.
  unfold readable_assessment in Hg.
  apply andb_prop in Hg. destruct Hg as [Hg Hai].
  apply andb_prop in Hg. destruct Hg as [Hn Hrf].
  destruct (wf_heuristic_fields c Hc) as (Hpf & Hcf).
  assert (Hsub : returns (sub (match lookup "authenticity_score" g with
                               | Some v => v
                               | None => VInt 50
                               end) (VInt (int_field "pattern_score" 0 c)))).
  { unfold field_ok, is_number in Hn. unfold sub.
    destruct (lookup "authenticity_score" g) as [v|]; [|eexists; reflexivity].
    destruct (as_num v) as [[n|x]|]; [eexists; reflexivity | | discriminate Hn].
    cbn [as_num].
    destruct (to_float_small (int_field "pattern_score" 0 c) ltac:(lia)) as [fp ->].
    eexists; reflexivity. }
  destruct Hsub as [diff Hsub].
  unfold calculate_final_score.
  rewrite (get_int_field c "pattern_score" 0 Hpf), (get_list_field c "red_flags" Hcf).
  rewrite !get_dict. cbn [bind]. rewrite Hsub. cbn [bind].
  destruct (bands _) as [[category risk] color].
  unfold field_ok in Hrf, Hai.
  destruct (lookup "red_flags" g) as [[]|]; try discriminate Hrf; cbn [bind iter];
    destruct (lookup "ai_indicators" g) as [[]|]; try discriminate Hai; cbn [bind iter];
    eexists; reflexivity.
Qed.

(** The fusion raises on a value that is not an object, and on an object
    it cannot read. *)
Lemma calculate_final_score_not_object (g c : value) :
  (forall d, g <> VDict d) -> raises (calculate_final_score g c).
Proof.
  intros H. unfold calculate_final_score.
  destruct g; try (eexists; reflexivity).
  contradiction (H d); reflexivity.
Qed.

Lemma calculate_final_score_unreadable (d : dict) (c : value) :
  readable_assessment d = false ->
  raises (calculate_final_score (VDict d) c).
Proof.
  intros H. unfold calculate_final_score.
  rewrite !get_dict. cbn [bind].
  destruct (get c "pattern_score" (VInt 0)) as [p|e]; [|eexists; reflexivity].
  cbn [bind].
  match goal with
  | |- raises (bind ?m _) => destruct m as [diff|e] eqn:Es; [|eexists; reflexivity]
  end.
  cbn [bind].
  destruct (bands _) as [[category risk] color].
  assert (Hn : field_ok is_number "authenticity_score" d = true).
  { unfold field_ok, is_number.
    destruct (lookup "authenticity_score" d) as [v|]; [|reflexivity].
    unfold sub in Es. destruct (as_num v); [reflexivity | discriminate Es]. }
  unfold readable_assessment in H. rewrite Hn in H. cbn [andb] in H.
  unfold field_ok in H.
  destruct (lookup "red_flags" d) as [[]|]; cbn [bind iter is_iterable andb] in *;
    try (eexists; reflexivity);
    destruct (lookup "ai_indicators" d) as [[]|]; cbn [bind iter is_iterable andb] in *;
    try (eexists; reflexivity); discriminate H.
Qed.

Lemma contains_error_result (msg : string) :
  contains "error" (error_result msg) = Ret true.
Proof. reflexivity. Qed.

Section PipelineFacts.

Variable requests_get : string -> py response.
Variable json_loads : string -> py value.
Variable b64decode_utf8 : value -> py string.
Variable groq_create : string -> py value.

(** A failed fetch ends the run with the fetcher's error result. *)
Lemma run_fetch_error (repo_url : string) (out : list string) (msg : string) :
  fetch_repo_data requests_get b64decode_utf8 repo_url = Ret (error_result msg) ->
  analyze_repository requests_get json_loads b64decode_utf8 groq_create repo_url out
  = (Ret (error_result msg), (out ++ printed_to_fetch repo_url)%list).
Proof.
  intros H. unfold analyze_repository, bindR, print, lift.
  rewrite H. cbn [contains error_result lookup String.eqb Ascii.eqb Bool.eqb].
  unfold printed_to_fetch. rewrite <- app_assoc. reflexivity.
Qed.

(** A model result with the key ["error"] ends the run, before any score
    or report. *)
Lemma run_model_error (repo_url : string) (out : list string)
      (rd g commits ca : value) :
  fetch_repo_data requests_get b64decode_utf8 repo_url = Ret rd ->
  contains "error" rd = Ret false ->
  get rd "commits" (VList []) = Ret commits ->
  analyze_commit_patterns commits = Ret ca ->
  analyze_with_groq json_loads groq_create rd = Ret g ->
  contains "error" g = Ret true ->
  analyze_repository requests_get json_loads b64decode_utf8 groq_create repo_url out
  = (Ret g, (out ++ printed_to_model repo_url)%list).
Proof.
  intros Hf He Hc Ha Hg Hge. unfold analyze_repository, bindR, print, lift.
  rewrite Hf, He, Hc, Ha, Hg, Hge.
  unfold printed_to_model, printed_to_fetch. rewrite <- !app_assoc. reflexivity.
Qed.

(** Without that key the run goes on to the fusion and the report. *)
Lemma run_success (repo_url : string) (out : list string)
      (rd g commits ca fa : value) (report : string) :
  fetch_repo_data requests_get b64decode_utf8 repo_url = Ret rd ->
  contains "error" rd = Ret false ->
  get rd "commits" (VList []) = Ret commits ->
  analyze_commit_patterns commits = Ret ca ->
  analyze_with_groq json_loads groq_create rd = Ret g ->
  contains "error" g = Ret false ->
  calculate_final_score g ca = Ret fa ->
  generate_report rd fa = Ret report ->
  analyze_repository requests_get json_loads b64decode_utf8 groq_create repo_url out
  = (Ret (VDict [("repo_data", rd); ("final_analysis", fa); ("report", VStr report)]),
     (out ++ printed_to_end repo_url)%list).
Proof.
  intros Hf He Hc Ha Hg Hge Hs Hr. unfold analyze_repository, bindR, print, lift.
  rewrite Hf, He, Hc, Ha, Hg, Hge, Hs, Hr.
  unfold printed_to_end, printed_to_model, printed_to_fetch. rewrite <- !app_assoc. reflexivity.
Qed.

(** C10.  The model stage fails exactly when the mapping it returns has
    the key ["error"]: a reply that parses to an object with that key ends
    the run with that object as its result, after the same four printed
    lines and without any score or report, just as a failed model call or
    an unparsable reply does; an object without the key goes on to the
    fusion and the report. *)
Theorem model_error_key_ends_run (repo_url : string) (out : list string)
        (rd commits ca : value) (prompt : string) :
  fetch_repo_data requests_get b64decode_utf8 repo_url = Ret rd ->
  contains "error" rd = Ret false ->
  get rd "commits" (VList []) = Ret commits ->
  analyze_commit_patterns commits = Ret ca ->
  model_prompt rd = Ret prompt ->
  let run := analyze_repository requests_get json_loads b64decode_utf8 groq_create repo_url out in
  let stopped_with r := run = (Ret r, (out ++ printed_to_model repo_url)%list) in
  (forall content o,
     groq_create prompt = Ret content ->
     parse_response json_loads content = Ret (VDict o) ->
     lookup "error" o <> None ->
     stopped_with (VDict o))
  /\ (forall e,
        groq_create prompt = Raise e ->
        stopped_with (error_result ("Groq analysis failed: " ++ exn_str e)))
  /\ (forall content e,
        groq_create prompt = Ret content ->
        parse_response json_loads content = Raise e ->
        stopped_with (error_result ("Groq analysis failed: " ++ exn_str e)))
  /\ (forall content,
        groq_create prompt = Ret content ->
        parse_response json_loads content = Ret (error_result "Could not parse response") ->
        stopped_with (error_result "Could not parse response"))
  /\ (forall content o fa report,
        groq_create prompt = Ret content ->
        parse_response json_loads content = Ret (VDict o) ->
        lookup "error" o = None ->
        calculate_final_score (VDict o) ca = Ret fa ->
        generate_report rd fa = Ret report ->
        run = (Ret (VDict [("repo_data", rd); ("final_analysis", fa); ("report", VStr report)]),
               (out ++ printed_to_end repo_url)%list)).
Proof.
  intros Hf He Hc Ha Hp. cbv zeta.
  destruct (analyze_with_groq_cases json_loads groq_create rd prompt Hp) as (G1 & G2 & G3).
  assert (Stop : forall g, analyze_with_groq json_loads groq_create rd = Ret g ->
                           contains "error" g = Ret true ->
                           analyze_repository requests_get json_loads b64decode_utf8
                             groq_create repo_url out
                           = (Ret g, (out ++ printed_to_model repo_url)%list)).
  { intros g Hg Hge. exact (run_model_error repo_url out rd g commits ca Hf He Hc Ha Hg Hge). }
  split; [|split; [|split; [|split]]].
  - intros content o Hg Hpr Hk. apply Stop; [exact (G2 content (VDict o) Hg Hpr)|].
    cbn [contains]. destruct (lookup "error" o); [reflexivity | contradiction].
  - intros e Hg. apply Stop; [exact (G1 e Hg) | reflexivity].
  - intros content e Hg Hpr. apply Stop; [exact (G3 content e Hg Hpr) | reflexivity].
  - intros content Hg Hpr. apply Stop; [exact (G2 content _ Hg Hpr) | reflexivity].
  - intros content o fa report Hg Hpr Hk Hs Hr.
    apply (run_success repo_url out rd (VDict o) commits ca fa report Hf He Hc Ha);
      [exact (G2 content (VDict o) Hg Hpr) | | exact Hs | exact Hr].
    cbn [contains]. rewrite Hk. reflexivity.
Qed.

End PipelineFacts.

Lemma model_error_key_ends_run_witness :
  fetch_repo_data Sample.requests_get Sample.b64decode_utf8 Sample.url = Ret Sample.record
  /\ contains "error" Sample.record = Ret false
  /\ get Sample.record "commits" (VList []) = Ret Sample.commits_body
  /\ analyze_commit_patterns Sample.commits_body = Ret Sample.heuristics
  /\ model_prompt Sample.record = Ret Sample.prompt
  /\ Json.loads (dq "{'error': 'model refused', 'authenticity_score': 90}")
     = Ret (VDict [("error", VStr "model refused"); ("authenticity_score", VInt 90)])
  /\ Sample.run (dq "{'error': 'model refused', 'authenticity_score': 90}")
     = (Ret (VDict [("error", VStr "model refused"); ("authenticity_score", VInt 90)]),
        printed_to_model Sample.url).
Proof.
  repeat (split; [reflexivity|]).
  destruct (model_error_key_ends_run
              Sample.requests_get Json.loads Sample.b64decode_utf8
              (Sample.groq_says (dq "{'error': 'model refused', 'authenticity_score': 90}"))
              Sample.url [] Sample.record Sample.commits_body Sample.heuristics Sample.prompt
              eq_refl eq_refl eq_refl eq_refl eq_refl) as (H & _).
  apply (H (VStr (dq "{'error': 'model refused', 'authenticity_score': 90}"))
           [("error", VStr "model refused"); ("authenticity_score", VInt 90)]);
    [reflexivity | reflexivity | discriminate].
Defined.

(** ** Faults *)

Section RunFacts.

Variable requests_get : string -> py response.
Variable json_loads : string -> py value.
Variable b64decode_utf8 : value -> py string.
Variable groq_create : string -> py value.

(** The named error conditions of the fetcher, each an error result. *)
Lemma fetch_error_conditions (owner repo : string) :
  let api_url := "https://api.github.com/repos/" ++ owner ++ "/" ++ repo in
  let fetched := try_except (fetch_try requests_get b64decode_utf8 owner repo) fetch_except in
  (forall r, requests_get api_url = Ret r -> status_code r = 404 ->
             fetched = Ret (error_result "Repository not found"))
  /\ (forall r, requests_get api_url = Ret r -> status_code r = 403 ->
                fetched = Ret (error_result "Rate limit exceeded. Wait 1 hour."))
  /\ (forall r, requests_get api_url = Ret r -> is_http_error r = true ->
                status_code r <> 404 -> status_code r <> 403 ->
                fetched = Ret (error_result ("GitHub API error: " ++ http_error_text r)))
  /\ (forall cls msg, requests_get api_url = Raise (Error cls msg) ->
                      fetched = Ret (error_result ("Failed to fetch repo: " ++ msg))).
Proof.
  cbv zeta. unfold fetch_try.
  split; [|split; [|split]].
  - intros r -> Hs. cbn [bind]. unfold raise_for_status, is_http_error.
    rewrite Hs. reflexivity.
  - intros r -> Hs. cbn [bind]. unfold raise_for_status, is_http_error.
    rewrite Hs. reflexivity.
  - intros r -> He H404 H403. cbn [bind]. unfold raise_for_status.
    rewrite He. cbn [bind try_except fetch_except].
    apply Z.eqb_neq in H404, H403. rewrite H404, H403. reflexivity.
  - intros cls msg ->. reflexivity.
Qed.

(** C8, as the code has it.  The fetcher never raises, and an error it
    reports ends the run as the result [{"error": message}].  When the
    commit entries fetched are well formed and the model stage yields an
    object that has the key ["error"], or an object whose score is a
    number (an integer, a boolean or a real) and whose flag fields can be
    iterated (a list, a string, an object), each when present, the run
    returns: an error result, the model's own error object, or the
    composite of record, fused result and report; absent fields take their
    defaults.  Every other value of the model stage (one that is not an
    object, or an object without the key ["error"] whose score is not a
    number or one of whose flag fields cannot be iterated) is not given a
    default: the run returns that value as it is, which happens when
    ["error"] is found in it, or it raises. *)
Theorem run_returns_on_well_typed_replies (repo_url : string) (out : list string) :
  let fetched := fetch_repo_data requests_get b64decode_utf8 repo_url in
  let run := analyze_repository requests_get json_loads b64decode_utf8 groq_create repo_url out in
  returns fetched
  /\ (forall msg, fetched = Ret (error_result msg) ->
        run = (Ret (error_result msg), (out ++ printed_to_fetch repo_url)%list))
  /\ ((forall rd, fetched = Ret rd -> contains "error" rd = Ret false ->
         exists commits, field "commits" (Ret rd) = Some (VList commits)
                         /\ forallb wf_commit commits = true) ->
      (forall rd g, fetched = Ret rd ->
         analyze_with_groq json_loads groq_create rd = Ret g ->
         exists d, g = VDict d /\ (lookup "error" d <> None \/ readable_assessment d = true)) ->
      exists r out',
        run = (Ret r, out')
        /\ ((exists msg, r = error_result msg)
            \/ (exists d, r = VDict d /\ lookup "error" d <> None)
            \/ (exists rd fa report,
                  r = VDict [("repo_data", rd); ("final_analysis", fa);
                             ("report", VStr report)])))
  /\ (forall rd g,
        fetched = Ret rd -> contains "error" rd = Ret false ->
        analyze_with_groq json_loads groq_create rd = Ret g ->
        (forall d, g <> VDict d)
        \/ (exists d, g = VDict d /\ lookup "error" d = None
                      /\ readable_assessment d = false) ->
        (fst run = Ret g /\ contains "error" g = Ret true) \/ raises (fst run)).
Proof.
  cbv zeta.
  destruct (fetch_repo_data_returns requests_get b64decode_utf8 repo_url)
    as (v & Ev & Hv).
  split; [exists v; exact Ev|].
  split; [intros msg H; apply run_fetch_error; exact H|].
  split.
  - intros Hcommits Hmodel.
    destruct Hv as [[msg ->] | (owner & repo & Et)].
    { do 2 eexists. split; [apply run_fetch_error; exact Ev|]. left; eexists; reflexivity. }
    destruct (fetch_try_record requests_get b64decode_utf8 owner repo v Et)
      as (name & description & stars & forks & created & updated & language & languages
          & commits0 & readme & ->).
    destruct (Hcommits _ Ev eq_refl) as (commits & Hc & Hwf).
    cbn in Hc. inversion Hc; subst commits0; clear Hc.
    destruct (analyze_commit_patterns_returns commits Hwf) as (ca & Hca & Hcawf & Hpen).
    match type of Ev with _ = Ret (VDict ?d) =>
      destruct (model_prompt_returns d commits readme eq_refl Hwf eq_refl) as [prompt Hp];
      destruct (analyze_with_groq_returns json_loads groq_create (VDict d) prompt Hp) as [g Hg]
    end.
    destruct (Hmodel _ g Ev Hg) as (d & -> & Hd).
    destruct (lookup "error" d) as [x|] eqn:Ek.
    + do 2 eexists. split.
      * eapply run_model_error; [exact Ev | reflexivity | reflexivity | exact Hca | exact Hg |].
        cbn [contains]. rewrite Ek. reflexivity.
      * right; left. exists d. split; [reflexivity | rewrite Ek; discriminate].
    + destruct Hd as [Hd | Hd]; [contradiction Hd; reflexivity|].
      destruct (calculate_final_score_readable_returns d ca Hd Hcawf Hpen) as [fa Hs].
      match type of Ev with _ = Ret (VDict ?rec) =>
        destruct (generate_report_returns rec (VDict d) (VDict ca) _ Hs) as [report Hr]
      end.
      do 2 eexists. split.
      * eapply run_success; [exact Ev | reflexivity | reflexivity | exact Hca | exact Hg
                            | | exact Hs | exact Hr].
        cbn [contains]. rewrite Ek. reflexivity.
      * right; right. do 3 eexists. reflexivity.
  - intros rd g Hf He Hg Hshape.
    unfold analyze_repository, bindR, lift, print. rewrite Hf, He.
    destruct (get rd "commits" (VList [])) as [commits|e1];
      [|right; eexists; reflexivity].
    destruct (analyze_commit_patterns commits) as [ca|e2];
      [|right; eexists; reflexivity].
    rewrite Hg.
    destruct (contains "error" g) as [[|]|e3] eqn:Ek.
    + left. split; reflexivity.
    + right.
      assert (R : raises (calculate_final_score g ca)).
      { destruct Hshape as [Hno | (d & -> & _ & Hd)].
        - apply calculate_final_score_not_object, Hno.
        - apply calculate_final_score_unreadable, Hd. }
      destruct R as [e R]. rewrite R. eexists; reflexivity.
    + right. eexists; reflexivity.
Qed.

End RunFacts.

Lemma run_returns_on_well_typed_replies_witness :
  exists r out',
    Sample.run (dq "{'authenticity_score': 74.96, 'red_flags': ['no tests']}") = (Ret r, out')
    /\ ((exists msg, r = error_result msg)
        \/ (exists d, r = VDict d /\ lookup "error" d <> None)
        \/ (exists rd fa report,
              r = VDict [("repo_data", rd); ("final_analysis", fa); ("report", VStr report)])).
Proof.
  destruct (run_returns_on_well_typed_replies
              Sample.requests_get Json.loads Sample.b64decode_utf8
              (Sample.groq_says (dq "{'authenticity_score': 74.96, 'red_flags': ['no tests']}"))
              Sample.url []) as (_ & _ & H & _).
  apply H.
  - intros rd Hf _. vm_compute in Hf. inversion Hf; subst rd.
    eexists; split; reflexivity.
  - intros rd g Hf Hg. vm_compute in Hf. inversion Hf; subst rd.
    vm_compute in Hg. inversion Hg; subst g.
    eexists; split; [reflexivity | right; reflexivity].
Defined.

(** Replies of other shapes: a real score is rounded, a boolean score
    counts as 0 or 1, a JSON string in which the text "error" is found is
    returned as it is, and a JSON number fails the test for the key. *)
Example replies_of_other_shapes :
  (field "authenticity_score"
     (subscript_of (fst (Sample.run (dq "{'authenticity_score': 74.96}"))) "final_analysis"),
   field "authenticity_score"
     (subscript_of (fst (Sample.run (dq "{'authenticity_score': true}"))) "final_analysis"),
   fst (Sample.run (dq "'no errors found'")),
   fst (Sample.run "65"))
  = (Some (VFloat (decimal 600 1)),
     Some (VInt 0),
     Ret (VStr "no errors found"),
     Raise (Error "TypeError" "argument of type 'int' is not iterable")).
Proof. vm_compute. reflexivity. Qed.

(** Flag fields of other shapes: a string is iterated character by
    character, and [null] cannot be iterated. *)
Example replies_with_other_flags :
  (field "red_flags"
     (calculate_final_score (VDict [("red_flags", VStr "none")]) (VDict [])),
   fst (Sample.run (dq "{'authenticity_score': 80, 'red_flags': null}")))
  = (Some (VList [VStr "n"; VStr "o"; VStr "n"; VStr "e"]),
     Raise (Error "TypeError" "'NoneType' object is not iterable")).
Proof. vm_compute. reflexivity. Qed.

(** A reply whose score is a string, and a reply that is not an object,
    make the run raise. *)
Lemma ill_typed_reply_faults :
  Sample.run (dq "{'authenticity_score': 'high'}")
  = (Raise (Error "TypeError" "unsupported operand type(s) for -: 'str' and 'int'"),
     (printed_to_model Sample.url ++ ["🎯 Calculating score..."])%list)
  /\ Sample.run "[1, 2]"
     = (Raise (Error "AttributeError" "'list' object has no attribute 'get'"),
        (printed_to_model Sample.url ++ ["🎯 Calculating score..."])%list)
  /\ ~ returns (fst (Sample.run (dq "{'authenticity_score': 'high'}")))
  /\ ~ returns (fst (Sample.run "[1, 2]")).
Proof.
  repeat split; try (vm_compute; reflexivity); intros [r H]; vm_compute in H; discriminate H.
Qed.

(** ** The response parser on concrete replies *)

Example parse_fenced_reply :
  parse_response Json.loads (VStr (fenced (dq "{'authenticity_score': 65}")))
  = Ret (VDict [("authenticity_score", VInt 65)])
  /\ parse_response Json.loads (VStr (dq "{'authenticity_score': 65}"))
     = Ret (VDict [("authenticity_score", VInt 65)]).
Proof. split; vm_compute; reflexivity. Qed.

Example parse_reply_after_prose :
  parse_response Json.loads (VStr (dq "Here is the analysis: {'authenticity_score': 65}"))
  = Ret (VDict [("authenticity_score", VInt 65)]).
Proof. vm_compute; reflexivity. Qed.

Example parse_reply_without_braces :
  parse_response Json.loads (VStr "I cannot analyze this repository.")
  = Ret (error_result "Could not parse response").
Proof. vm_compute; reflexivity. Qed.

(** The general facts of the parser, at these replies. *)
Example parse_fenced_reply_by_lemma :
  parse_response Json.loads (VStr (fenced (dq "  {'authenticity_score': 65} ")))
  = parse_response Json.loads (VStr (dq "  {'authenticity_score': 65} ")).
Proof.
  apply parse_response_fenced; [reflexivity | discriminate | vm_compute; reflexivity].
Qed.

Example parse_prose_reply_by_lemma :
  parse_response Json.loads (VStr ("Here is the analysis: " ++ "{" ++ dq "'a': [1, 2]" ++ "}"))
  = Json.loads ("{" ++ dq "'a': [1, 2]" ++ "}").
Proof.
  apply parse_response_prose; try reflexivity.
  eexists; vm_compute; reflexivity.
Qed.

(** The span between the first opening and the last closing brace is what
    is retried. *)
Example search_is_greedy :
  Re.search_braces "see {a} and {b}." = Some "{a} and {b}".
Proof. reflexivity. Qed.

(** C4, at the reply [{authenticity_score: 65}].  The direct parse fails,
    the brace-delimited span is the whole reply, the retry fails as well,
    and the result is the error "Groq analysis failed: ..." of the outer
    handler, not "Could not parse response". *)
Theorem unparsable_span_reported_as_client_failure :
  let reply := "{authenticity_score: 65}" in
  let parser_text :=
    "Expecting property name enclosed in double quotes: line 1 column 2 (char 1)" in
  raises (Json.loads (response_text reply))
  /\ Re.search_braces (response_text reply) = Some reply
  /\ Json.loads reply = Raise (Error "JSONDecodeError" parser_text)
  /\ parse_response Json.loads (VStr reply) = Raise (Error "JSONDecodeError" parser_text)
  /\ analyze_with_groq Json.loads (Sample.groq_says reply) Sample.record
     = Ret (error_result ("Groq analysis failed: " ++ parser_text))
  /\ analyze_with_groq Json.loads (Sample.groq_says reply) Sample.record
     <> Ret (error_result "Could not parse response").
Proof.
  cbv zeta.
  split; [eexists; vm_compute; reflexivity|].
  repeat split; try (vm_compute; reflexivity).
  vm_compute. discriminate.
Qed.

(** * Further properties of the code *)

(** ** More on strings *)

Lemma len_take (n : nat) (s : string) : (Str.len (Str.take n s) <= n)%nat.
Proof.
  revert n; induction s as [|c s IH]; intros n; cbn [Str.take Str.len]; [lia|].
  destruct (Str.is_cont c) eqn:E.
  - cbn [Str.len]. rewrite E. apply IH.
  - destruct n as [|k]; cbn [Str.len]; [lia|].
    rewrite E. specialize (IH k). lia.
Qed.

Lemma lacks_slash (s : string) :
  lacks "/" s -> Str.existsb_char (fun c => Ascii.eqb c "/"%char) s = false.
Proof.
  induction s as [|c s IH]; intros H; [reflexivity|].
  apply lacks_cons in H; destruct H as [Hc H].
  cbn [Str.existsb_char]. rewrite Ascii.eqb_sym, Hc, (IH H). reflexivity.
Qed.

Lemma split_app (sep : ascii) (a b : string) :
  lacks sep a -> Str.split sep (a ++ String sep b) = a :: Str.split sep b.
Proof.
  induction a as [|c a IH]; intros H; cbn [String.append Str.split].
  - rewrite Ascii.eqb_refl. reflexivity.
  - apply lacks_cons in H; destruct H as [Hc H].
    rewrite Ascii.eqb_sym, Hc, (IH H). reflexivity.
Qed.

Lemma rstrip_by_all (p : ascii -> bool) (t : string) :
  Str.existsb_char (fun c => negb (p c)) t = false -> Str.rstrip_by p t = EmptyString.
Proof.
  induction t as [|c t IH]; intros H; [reflexivity|].
  cbn [Str.existsb_char] in H. apply orb_false_elim in H; destruct H as [Hc H].
  cbn [Str.rstrip_by]. rewrite (IH H).
  apply negb_false_iff in Hc. rewrite Hc. reflexivity.
Qed.

Lemma rstrip_by_app_all (p : ascii -> bool) (s t : string) :
  Str.existsb_char (fun c => negb (p c)) t = false ->
  Str.rstrip_by p (s ++ t) = Str.rstrip_by p s.
Proof.
  intros H. induction s as [|c s IH]; cbn [String.append].
  - rewrite (rstrip_by_all p t H). reflexivity.
  - cbn [Str.rstrip_by]. rewrite IH. reflexivity.
Qed.

Lemma rstrip_by_app_keep (p : ascii -> bool) (s t : string) :
  Str.rstrip_by p t = t -> t <> EmptyString -> Str.rstrip_by p (s ++ t) = s ++ t.
Proof.
  intros Ht Hne. induction s as [|c s IH]; cbn [String.append]; [exact Ht|].
  cbn [Str.rstrip_by]. rewrite IH.
  destruct (s ++ t) as [|b r] eqn:E; [|reflexivity].
  destruct s; cbn [String.append] in E; [contradiction | discriminate E].
Qed.

(** ** More on the data fetcher *)

Section FetcherMore.

Variable requests_get : string -> py response.
Variable b64decode_utf8 : value -> py string.

(** X1.  The result of [fetch_repo_data] has the key ["error"] exactly when
    the fetch failed: it is then the one-entry object [{"error": message}],
    and otherwise the twelve-field record, whose keys do not include
    ["error"] whatever the platform answered.  The function never raises. *)
Theorem fetch_result_error_key_iff_failed (repo_url : string) :
  exists v,
    fetch_repo_data requests_get b64decode_utf8 repo_url = Ret v
    /\ ((contains "error" v = Ret true /\ exists msg, v = error_result msg)
        \/ (contains "error" v = Ret false
            /\ exists owner repo,
                 fetch_try requests_get b64decode_utf8 owner repo = Ret v
                 /\ field "owner" (Ret v) = Some (VStr owner)
                 /\ field "repo" (Ret v) = Some (VStr repo))).
Proof.
  destruct (fetch_repo_data_returns requests_get b64decode_utf8 repo_url)
    as (v & Ev & [[msg ->] | (owner & repo & Et)]).
  - eexists; split; [exact Ev|]. left. split; [reflexivity | eauto].
  - exists v; split; [exact Ev|]. right.
    destruct (fetch_try_record requests_get b64decode_utf8 owner repo v Et)
      as (? & ? & ? & ? & ? & ? & ? & ? & ? & ? & E).
    subst v. split; [reflexivity|]. exists owner, repo. repeat split; assumption.
Qed.

(** X2.  The error messages of the fetcher.  For a URL with at least two
    segments, a 404 answer to the repository request gives "Repository not
    found", a 403 gives "Rate limit exceeded. Wait 1 hour.", any other
    status from 400 to 599 gives "GitHub API error: " followed by the text
    of the HTTP error, and an exception of [requests.get] itself gives
    "Failed to fetch repo: " followed by its text. *)
Theorem fetch_error_messages (repo_url : string) :
  let parts := Str.split "/" (Str.rstrip_slash repo_url) in
  let api_url := "https://api.github.com/repos/" ++ from_end 2 parts ++ "/" ++ from_end 1 parts in
  (2 <= List.length parts)%nat ->
  (forall r, requests_get api_url = Ret r -> status_code r = 404 ->
     fetch_repo_data requests_get b64decode_utf8 repo_url
     = Ret (error_result "Repository not found"))
  /\ (forall r, requests_get api_url = Ret r -> status_code r = 403 ->
        fetch_repo_data requests_get b64decode_utf8 repo_url
        = Ret (error_result "Rate limit exceeded. Wait 1 hour."))
  /\ (forall r, requests_get api_url = Ret r ->
        400 <= status_code r < 600 -> status_code r <> 404 -> status_code r <> 403 ->
        fetch_repo_data requests_get b64decode_utf8 repo_url
        = Ret (error_result ("GitHub API error: " ++ http_error_text r)))
  /\ (forall cls msg, requests_get api_url = Raise (Error cls msg) ->
        fetch_repo_data requests_get b64decode_utf8 repo_url
        = Ret (error_result ("Failed to fetch repo: " ++ msg))).
Proof.
  cbv zeta. intros Hlen.
  unfold fetch_repo_data. cbv zeta.
  apply Nat.ltb_ge in Hlen. rewrite Hlen.
  destruct (fetch_error_conditions requests_get b64decode_utf8
              (from_end 2 (Str.split "/" (Str.rstrip_slash repo_url)))
              (from_end 1 (Str.split "/" (Str.rstrip_slash repo_url))))
    as (H404 & H403 & Hother & Hexn).
  cbv zeta in H404, H403, Hother, Hexn.
  split; [exact H404 | split; [exact H403 | split; [|exact Hexn]]].
  intros r Hr Hs N404 N403. apply (Hother r Hr); [|exact N404 | exact N403].
  unfold is_http_error. apply andb_true_intro. split; [apply Z.leb_le | apply Z.ltb_lt]; lia.
Qed.

End FetcherMore.

Lemma fetch_error_messages_witness :
  (2 <= List.length (Str.split "/" (Str.rstrip_slash Sample.url)))%nat
  /\ fetch_repo_data World.missing Sample.b64decode_utf8 Sample.url
     = Ret (error_result "Repository not found").
Proof.
  split; [vm_compute; lia|].
  destruct (fetch_error_messages World.missing Sample.b64decode_utf8 Sample.url)
    as (H404 & _); [vm_compute; lia|].
  apply (H404 (Sample.not_found Sample.api)); reflexivity.
Defined.

Lemma split_nonempty (sep : ascii) (s : string) : Str.split sep s <> [].
Proof.
  destruct s as [|c s]; cbn [Str.split]; [discriminate|].
  destruct (Ascii.eqb c sep); [discriminate|].
  destruct (Str.split sep s); discriminate.
Qed.

Lemma split_app_sep (sep : ascii) (a b : string) :
  Str.split sep (a ++ String sep b) = (Str.split sep a ++ Str.split sep b)%list.
Proof.
  induction a as [|c a IH]; cbn [String.append Str.split].
  - rewrite Ascii.eqb_refl. reflexivity.
  - rewrite IH. destruct (Ascii.eqb c sep); [reflexivity|].
    pose proof (split_nonempty sep a) as Hne.
    destruct (Str.split sep a) as [|w ws]; [contradiction | reflexivity].
Qed.

Lemma from_end_two (l : list string) (a b : string) :
  from_end 2 (l ++ [a; b]) = a /\ from_end 1 (l ++ [a; b]) = b.
Proof.
  unfold from_end. rewrite length_app. cbn [List.length].
  split.
  - replace (List.length l + 2 - 2)%nat with (List.length l) by lia.
    rewrite app_nth2 by lia. rewrite Nat.sub_diag. reflexivity.
  - replace (List.length l + 2 - 1)%nat with (S (List.length l)) by lia.
    rewrite app_nth2 by lia.
    replace (S (List.length l) - List.length l)%nat with 1%nat by lia. reflexivity.
Qed.

Section FetcherUrls.

Variable requests_get : string -> py response.
Variable b64decode_utf8 : value -> py string.

(** X3.  Only the last two segments of the URL are used.  Whatever text
    comes before them (scheme and host are never looked at), and however
    many slashes follow, a URL that ends in [/owner/repo] makes
    [fetch_repo_data] query the repository [owner/repo]. *)
Theorem fetch_uses_last_two_segments (base owner repo slashes : string) :
  lacks "/" owner ->
  lacks "/" repo ->
  repo <> EmptyString ->
  Str.existsb_char (fun c => negb (Ascii.eqb c "/"%char)) slashes = false ->
  fetch_repo_data requests_get b64decode_utf8
    (base ++ "/" ++ owner ++ "/" ++ repo ++ slashes)
  = try_except (fetch_try requests_get b64decode_utf8 owner repo) fetch_except.
Proof.
  intros Ho Hr Hne Hs.
  assert (Estrip : Str.rstrip_slash (base ++ "/" ++ owner ++ "/" ++ repo ++ slashes)
                   = base ++ "/" ++ owner ++ "/" ++ repo).
  { unfold Str.rstrip_slash.
    replace (base ++ "/" ++ owner ++ "/" ++ repo ++ slashes)
      with ((base ++ "/" ++ owner ++ "/" ++ repo) ++ slashes)
      by (rewrite !append_assoc; reflexivity).
    rewrite (rstrip_by_app_all _ _ slashes Hs).
    replace (base ++ "/" ++ owner ++ "/" ++ repo)
      with ((base ++ "/" ++ owner ++ "/") ++ repo)
      by (rewrite !append_assoc; reflexivity).
    apply rstrip_by_app_keep; [|exact Hne].
    apply rstrip_by_none, lacks_slash, Hr. }
  assert (Eparts : Str.split "/" (base ++ "/" ++ owner ++ "/" ++ repo)
                   = (Str.split "/" base ++ [owner; repo])%list).
  { cbn [String.append]. rewrite split_app_sep.
    rewrite (split_app "/" owner repo Ho).
    rewrite (split_no_sep "/" repo Hr). reflexivity. }
  unfold fetch_repo_data. cbv zeta. rewrite Estrip, Eparts.
  destruct (from_end_two (Str.split "/" base) owner repo) as [-> ->].
  rewrite length_app. cbn [List.length].
  replace (List.length (Str.split "/" base) + 2 <? 2)%nat with false; [reflexivity|].
  symmetry. apply Nat.ltb_ge. lia.
Qed.

End FetcherUrls.

Lemma fetch_uses_last_two_segments_witness :
  lacks "/" "octocat" /\ lacks "/" "Hello-World" /\ "Hello-World" <> EmptyString
  /\ fetch_repo_data Sample.requests_get Sample.b64decode_utf8
       ("http://example.org/mirror" ++ "/" ++ "octocat" ++ "/" ++ "Hello-World" ++ "//")
     = fetch_repo_data Sample.requests_get Sample.b64decode_utf8 Sample.url.
Proof.
  repeat (split; [first [reflexivity | discriminate]|]).
  rewrite (fetch_uses_last_two_segments Sample.requests_get Sample.b64decode_utf8
             "http://example.org/mirror" "octocat" "Hello-World" "//");
    [reflexivity | reflexivity | reflexivity | discriminate | reflexivity].
Defined.

Section FetcherSecondary.

Variable requests_get : string -> py response.
Variable b64decode_utf8 : value -> py string.

(** X4.  The three secondary requests are best effort as far as the status
    goes: when the repository request succeeds with a JSON object and the
    commit, language and README requests are each answered with an error
    status, the fetch still succeeds, with no commits, no languages and an
    empty README, and with the fields of the repository object (here the
    name and the star count, 0 when absent). *)
Theorem secondary_error_status_gives_defaults
        (owner repo : string) (r0 rc rl rr : response) (body : dict) :
  let api_url := "https://api.github.com/repos/" ++ owner ++ "/" ++ repo in
  requests_get api_url = Ret r0 ->
  is_http_error r0 = false ->
  json r0 = Ret (VDict body) ->
  requests_get (api_url ++ "/commits") = Ret rc -> is_http_error rc = true ->
  requests_get (api_url ++ "/languages") = Ret rl -> is_http_error rl = true ->
  requests_get (api_url ++ "/readme") = Ret rr -> is_http_error rr = true ->
  let fetched := fetch_try requests_get b64decode_utf8 owner repo in
  returns fetched
  /\ field "commits" fetched = Some (VList [])
  /\ field "languages" fetched = Some (VDict [])
  /\ field "readme" fetched = Some (VStr EmptyString)
  /\ field "name" fetched
     = Some (match lookup "name" body with Some x => x | None => VNone end)
  /\ field "stars" fetched
     = Some (match lookup "stargazers_count" body with Some x => x | None => VInt 0 end).
Proof.
  cbv zeta. intros H0 Hok0 Hj0 Hc Hec Hl Hel Hr Her.
  unfold fetch_try. rewrite H0. cbn [bind].
  unfold raise_for_status, ok. rewrite Hok0. cbn [bind]. rewrite Hj0. cbn [bind].
  rewrite Hc. cbn [bind]. rewrite Hec. cbn [negb bind].
  rewrite Hl. cbn [bind]. rewrite Hel. cbn [negb bind].
  rewrite Hr. cbn [bind]. rewrite Her. cbn [negb bind].
  rewrite !get_dict. cbn [bind slice_to firstn].
  split; [eexists; reflexivity | repeat split].
Qed.

(** X5.  They are not best effort as far as exceptions go: when the
    repository request has succeeded and [requests.get] raises for the
    commit list (a timeout, a connection error), the whole fetch fails with
    "Failed to fetch repo: " and the text of the exception; the same holds
    for a commit answer whose body is not JSON. *)
Theorem secondary_exception_aborts_fetch
        (owner repo : string) (r0 : response) (body : value) :
  let api_url := "https://api.github.com/repos/" ++ owner ++ "/" ++ repo in
  let fetched := try_except (fetch_try requests_get b64decode_utf8 owner repo) fetch_except in
  requests_get api_url = Ret r0 ->
  is_http_error r0 = false ->
  json r0 = Ret body ->
  (forall cls msg,
     requests_get (api_url ++ "/commits") = Raise (Error cls msg) ->
     fetched = Ret (error_result ("Failed to fetch repo: " ++ msg)))
  /\ (forall rc cls msg,
        requests_get (api_url ++ "/commits") = Ret rc ->
        is_http_error rc = false ->
        json rc = Raise (Error cls msg) ->
        fetched = Ret (error_result ("Failed to fetch repo: " ++ msg))).
Proof.
  cbv zeta. intros H0 Hok0 Hj0.
  unfold fetch_try. rewrite H0. cbn [bind].
  unfold raise_for_status, ok. rewrite Hok0. cbn [bind]. rewrite Hj0. cbn [bind].
  split.
  - intros cls msg ->. reflexivity.
  - intros rc cls msg -> Hok Hj. cbn [bind]. rewrite Hok. cbn [negb]. rewrite Hj.
    reflexivity.
Qed.

(** What a successful [fetch_try] did with the commit list and the README. *)
Lemma fetch_try_truncation (owner repo : string) (v : value) :
  fetch_try requests_get b64decode_utf8 owner repo = Ret v ->
  exists rc commits commits20 readme_content,
    requests_get (("https://api.github.com/repos/" ++ owner ++ "/" ++ repo) ++ "/commits")
    = Ret rc
    /\ (if ok rc then json rc else Ret (VList [])) = Ret commits
    /\ slice_to 20 commits = Ret commits20
    /\ field "commits" (Ret v) = Some commits20
    /\ field "readme" (Ret v) = Some (VStr (Str.take 5000 readme_content)).
Proof.
  unfold fetch_try. intros H.
  repeat bind_inv H.
  inversion H; subst v; clear H.
  lazymatch goal with
  | Eg : requests_get (_ ++ "/commits") = Ret ?rc,
    Ec : (if ok ?rc then json ?rc else Ret (VList [])) = Ret ?c,
    Es : slice_to 20 ?c = Ret ?c20 |- _ =>
      exists rc, c, c20; eexists;
      repeat split; first [reflexivity | eassumption]
  end.
Qed.

(** X6.  A fetched record holds at most 20 commit entries, the first 20 of
    the list the platform served, and at most 5000 characters of README. *)
Theorem fetch_truncates_commits_and_readme (repo_url : string) (v : value) :
  fetch_repo_data requests_get b64decode_utf8 repo_url = Ret v ->
  (forall l, field "commits" (Ret v) = Some (VList l) -> (List.length l <= 20)%nat)
  /\ (forall s, field "readme" (Ret v) = Some (VStr s) -> (Str.len s <= 5000)%nat)
  /\ (forall owner repo rc served,
        fetch_try requests_get b64decode_utf8 owner repo = Ret v ->
        requests_get (("https://api.github.com/repos/" ++ owner ++ "/" ++ repo) ++ "/commits")
        = Ret rc ->
        is_http_error rc = false ->
        json rc = Ret (VList served) ->
        field "commits" (Ret v) = Some (VList (firstn 20 served))).
Proof.
  intros Hf.
  assert (Hcases : (exists msg, v = error_result msg)
                   \/ exists owner repo, fetch_try requests_get b64decode_utf8 owner repo = Ret v).
  { destruct (fetch_repo_data_returns requests_get b64decode_utf8 repo_url)
      as (v' & Ev & Hv). rewrite Hf in Ev. inversion Ev; subst v'. exact Hv. }
  split; [|split].
  - intros l Hl. destruct Hcases as [[msg ->] | (owner & repo & Et)]; [discriminate Hl|].
    destruct (fetch_try_truncation owner repo v Et)
      as (rc & commits & commits20 & readme & _ & _ & Hs & Hc & _).
    rewrite Hl in Hc. inversion Hc; subst commits20.
    destruct commits as [| | | | |served|]; cbn [slice_to] in Hs; try discriminate Hs.
    assert (El : l = firstn 20 served) by congruence.
    rewrite El. apply firstn_le_length.
  - intros s Hs. destruct Hcases as [[msg ->] | (owner & repo & Et)]; [discriminate Hs|].
    destruct (fetch_try_truncation owner repo v Et)
      as (rc & commits & commits20 & readme & _ & _ & _ & _ & Hr).
    rewrite Hs in Hr.
    assert (El : s = Str.take 5000 readme) by congruence.
    rewrite El. apply len_take.
  - intros owner repo rc served Et Hrc Hok Hj.
    destruct (fetch_try_truncation owner repo v Et)
      as (rc' & commits & commits20 & readme & Hrc' & Hc & Hs & Hf20 & _).
    rewrite Hrc in Hrc'. inversion Hrc'; subst rc'.
    unfold ok in Hc. rewrite Hok, Hj in Hc. cbn [negb] in Hc.
    assert (Ec : commits = VList served) by congruence.
    rewrite Ec in Hs. cbn [slice_to] in Hs.
    assert (E20 : commits20 = VList (firstn 20 served)) by congruence.
    rewrite <- E20. exact Hf20.
Qed.

End FetcherSecondary.

Lemma secondary_error_status_gives_defaults_witness :
  field "commits" (fetch_try World.bare Sample.b64decode_utf8 "octocat" "Hello-World")
  = Some (VList [])
  /\ field "name" (fetch_try World.bare Sample.b64decode_utf8 "octocat" "Hello-World")
     = Some (VStr "Hello-World").
Proof.
  destruct (secondary_error_status_gives_defaults World.bare Sample.b64decode_utf8
              "octocat" "Hello-World"
              (Sample.http_ok Sample.repo_body)
              (Sample.not_found (Sample.api ++ "/commits"))
              (Sample.not_found (Sample.api ++ "/languages"))
              (Sample.not_found (Sample.api ++ "/readme"))
              [("name", VStr "Hello-World");
               ("description", VStr "My first repository on GitHub!");
               ("stargazers_count", VInt 2500);
               ("forks_count", VInt 1800);
               ("created_at", VStr "2011-01-26T19:01:12Z");
               ("updated_at", VStr "2024-05-01T10:00:00Z");
               ("language", VNone)]
              eq_refl eq_refl eq_refl eq_refl eq_refl eq_refl eq_refl eq_refl eq_refl)
    as (_ & Hc & _ & _ & Hn & _).
  split; [exact Hc | exact Hn].
Defined.

Lemma secondary_exception_aborts_fetch_witness :
  fetch_repo_data World.commits_down Sample.b64decode_utf8 Sample.url
  = Ret (error_result "Failed to fetch repo: Read timed out. (read timeout=10)").
Proof.
  destruct (secondary_exception_aborts_fetch World.commits_down Sample.b64decode_utf8
              "octocat" "Hello-World" (Sample.http_ok Sample.repo_body) Sample.repo_body
              eq_refl eq_refl eq_refl) as (H & _).
  exact (H "ReadTimeout" "Read timed out. (read timeout=10)" eq_refl).
Defined.

Lemma fetch_truncates_commits_and_readme_witness :
  exists v,
    fetch_repo_data World.busy Sample.b64decode_utf8 Sample.url = Ret v
    /\ field "commits" (Ret v) = Some (VList (repeat (Sample.commit "wip") 20)).
Proof.
  destruct (fetch_repo_data World.busy Sample.b64decode_utf8 Sample.url) as [v|e] eqn:E;
    [|vm_compute in E; discriminate E].
  exists v. split; [reflexivity|].
  destruct (fetch_truncates_commits_and_readme World.busy Sample.b64decode_utf8
              Sample.url v E) as (_ & _ & H).
  apply (H "octocat" "Hello-World"
           (Sample.http_ok (VList (repeat (Sample.commit "wip") 25)))
           (repeat (Sample.commit "wip") 25)); [exact E | reflexivity | reflexivity | reflexivity].
Defined.

(** ** More on the commit heuristics *)

Lemma few_flag_iff (commits : list value) :
  In few_flag (heuristic_flags commits) <-> (List.length commits < 5)%nat.
Proof.
  unfold heuristic_flags, few_flag. cbv zeta. rewrite !in_app_iff.
  split.
  - intros [H | [H | H]].
    + destruct (ratio_exceeds _ _ (8 # 10)); simpl in H;
        [destruct H as [H|[]]; discriminate H | contradiction].
    + destruct (List.length commits <? 5)%nat eqn:E; simpl in H; [|contradiction].
      apply Nat.ltb_lt, E.
    + destruct (ratio_exceeds _ _ (6 # 10)); simpl in H;
        [destruct H as [H|[]]; discriminate H | contradiction].
  - intros H. apply Nat.ltb_lt in H. rewrite H. right; left; left; reflexivity.
Qed.

Lemma grammar_flag_iff (commits : list value) :
  In grammar_flag (heuristic_flags commits)
  <-> ratio_exceeds (perfect_count commits) (List.length commits) (8 # 10) = true.
Proof.
  unfold heuristic_flags, grammar_flag, perfect_count. cbv zeta. rewrite !in_app_iff.
  split.
  - intros [H | [H | H]].
    + destruct (ratio_exceeds _ _ (8 # 10)); [reflexivity | contradiction].
    + destruct (List.length commits <? 5)%nat; simpl in H;
        [destruct H as [H|[]]; discriminate H | contradiction].
    + destruct (ratio_exceeds _ _ (6 # 10)); simpl in H;
        [destruct H as [H|[]]; discriminate H | contradiction].
  - intros ->. left; left; reflexivity.
Qed.

(** X7.  The two other checks.  For a non-empty list of well-formed commit
    entries, the flag "Very few commits (< 5)" is raised exactly when the
    list has fewer than 5 entries, and the grammar flag exactly when the
    fraction of messages that are longer than 50 characters, whose first
    character is uppercase (in any script: [isupper] is Unicode's) and
    that contain a period is strictly above 0.8. *)
Theorem few_and_grammar_flags (commits : list value) :
  commits <> [] ->
  forallb wf_commit commits = true ->
  exists flags,
    field "red_flags" (analyze_commit_patterns (VList commits)) = Some (VList flags)
    /\ (In few_flag flags <-> (List.length commits < 5)%nat)
    /\ (In grammar_flag flags <->
        (8 # 10 < Z.of_nat (perfect_count commits) # Pos.of_nat (List.length commits))%Q).
Proof.
  intros Hne Hwf. exists (heuristic_flags commits).
  rewrite (analyze_commit_patterns_wf commits Hne Hwf). cbn [field].
  split; [reflexivity|]. split; [apply few_flag_iff|].
  rewrite grammar_flag_iff. apply ratio_exceeds_iff.
Qed.

Lemma few_and_grammar_flags_witness :
  let msg := "Élargit la couverture des tests et corrige la documentation." in
  exists flags,
    field "red_flags" (analyze_commit_patterns (VList (repeat (Sample.commit msg) 5)))
    = Some (VList flags)
    /\ ~ In few_flag flags
    /\ In grammar_flag flags.
Proof.
  cbv zeta.
  destruct (few_and_grammar_flags
              (repeat (Sample.commit
                         "Élargit la couverture des tests et corrige la documentation.") 5))
    as (flags & Hf & Hfew & Hgrammar); [discriminate | reflexivity |].
  exists flags. split; [exact Hf|]. split.
  - intros H. apply Hfew in H. vm_compute in H. lia.
  - apply Hgrammar. vm_compute. reflexivity.
Defined.

Lemma filter_length_perm {A : Type} (p : A -> bool) (l l' : list A) :
  Permutation l l' -> List.length (filter p l) = List.length (filter p l').
Proof.
  induction 1 as [| x l l' _ IH | x y l | l l' l'' _ IH1 _ IH2]; cbn [filter].
  - reflexivity.
  - destruct (p x); cbn [List.length]; rewrite IH; reflexivity.
  - destruct (p x), (p y); reflexivity.
  - rewrite IH1. exact IH2.
Qed.

Lemma heuristic_flags_perm (commits commits' : list value) :
  Permutation commits commits' -> heuristic_flags commits = heuristic_flags commits'.
Proof.
  intros P. unfold heuristic_flags, generic_count. cbv zeta.
  rewrite (Permutation_length P).
  rewrite (filter_length_perm perfect_message _ _ (Permutation_map message_of P)).
  rewrite (filter_length_perm generic_message _ _ (Permutation_map message_of P)).
  reflexivity.
Qed.

Lemma forallb_perm {A : Type} (p : A -> bool) (l l' : list A) :
  Permutation l l' -> forallb p l = true -> forallb p l' = true.
Proof.
  intros P H. apply forallb_forall. intros x Hx.
  rewrite forallb_forall in H. apply H.
  apply (Permutation_in x (Permutation_sym P) Hx).
Qed.

(** X8.  The heuristics look at counts only: reordering the commit entries
    changes neither the flags, nor the penalty, nor the total (only the
    sample of messages that is kept depends on the order). *)
Theorem heuristics_ignore_commit_order (commits commits' : list value) :
  Permutation commits commits' ->
  commits <> [] ->
  forallb wf_commit commits = true ->
  let r := analyze_commit_patterns (VList commits) in
  let r' := analyze_commit_patterns (VList commits') in
  returns r /\ returns r'
  /\ field "red_flags" r' = field "red_flags" r
  /\ field "pattern_score" r' = field "pattern_score" r
  /\ field "total_commits" r' = field "total_commits" r.
Proof.
  intros P Hne Hwf. cbv zeta.
  assert (Hne' : commits' <> []).
  { intros ->. apply Permutation_sym, Permutation_nil in P. contradiction. }
  rewrite (analyze_commit_patterns_wf commits Hne Hwf).
  rewrite (analyze_commit_patterns_wf commits' Hne' (forallb_perm wf_commit _ _ P Hwf)).
  rewrite (heuristic_flags_perm commits commits' P), (Permutation_length P).
  repeat split; eexists; reflexivity.
Qed.

Lemma heuristics_ignore_commit_order_witness :
  field "red_flags"
    (analyze_commit_patterns
       (VList [Sample.commit "first commit"; Sample.commit "Add the parser";
               Sample.commit "fix typo"]))
  = field "red_flags"
      (analyze_commit_patterns
         (VList [Sample.commit "Add the parser"; Sample.commit "fix typo";
                 Sample.commit "first commit"])).
Proof.
  destruct (heuristics_ignore_commit_order
              [Sample.commit "Add the parser"; Sample.commit "fix typo";
               Sample.commit "first commit"]
              [Sample.commit "first commit"; Sample.commit "Add the parser";
               Sample.commit "fix typo"])
    as (_ & _ & H & _); [| discriminate | reflexivity | exact H].
  apply Permutation_sym.
  apply (Permutation_cons_app [Sample.commit "Add the parser"; Sample.commit "fix typo"] []).
  apply Permutation_refl.
Defined.

(** X9.  For a non-empty list of well-formed entries [total_commits] is the
    length of the list and [commit_messages] holds the messages of its
    first ten entries, in order, an entry without a message counting as
    the empty message. *)
Theorem heuristics_total_and_sample (commits : list value) :
  commits <> [] ->
  forallb wf_commit commits = true ->
  let r := analyze_commit_patterns (VList commits) in
  field "total_commits" r = Some (VInt (Z.of_nat (List.length commits)))
  /\ field "commit_messages" r
     = Some (VList (map (fun c => VStr (message_of c)) (firstn 10 commits)))
  /\ (forall msgs, field "commit_messages" r = Some (VList msgs) ->
                   (List.length msgs <= 10)%nat).
Proof.
  intros Hne Hwf. cbv zeta.
  rewrite (analyze_commit_patterns_wf commits Hne Hwf). cbn [field].
  assert (E : firstn 10 (map VStr (map message_of commits))
              = map (fun c => VStr (message_of c)) (firstn 10 commits)).
  { rewrite map_map. apply firstn_map. }
  change (lookup "commit_messages" _)
    with (Some (VList (firstn 10 (map VStr (map message_of commits))))).
  split; [reflexivity|]. split; [rewrite E; reflexivity|].
  intros msgs H.
  assert (Em : msgs = firstn 10 (map VStr (map message_of commits))) by congruence.
  rewrite Em. apply firstn_le_length.
Qed.

Lemma heuristics_total_and_sample_witness :
  field "total_commits" (analyze_commit_patterns (VList (repeat (VDict []) 12)))
  = Some (VInt 12)
  /\ field "commit_messages" (analyze_commit_patterns (VList (repeat (VDict []) 12)))
     = Some (VList (repeat (VStr EmptyString) 10)).
Proof.
  destruct (heuristics_total_and_sample (repeat (VDict []) 12))
    as (Ht & Hm & _); [discriminate | reflexivity |].
  split; [exact Ht | exact Hm].
Defined.

(** ** More on the score fusion *)

Lemma calculate_final_score_fields (g c : dict) :
  wf_assessment g = true ->
  wf_heuristic c = true ->
  let r := calculate_final_score (VDict g) (VDict c) in
  let s := clamp (int_field "authenticity_score" 50 g - int_field "pattern_score" 0 c) in
  field "authenticity_score" r = Some (VInt s)
  /\ field "category" r = Some (VStr (fst (fst (bands (NInt s)))))
  /\ field "red_flags" r
     = Some (VList (firstn 10 (list_field "red_flags" g
                               ++ list_field "ai_indicators" g
                               ++ list_field "red_flags" c)%list)).
Proof.
  intros Hg Hc. cbv zeta.
  destruct (calculate_final_score_wf g c Hg Hc)
    as (category & risk & color & ai & tc & hr & B & E).
  rewrite E. cbn [field]. rewrite B. repeat split.
Qed.

(** X10.  The fused score is monotone: a higher model score and a lower
    penalty never give a lower final score; hence a result that is
    AUTHENTIC stays so, and a result that is FAKE/COPIED stays so when the
    model score drops or the penalty grows. *)
Theorem final_score_is_monotone (g g' c c' : dict) :
  wf_assessment g = true -> wf_heuristic c = true ->
  wf_assessment g' = true -> wf_heuristic c' = true ->
  int_field "authenticity_score" 50 g <= int_field "authenticity_score" 50 g' ->
  int_field "pattern_score" 0 c' <= int_field "pattern_score" 0 c ->
  let r := calculate_final_score (VDict g) (VDict c) in
  let r' := calculate_final_score (VDict g') (VDict c') in
  exists s s',
    field "authenticity_score" r = Some (VInt s)
    /\ field "authenticity_score" r' = Some (VInt s')
    /\ s <= s'
    /\ (field "category" r = Some (VStr "✅ AUTHENTIC") ->
        field "category" r' = Some (VStr "✅ AUTHENTIC"))
    /\ (field "category" r' = Some (VStr "💀 FAKE/COPIED") ->
        field "category" r = Some (VStr "💀 FAKE/COPIED")).
Proof.
  intros Hg Hc Hg' Hc' Ha Hp. cbv zeta.
  destruct (calculate_final_score_fields g c Hg Hc) as (Es & Ecat & _).
  destruct (calculate_final_score_fields g' c' Hg' Hc') as (Es' & Ecat' & _).
  cbv zeta in Es, Ecat, Es', Ecat'.
  set (s := clamp (int_field "authenticity_score" 50 g - int_field "pattern_score" 0 c)) in *.
  set (s' := clamp (int_field "authenticity_score" 50 g' - int_field "pattern_score" 0 c')) in *.
  assert (Hs : s <= s') by (unfold s, s', clamp; lia).
  exists s, s'. rewrite Es, Es', Ecat, Ecat'.
  split; [reflexivity | split; [reflexivity | split; [exact Hs|]]].
  rewrite !bands_int.
  destruct (75 <=? s)%Z eqn:E75; destruct (75 <=? s')%Z eqn:E75';
    destruct (50 <=? s)%Z eqn:E50; destruct (50 <=? s')%Z eqn:E50';
    destruct (25 <=? s)%Z eqn:E25; destruct (25 <=? s')%Z eqn:E25';
    cbn [fst]; split; intros H; try reflexivity; try discriminate H; exfalso;
    repeat match goal with
           | E : (_ <=? _)%Z = true |- _ => apply Z.leb_le in E
           | E : (_ <=? _)%Z = false |- _ => apply Z.leb_gt in E
           end; lia.
Qed.

Lemma final_score_is_monotone_witness :
  field "authenticity_score"
    (calculate_final_score (VDict [("authenticity_score", VInt 60)])
                           (VDict [("pattern_score", VInt 30)]))
  = Some (VInt 30)
  /\ field "authenticity_score"
       (calculate_final_score (VDict [("authenticity_score", VInt 80)])
                              (VDict [("pattern_score", VInt 15)]))
     = Some (VInt 65)
  /\ exists s s',
       field "authenticity_score"
         (calculate_final_score (VDict [("authenticity_score", VInt 60)])
                                (VDict [("pattern_score", VInt 30)])) = Some (VInt s)
       /\ field "authenticity_score"
            (calculate_final_score (VDict [("authenticity_score", VInt 80)])
                                   (VDict [("pattern_score", VInt 15)])) = Some (VInt s')
       /\ s <= s'.
Proof.
  split; [reflexivity | split; [reflexivity|]].
  destruct (final_score_is_monotone
              [("authenticity_score", VInt 60)] [("authenticity_score", VInt 80)]
              [("pattern_score", VInt 30)] [("pattern_score", VInt 15)])
    as (s & s' & H1 & H2 & H3 & _);
    [reflexivity | reflexivity | reflexivity | reflexivity
     | vm_compute; discriminate | vm_compute; discriminate |].
  exists s, s'. repeat split; assumption.
Defined.

Lemma firstn_app_long {A : Type} (n : nat) (l1 l2 : list A) :
  (n <= List.length l1)%nat -> firstn n (l1 ++ l2) = firstn n l1.
Proof.
  intros H. rewrite firstn_app.
  replace (n - List.length l1)%nat with 0%nat by lia.
  cbn [firstn]. apply app_nil_r.
Qed.

(** X11.  The heuristic flags come last and can be crowded out: when the
    model supplies ten or more entries in [red_flags] and [ai_indicators]
    together, the fused list is the first ten of those and shows no
    heuristic flag, although the heuristic penalty is still subtracted.
    The fused list never has more than ten entries. *)
Theorem heuristic_flags_can_be_crowded_out (g c : dict) :
  wf_assessment g = true ->
  wf_heuristic c = true ->
  let r := calculate_final_score (VDict g) (VDict c) in
  let model := (list_field "red_flags" g ++ list_field "ai_indicators" g)%list in
  (forall flags, field "red_flags" r = Some (VList flags) -> (List.length flags <= 10)%nat)
  /\ ((10 <= List.length model)%nat ->
      field "red_flags" r = Some (VList (firstn 10 model))
      /\ field "authenticity_score" r
         = Some (VInt (clamp (int_field "authenticity_score" 50 g
                              - int_field "pattern_score" 0 c)))).
Proof.
  intros Hg Hc. cbv zeta.
  destruct (calculate_final_score_fields g c Hg Hc) as (Es & _ & Ef).
  cbv zeta in Es, Ef. rewrite Es, Ef.
  split.
  - intros flags H.
    assert (E : flags = firstn 10 (list_field "red_flags" g ++ list_field "ai_indicators" g
                                   ++ list_field "red_flags" c)%list) by congruence.
    rewrite E. apply firstn_le_length.
  - intros Hlen. split; [|reflexivity].
    rewrite app_assoc. rewrite (firstn_app_long 10 _ _ Hlen). reflexivity.
Qed.

Lemma heuristic_flags_can_be_crowded_out_witness :
  field "red_flags" (calculate_final_score (VDict World.talkative) Sample.heuristics)
  = Some (VList (repeat (VStr "model flag") 7 ++ repeat (VStr "indicator") 3)%list)
  /\ field "authenticity_score"
       (calculate_final_score (VDict World.talkative) Sample.heuristics)
     = Some (VInt 75).
Proof.
  match eval unfold Sample.heuristics in Sample.heuristics with
  | VDict ?c =>
      destruct (heuristic_flags_can_be_crowded_out World.talkative c eq_refl eq_refl)
        as (_ & H)
  end.
  destruct H as (Hf & Hs); [vm_compute; lia|].
  split; [exact Hf | exact Hs].
Defined.

(** X12.  Heuristics and fusion together.  With an assessment whose
    score is a number [a] (50 when absent) and commit entries that are
    well formed, the heuristics subtract a penalty of 15 for each of the
    flags raised, three at most, and of 20 for an empty commit list:
    never more than 45 points.  For an integer [a] the final score is
    [clamp(a - penalty)]; for a real [a] it is the clamp of the
    floating-point difference, rounded to one decimal, a score of
    [0,100]. *)
Theorem heuristics_lower_score_by_at_most_45 (g : dict) (commits : list value) :
  numeric_assessment g = true ->
  forallb wf_commit commits = true ->
  exists ca penalty,
    analyze_commit_patterns (VList commits) = Ret ca
    /\ field "pattern_score" (Ret ca) = Some (VInt penalty)
    /\ (commits = [] -> penalty = 20)
    /\ (commits <> [] ->
        penalty = 15 * Z.of_nat (List.length (heuristic_flags commits)))
    /\ 0 <= penalty <= 45
    /\ (forall a,
          lookup "authenticity_score" g = Some (VInt a)
          \/ (lookup "authenticity_score" g = None /\ a = 50) ->
          field "authenticity_score" (calculate_final_score (VDict g) ca)
          = Some (VInt (clamp (a - penalty)))
          /\ clamp (a - 45) <= clamp (a - penalty) <= clamp a)
    /\ (forall x,
          lookup "authenticity_score" g = Some (VFloat x) ->
          exists fp,
            to_float penalty = Ret fp
            /\ field "authenticity_score" (calculate_final_score (VDict g) ca)
               = Some (of_num (round1 (clamp_num (NFloat (PrimFloat.sub x fp)))))
            /\ num_between 0 100 (round1 (clamp_num (NFloat (PrimFloat.sub x fp)))) = true).
Proof.
  intros Hg Hwf.
  destruct (numeric_assessment_fields g Hg) as (_ & Hrf & Hai).
  destruct (analyze_commit_patterns_returns commits Hwf) as (ca & Hca & Hcawf & Hpen).
  exists (VDict ca), (int_field "pattern_score" 0 ca).
  assert (Hfield : field "pattern_score" (Ret (VDict ca))
                   = Some (VInt (int_field "pattern_score" 0 ca))
                   /\ (commits = [] -> int_field "pattern_score" 0 ca = 20)
                   /\ (commits <> [] ->
                       int_field "pattern_score" 0 ca
                       = 15 * Z.of_nat (List.length (heuristic_flags commits)))).
  { destruct commits as [|c0 cs].
    - inversion Hca; subst ca. repeat split; try reflexivity.
      intros H; contradiction H; reflexivity.
    - rewrite (analyze_commit_patterns_wf (c0 :: cs)) in Hca; [|discriminate | exact Hwf].
      inversion Hca; subst ca. repeat split; try reflexivity; try discriminate.
      intros _. unfold int_field. cbn [lookup String.eqb Ascii.eqb Bool.eqb]. lia. }
  destruct Hfield as (Hf & H0 & Hk).
  split; [exact Hca|]. split; [exact Hf|]. split; [exact H0|]. split; [exact Hk|].
  split; [exact Hpen|]. split.
  - intros a Ha.
    assert (Hsub : sub (match lookup "authenticity_score" g with
                        | Some v => v
                        | None => VInt 50
                        end) (VInt (int_field "pattern_score" 0 ca))
                   = Ret (NInt (a - int_field "pattern_score" 0 ca))).
    { destruct Ha as [-> | [-> ->]]; reflexivity. }
    destruct (calculate_final_score_diff g ca _ Hrf Hai Hcawf Hsub)
      as (category & risk & color & ai & tc & hr & _ & E).
    rewrite E, clamp_num_int. split; [reflexivity|]. unfold clamp. lia.
  - intros x Hx.
    destruct (to_float_small (int_field "pattern_score" 0 ca) ltac:(lia)) as [fp Hfp].
    exists fp. split; [exact Hfp|].
    assert (Hsub : sub (match lookup "authenticity_score" g with
                        | Some v => v
                        | None => VInt 50
                        end) (VInt (int_field "pattern_score" 0 ca))
                   = Ret (NFloat (PrimFloat.sub x fp))).
    { rewrite Hx. unfold sub. cbn [as_num]. rewrite Hfp. reflexivity. }
    destruct (calculate_final_score_diff g ca _ Hrf Hai Hcawf Hsub)
      as (category & risk & color & ai & tc & hr & _ & E).
    rewrite E. split; [reflexivity | apply rounded_clamp_between].
Qed.

Lemma heuristics_lower_score_by_at_most_45_witness :
  exists ca penalty,
    analyze_commit_patterns Sample.commits_body = Ret ca
    /\ field "pattern_score" (Ret ca) = Some (VInt penalty)
    /\ 0 <= penalty <= 45
    /\ field "authenticity_score"
         (calculate_final_score (VDict [("authenticity_score", VInt 80)]) ca)
       = Some (VInt (clamp (80 - penalty))).
Proof.
  destruct (heuristics_lower_score_by_at_most_45
              [("authenticity_score", VInt 80)]
              [Sample.commit "Merge pull request #6 from Spaceghost/patch-1";
               Sample.commit "New line at end of file.";
               Sample.commit "first commit"] eq_refl eq_refl)
    as (ca & penalty & Ha & Hf & _ & _ & Hp & Hint & _).
  exists ca, penalty.
  split; [exact Ha|]. split; [exact Hf|]. split; [exact Hp|].
  apply (Hint 80). left; reflexivity.
Defined.

(** ** More on the report *)

Lemma prefix_app (x b : string) : String.prefix x (x ++ b) = true.
Proof.
  induction x as [|a x IH]; cbn [String.append String.prefix]; [destruct b; reflexivity|].
  destruct (ascii_dec a a) as [_|N]; [exact IH | contradiction N; reflexivity].
Qed.

Lemma prefix_app_l (x a b : string) :
  String.prefix x a = true -> String.prefix x (a ++ b) = true.
Proof.
  revert a; induction x as [|c x IH]; intros a H; [destruct (a ++ b); reflexivity|].
  destruct a as [|d a]; cbn [String.prefix String.append] in *; [discriminate H|].
  destruct (ascii_dec c d); [apply IH, H | discriminate H].
Qed.

Lemma contains_prefix (x s : string) : String.prefix x s = true -> Str.contains x s = true.
Proof. intros H. destruct s; cbn [Str.contains]; rewrite H; reflexivity. Qed.

Lemma contains_app_r (x a b : string) :
  Str.contains x b = true -> Str.contains x (a ++ b) = true.
Proof.
  intros H. induction a as [|c a IH]; cbn [String.append Str.contains]; [exact H|].
  rewrite IH. apply orb_true_r.
Qed.

Lemma contains_app_l (x a b : string) :
  Str.contains x a = true -> Str.contains x (a ++ b) = true.
Proof.
  induction a as [|c a IH]; cbn [Str.contains String.append]; intros H.
  - rewrite orb_false_r in H. apply contains_prefix.
    apply (prefix_app_l x EmptyString b H).
  - apply orb_true_iff in H. destruct H as [H | H].
    + pose proof (prefix_app_l x (String c a) b H) as P.
      cbn [String.append] in P. rewrite P. reflexivity.
    + rewrite (IH H). apply orb_true_r.
Qed.

Lemma contains_here (x a b : string) : Str.contains x (a ++ x ++ b) = true.
Proof. apply contains_app_r, contains_prefix, prefix_app. Qed.

Lemma contains_refl (x : string) : Str.contains x x = true.
Proof.
  apply contains_prefix. induction x as [|a x IH]; cbn [String.prefix]; [reflexivity|].
  destruct (ascii_dec a a) as [_|N]; [exact IH | contradiction N; reflexivity].
Qed.

Lemma contains_join (sep x : string) (l : list string) :
  In x l -> Str.contains x (Str.join sep l) = true.
Proof.
  induction l as [|w l IH]; intros H; [contradiction|].
  destruct H as [-> | H].
  - destruct l as [|w' l']; cbn [Str.join]; [apply contains_refl|].
    apply contains_app_l, contains_refl.
  - destruct l as [|w' l']; [contradiction|].
    change (Str.join sep (w :: w' :: l')) with (w ++ sep ++ Str.join sep (w' :: l')).
    apply contains_app_r, contains_app_r, IH, H.
Qed.

Lemma contains_numbered (k i : nat) (flags : list value) (flag : value) :
  nth_error flags i = Some flag ->
  Str.contains (Str.of_nat (k + i) ++ ". " ++ str flag ++ nl) (numbered k flags) = true.
Proof.
  revert k i; induction flags as [|f flags IH]; intros k i H.
  - destruct i; discriminate H.
  - destruct i as [|i]; cbn [nth_error] in H.
    + inversion H; subst f. rewrite Nat.add_0_r. cbn [numbered].
      replace (Str.of_nat k ++ ". " ++ str flag ++ nl ++ numbered (S k) flags)
        with ((Str.of_nat k ++ ". " ++ str flag ++ nl) ++ numbered (S k) flags)
        by (rewrite !append_assoc; reflexivity).
      apply contains_app_l, contains_refl.
    + cbn [numbered].
      replace (k + S i)%nat with (S k + i)%nat by lia.
      do 4 apply contains_app_r. apply IH, H.
Qed.

(** X13.  What the report shows of a fused result.  For a repository
    record and the result of the fusion on well-formed inputs, the report
    has the headline with the fused score, the heading with the number of
    fused flags, one numbered line "i. flag" for each of them, counted from
    1, and the line "*No major red flags detected*" when there are none. *)
Theorem report_shows_score_and_flags (rd g c : dict) (fa : value) :
  wf_assessment g = true ->
  wf_heuristic c = true ->
  calculate_final_score (VDict g) (VDict c) = Ret fa ->
  exists report s flags,
    generate_report (VDict rd) fa = Ret report
    /\ field "authenticity_score" (Ret fa) = Some (VInt s)
    /\ field "red_flags" (Ret fa) = Some (VList flags)
    /\ Str.contains ("## 🎯 AUTHENTICITY SCORE: " ++ Str.of_Z s ++ "/100") report = true
    /\ Str.contains ("## 🚩 RED FLAGS (" ++ Str.of_nat (List.length flags) ++ ")") report = true
    /\ (forall i flag, nth_error flags i = Some flag ->
          Str.contains (Str.of_nat (S i) ++ ". " ++ str flag ++ nl) report = true)
    /\ (flags = [] -> Str.contains ("*No major red flags detected*" ++ nl) report = true).
Proof.
  intros Hg Hc Hfa.
  destruct (calculate_final_score_wf g c Hg Hc)
    as (category & risk & color & ai & tc & hr & _ & E).
  remember (clamp (int_field "authenticity_score" 50 g - int_field "pattern_score" 0 c))
    as s eqn:Es.
  remember (firstn 10 (list_field "red_flags" g ++ list_field "ai_indicators" g
                       ++ list_field "red_flags" c)%list) as flags eqn:Ef.
  clear Es Ef. rewrite E in Hfa. injection Hfa as <-. clear E.
  unfold generate_report.
  rewrite !get_dict.
  cbn [bind subscript lookup String.eqb Ascii.eqb Bool.eqb len get].
  destruct flags as [|f0 fs]; cbn [truthy bind iter].
  - eexists. exists s, []. split; [reflexivity|].
    split; [reflexivity | split; [reflexivity|]].
    split; [|split; [|split]].
    + apply contains_app_l, contains_app_l, contains_join.
      cbn [In str]. do 8 right. left. reflexivity.
    + apply contains_app_l, contains_app_l, contains_join.
      cbn [In str List.length]. do 25 right. left. reflexivity.
    + intros i flag H. destruct i; discriminate H.
    + intros _. apply contains_app_l, contains_app_r, contains_refl.
  - eexists. exists s, (f0 :: fs). split; [reflexivity|].
    split; [reflexivity | split; [reflexivity|]].
    split; [|split; [|split]].
    + apply contains_app_l, contains_app_l, contains_join.
      cbn [In str]. do 8 right. left. reflexivity.
    + apply contains_app_l, contains_app_l, contains_join.
      cbn [In str]. do 25 right. left. reflexivity.
    + intros i flag H. apply contains_app_l, contains_app_r.
      apply (contains_numbered 1 i (f0 :: fs) flag H).
    + intros H. discriminate H.
Qed.

Lemma report_shows_score_and_flags_witness :
  exists report,
    generate_report Sample.record Sample.fused = Ret report
    /\ Str.contains ("## 🎯 AUTHENTICITY SCORE: 65/100") report = true
    /\ Str.contains ("1. Very few commits (< 5)" ++ nl) report = true.
Proof.
  match eval unfold Sample.record in Sample.record with
  | VDict ?rd =>
      match eval unfold Sample.heuristics in Sample.heuristics with
      | VDict ?c =>
          destruct (report_shows_score_and_flags rd [("authenticity_score", VInt 80)] c
                      Sample.fused eq_refl eq_refl eq_refl)
            as (report & s & flags & Hr & Hs & Hf & Hscore & _ & Hflag & _)
      end
  end.
  exists report. split; [exact Hr|].
  assert (Es : s = 65) by (vm_compute in Hs; congruence).
  assert (Ef : flags = [VStr "Very few commits (< 5)"]) by (vm_compute in Hf; congruence).
  subst s flags.
  split; [exact Hscore | exact (Hflag 0%nat (VStr "Very few commits (< 5)") eq_refl)].
Defined.

(** ** More on the model client *)

(** X14.  A reply wrapped in a fenced block with the tag [json] is parsed
    like the reply itself: for a reply without backticks that is not blank,
    and a parser that treats the reply with a line break at its end like
    the stripped reply, the two results are equal (the same value, or the
    same error). *)
Theorem fenced_reply_parses_like_bare_reply
        (json_loads : string -> py value) (text : string) :
  lacks "`" text ->
  Str.lstrip text <> EmptyString ->
  same_outcome (json_loads (Str.lstrip text ++ nl)) (json_loads (Str.strip text)) ->
  parse_response json_loads (VStr (fenced text)) = parse_response json_loads (VStr text).
Proof.
  intros H Hne Hsame.
  rewrite !parse_response_str.
  rewrite (response_text_fenced text H Hne), (response_text_no_backtick text H).
  assert (Es : Re.search_braces (Str.lstrip text ++ nl) = Re.search_braces (Str.strip text)).
  { rewrite search_braces_app_lacks by reflexivity.
    unfold Str.strip. symmetry. apply search_braces_rstrip. }
  rewrite Es.
  destruct (json_loads (Str.lstrip text ++ nl)) as [a|e1],
           (json_loads (Str.strip text)) as [b|e2];
    cbn [same_outcome try_except] in *; try contradiction; congruence.
Qed.

Lemma fenced_reply_parses_like_bare_reply_witness :
  lacks "`" (dq "  {'authenticity_score': 65} ")
  /\ Str.lstrip (dq "  {'authenticity_score': 65} ") <> EmptyString
  /\ same_outcome (Json.loads (Str.lstrip (dq "  {'authenticity_score': 65} ") ++ nl))
                  (Json.loads (Str.strip (dq "  {'authenticity_score': 65} ")))
  /\ parse_response Json.loads (VStr (fenced (dq "  {'authenticity_score': 65} ")))
     = Ret (VDict [("authenticity_score", VInt 65)]).
Proof.
  split; [reflexivity | split; [discriminate | split; [vm_compute; reflexivity|]]].
  rewrite (fenced_reply_parses_like_bare_reply Json.loads
             (dq "  {'authenticity_score': 65} "));
    [reflexivity | reflexivity | discriminate | vm_compute; reflexivity].
Defined.

(** X15.  Prose, then an object: for a reply without backticks that ends
    in a brace-delimited text and has no opening brace in the prose before
    it, when the reply as a whole does not parse the result is what the
    parser makes of the brace-delimited text. *)
Theorem prose_before_object_is_skipped
        (json_loads : string -> py value) (prose body : string) :
  lacks "`" prose -> lacks "`" body -> lacks "{" prose ->
  raises (json_loads (response_text (prose ++ "{" ++ body ++ "}"))) ->
  parse_response json_loads (VStr (prose ++ "{" ++ body ++ "}"))
  = json_loads ("{" ++ body ++ "}").
Proof.
  intros Hp Hb Ho [e He].
  rewrite parse_response_str, He. cbn [try_except].
  assert (Hall : lacks "`" (prose ++ "{" ++ body ++ "}")).
  { apply lacks_app; split; [exact Hp|].
    cbn [String.append]. apply lacks_cons; split; [reflexivity|].
    apply lacks_app; split; [exact Hb | reflexivity]. }
  rewrite (response_text_no_backtick _ Hall).
  unfold Str.strip. cbn [String.append].
  destruct (lstrip_before_brace prose (body ++ "}")) as (p' & -> & L).
  replace (p' ++ String "{" (body ++ "}")) with ((p' ++ String "{" body) ++ "}")
    by (rewrite append_assoc; reflexivity).
  rewrite (rstrip_by_end Str.isspace (p' ++ String "{" body) "}" eq_refl).
  rewrite append_assoc.
  change (String "{" body ++ "}") with ("{" ++ body ++ "}").
  rewrite (search_braces_object p' body (L "{"%char Ho)). reflexivity.
Qed.

Lemma prose_before_object_is_skipped_witness :
  lacks "`" "Here is the analysis: "
  /\ lacks "`" (dq "'a': [1, 2]")
  /\ lacks "{" "Here is the analysis: "
  /\ raises (Json.loads (response_text ("Here is the analysis: " ++ "{" ++ dq "'a': [1, 2]" ++ "}")))
  /\ parse_response Json.loads (VStr ("Here is the analysis: " ++ "{" ++ dq "'a': [1, 2]" ++ "}"))
     = Ret (VDict [("a", VList [VInt 1; VInt 2])]).
Proof.
  split; [reflexivity | split; [reflexivity | split; [reflexivity|]]].
  split; [eexists; vm_compute; reflexivity|].
  rewrite (prose_before_object_is_skipped Json.loads
             "Here is the analysis: " (dq "'a': [1, 2]"));
    [reflexivity | reflexivity | reflexivity | reflexivity | eexists; vm_compute; reflexivity].
Defined.

(** X16.  A reply that does not parse and has no opening brace anywhere
    gives the result [{"error": "Could not parse response"}]. *)
Theorem reply_without_brace_is_unparsable
        (json_loads : string -> py value) (content : string) :
  lacks "{" content ->
  raises (json_loads (response_text content)) ->
  parse_response json_loads (VStr content) = Ret (error_result "Could not parse response").
Proof.
  intros H [e He].
  rewrite parse_response_str, He. cbn [try_except].
  unfold Re.search_braces.
  rewrite (from_first_none "{" _ (lacks_response_text "{" content H)). reflexivity.
Qed.

Lemma reply_without_brace_is_unparsable_witness :
  lacks "{" "I cannot analyze this repository."
  /\ raises (Json.loads (response_text "I cannot analyze this repository."))
  /\ parse_response Json.loads (VStr "I cannot analyze this repository.")
     = Ret (error_result "Could not parse response").
Proof.
  split; [reflexivity | split; [eexists; vm_compute; reflexivity|]].
  apply (reply_without_brace_is_unparsable Json.loads "I cannot analyze this repository.");
    [reflexivity | eexists; vm_compute; reflexivity].
Defined.

Section ClientMore.

Variable json_loads : string -> py value.
Variable groq_create : string -> py value.



End ClientMore.





(** ** More on the orchestration *)

(** Follows a run through its stages, one case for each way a stage can
    end. *)
Ltac run_cases :=
  unfold analyze_repository, bindR, lift, print;
  repeat (cbv beta iota;
          match goal with
          | |- context [match ?m with Ret _ => _ | Raise _ => _ end] =>
              let E := fresh "E" in destruct m eqn:E
          | |- context [if ?b then _ else _] => destruct b
          end).

Section RunMore.

Variable requests_get : string -> py response.
Variable json_loads : string -> py value.
Variable b64decode_utf8 : value -> py string.
Variable groq_create : string -> py value.

(** X19.  What a run prints.  However the run ends, normally or by an
    exception, it has printed the first [k] of its six stage lines, in
    order and nothing else, for some [k] from 2 to 6; all six when it
    returns the composite result. *)
Theorem run_prints_a_prefix_of_the_stage_lines (repo_url : string) (out : list string) :
  let run := analyze_repository requests_get json_loads b64decode_utf8 groq_create repo_url out in
  (exists k, (2 <= k <= 6)%nat /\ snd run = (out ++ firstn k (printed_to_end repo_url))%list)
  /\ (forall rd fa report,
        fst run = Ret (VDict [("repo_data", rd); ("final_analysis", fa);
                              ("report", VStr report)]) ->
        snd run = (out ++ printed_to_end repo_url)%list).
Proof.
  cbv zeta. split.
  - run_cases; cbn [snd];
      first [ exists 2%nat; split; [lia|]; rewrite <- !app_assoc; reflexivity
            | exists 3%nat; split; [lia|]; rewrite <- !app_assoc; reflexivity
            | exists 4%nat; split; [lia|]; rewrite <- !app_assoc; reflexivity
            | exists 5%nat; split; [lia|]; rewrite <- !app_assoc; reflexivity
            | exists 6%nat; split; [lia|]; rewrite <- !app_assoc; reflexivity ].
  - intros rd fa report. run_cases; cbn [fst snd]; intros H;
      try discriminate H;
      try (rewrite <- !app_assoc; reflexivity);
      exfalso; inversion H; subst;
      match goal with
      | E : contains "error" _ = Ret true |- _ => cbn in E; discriminate E
      end.
Qed.

End RunMore.

Section RunResults.

Variable requests_get : string -> py response.
Variable json_loads : string -> py value.
Variable b64decode_utf8 : value -> py string.
Variable groq_create : string -> py value.

(** X20.  What a run returns.  A value returned by [analyze_repository] is
    either a value in which ["error"] is found, namely the result of the
    fetcher or the result of the model client, passed on unchanged; or the
    composite result, in which ["error"] is not found and whose parts fit
    together: the record is the fetched one, the final analysis is the
    fusion of the model result with the heuristics of the record's
    commits, and the report is the rendering of that record and that
    analysis. *)
Theorem run_result_is_error_or_consistent_composite
        (repo_url : string) (out : list string) (r : value) :
  fst (analyze_repository requests_get json_loads b64decode_utf8 groq_create repo_url out)
  = Ret r ->
  (contains "error" r = Ret true
   /\ (fetch_repo_data requests_get b64decode_utf8 repo_url = Ret r
       \/ exists rd, fetch_repo_data requests_get b64decode_utf8 repo_url = Ret rd
                     /\ analyze_with_groq json_loads groq_create rd = Ret r))
  \/ (contains "error" r = Ret false
      /\ exists rd commits ca g fa report,
           r = VDict [("repo_data", rd); ("final_analysis", fa); ("report", VStr report)]
           /\ fetch_repo_data requests_get b64decode_utf8 repo_url = Ret rd
           /\ get rd "commits" (VList []) = Ret commits
           /\ analyze_commit_patterns commits = Ret ca
           /\ analyze_with_groq json_loads groq_create rd = Ret g
           /\ calculate_final_score g ca = Ret fa
           /\ generate_report rd fa = Ret report).
Proof.
  run_cases; cbn [fst]; intros H; try discriminate H; inversion H; subst; clear H;
    first [ solve [left; split; [assumption | left; reflexivity]]
          | solve [left; split;
                   [assumption | right; eexists; split; [reflexivity | eassumption]]]
          | solve [right; split; [reflexivity|]; do 6 eexists;
                   repeat split; first [reflexivity | eassumption]] ].
Qed.

(** X21.  The test for the key is Python's [in]: a model reply that parses
    to a JSON string with the text "error" in it, or to a JSON list with
    the element "error", ends the run like an error object does, and the
    run returns that string or list, which is not an object. *)
Theorem non_object_reply_can_end_run (repo_url : string) (out : list string)
        (rd commits ca : value) (prompt : string) :
  fetch_repo_data requests_get b64decode_utf8 repo_url = Ret rd ->
  contains "error" rd = Ret false ->
  get rd "commits" (VList []) = Ret commits ->
  analyze_commit_patterns commits = Ret ca ->
  model_prompt rd = Ret prompt ->
  let run := analyze_repository requests_get json_loads b64decode_utf8 groq_create repo_url out in
  (forall content s,
     groq_create prompt = Ret content ->
     parse_response json_loads content = Ret (VStr s) ->
     Str.contains "error" s = true ->
     run = (Ret (VStr s), (out ++ printed_to_model repo_url)%list))
  /\ (forall content l,
        groq_create prompt = Ret content ->
        parse_response json_loads content = Ret (VList l) ->
        In (VStr "error") l ->
        run = (Ret (VList l), (out ++ printed_to_model repo_url)%list)).
Proof.
  intros Hf He Hc Ha Hp. cbv zeta.
  destruct (analyze_with_groq_cases json_loads groq_create rd prompt Hp) as (_ & G2 & _).
  split.
  - intros content s Hg Hpr Hs.
    apply (run_model_error requests_get json_loads b64decode_utf8 groq_create
             repo_url out rd (VStr s) commits ca Hf He Hc Ha (G2 content _ Hg Hpr)).
    cbn [contains]. rewrite Hs. reflexivity.
  - intros content l Hg Hpr Hin.
    apply (run_model_error requests_get json_loads b64decode_utf8 groq_create
             repo_url out rd (VList l) commits ca Hf He Hc Ha (G2 content _ Hg Hpr)).
    cbn [contains]. f_equal. apply existsb_exists.
    exists (VStr "error"). split; [exact Hin | reflexivity].
Qed.

End RunResults.

Lemma run_result_is_error_or_consistent_composite_witness :
  exists r,
    fst (Sample.run (dq "{'authenticity_score': 80}")) = Ret r
    /\ contains "error" r = Ret false
    /\ field "report" (Ret r)
       = option_map VStr
           (match generate_report Sample.record Sample.fused with
            | Ret text => Some text
            | Raise _ => None
            end).
Proof.
  destruct (fst (Sample.run (dq "{'authenticity_score': 80}"))) as [r|e] eqn:E;
    [|vm_compute in E; discriminate E].
  exists r. split; [reflexivity|].
  destruct (run_result_is_error_or_consistent_composite
              Sample.requests_get Json.loads Sample.b64decode_utf8
              (Sample.groq_says (dq "{'authenticity_score': 80}")) Sample.url [] r E)
    as [[Hk _] | [Hk _]].
  - vm_compute in E. inversion E; subst r. vm_compute in Hk. discriminate Hk.
  - split; [exact Hk|]. vm_compute in E. inversion E; subst r. vm_compute. reflexivity.
Defined.

Lemma non_object_reply_can_end_run_witness :
  Json.loads (dq "'no errors found'") = Ret (VStr "no errors found")
  /\ Sample.run (dq "'no errors found'")
     = (Ret (VStr "no errors found"), printed_to_model Sample.url).
Proof.
  split; [reflexivity|].
  destruct (non_object_reply_can_end_run
              Sample.requests_get Json.loads Sample.b64decode_utf8
              (Sample.groq_says (dq "'no errors found'"))
              Sample.url [] Sample.record Sample.commits_body Sample.heuristics Sample.prompt
              eq_refl eq_refl eq_refl eq_refl eq_refl) as (H & _).
  apply (H (VStr (dq "'no errors found'")) "no errors found"); reflexivity.
Defined.

(** ** The presentation shell and the analyzer *)

Lemma prefix_split (p s : string) :
  String.prefix p s = true -> exists rest, s = p ++ rest.
Proof.
  revert s; induction p as [|a p IH]; intros s H; [exists s; reflexivity|].
  destruct s as [|b s]; cbn [String.prefix] in H; [discriminate H|].
  destruct (ascii_dec a b) as [<- | _]; [|discriminate H].
  destruct (IH s H) as [rest ->]. exists rest. reflexivity.
Qed.

Lemma rstrip_by_keep (p : ascii -> bool) (a b : string) (c : ascii) :
  p c = false ->
  Str.rstrip_by p (a ++ String c b) = a ++ String c (Str.rstrip_by p b).
Proof.
  intros Hc. induction a as [|d a IH]; cbn [String.append].
  - apply rstrip_by_cons, Hc.
  - cbn [Str.rstrip_by]. rewrite IH. destruct a; reflexivity.
Qed.

Section ShellFacts.

Variable requests_get : string -> py response.
Variable json_loads : string -> py value.
Variable b64decode_utf8 : value -> py string.
Variable groq_create : string -> py value.

Lemma fetch_not_invalid (repo_url : string) :
  (2 <= List.length (Str.split "/" (Str.rstrip_slash repo_url)))%nat ->
  fetch_repo_data requests_get b64decode_utf8 repo_url
  <> Ret (error_result "Invalid GitHub URL").
Proof.
  intros Hlen H. unfold fetch_repo_data in H. cbv zeta in H.
  apply Nat.ltb_ge in Hlen. rewrite Hlen in H.
  match type of H with try_except ?m _ = _ => destruct m as [v|e] eqn:E end;
    cbn [try_except] in H.
  - inversion H; subst v. apply fetch_try_record in E.
    destruct E as (? & ? & ? & ? & ? & ? & ? & ? & ? & ? & E). discriminate E.
  - destruct (fetch_except_error e) as (msg & Em & Hne).
    rewrite Em in H. inversion H. contradiction.
Qed.

(** X22.  The shell's check and the analyzer's check.  When the Analyze
    handler starts an analysis, the key is not empty and the URL begins
    with "https://github.com/"; such a URL always has at least three
    segments, so the fetcher never answers it with "Invalid GitHub URL". *)
Theorem accepted_url_is_never_invalid
        (key : value) (repo_url : string) (s s' : App.session) :
  App.on_analyze key repo_url s = (s', [App.StRerun]) ->
  truthy key = true
  /\ App.analyzing s' = true
  /\ (3 <= List.length (Str.split "/" (Str.rstrip_slash repo_url)))%nat
  /\ fetch_repo_data requests_get b64decode_utf8 repo_url
     <> Ret (error_result "Invalid GitHub URL").
Proof.
  unfold App.on_analyze. intros H.
  destruct (truthy key); cbn [negb] in H; [|discriminate H].
  destruct (truthy (VStr repo_url)); cbn [negb orb] in H; [|discriminate H].
  destruct (String.prefix "https://github.com/" repo_url) eqn:P;
    cbn [negb] in H; [|discriminate H].
  inversion H; subst s'; clear H.
  assert (Hlen : (3 <= List.length (Str.split "/" (Str.rstrip_slash repo_url)))%nat).
  { destruct (prefix_split _ _ P) as [rest ->].
    unfold Str.rstrip_slash.
    change ("https://github.com/" ++ rest)
      with ("https://github.co" ++ String "m" (String "/" rest)).
    rewrite rstrip_by_keep by reflexivity.
    cbn [String.append Str.split Ascii.eqb Bool.eqb].
    pose proof (split_nonempty "/"
                  (String "g" (String "i" (String "t" (String "h" (String "u"
                    (String "b" (String "." (String "c" (String "o" (String "m"
                      (Str.rstrip_by (fun c => Ascii.eqb c "/") (String "/" rest)))))))))))))
      as Hne.
    cbn [Str.split Ascii.eqb Bool.eqb] in Hne.
    destruct (Str.split "/" (Str.rstrip_by (fun c => Ascii.eqb c "/") (String "/" rest)))
      as [|w ws]; cbn [List.length]; lia. }
  split; [reflexivity | split; [reflexivity | split; [exact Hlen|]]].
  apply fetch_not_invalid. lia.
Qed.

(** X23.  The analysis step of the shell always settles.  Whatever the
    constructor and the run do, the step ends with [analyzing] off; an
    exception of either is caught and shown as "Analysis failed: ..." with
    its text, a result in which ["error"] is found is shown as an error
    and not stored, and the result is stored, with the success message,
    only when ["error"] is not found in it. *)
Theorem analysis_step_always_settles
        (construct : py unit) (run : py value) (s : App.session) :
  let s' := fst (App.analysis_step construct run s) in
  let shown := snd (App.analysis_step construct run s) in
  App.analyzing s' = false
  /\ (forall e, construct = Raise e \/ (construct = Ret tt /\ run = Raise e) ->
        App.result s' = App.result s
        /\ shown = [App.StError (VStr ("❌ Analysis failed: " ++ exn_str e));
                    App.StException e])
  /\ (forall r, construct = Ret tt -> run = Ret r -> contains "error" r = Ret false ->
        App.result s' = r
        /\ shown = [App.StSuccess (VStr "✅ Analysis Complete!"); App.StRerun])
  /\ (In App.StRerun shown ->
      exists r, run = Ret r /\ contains "error" r = Ret false /\ App.result s' = r)
  /\ (~ In App.StRerun shown ->
      App.result s' = App.result s /\ exists msg, In (App.StError (VStr msg)) shown).
Proof.
  cbv zeta. unfold App.analysis_step, App.attempt.
  destruct construct as [[]|ec]; cbn [bind].
  2:{ cbn [fst snd App.analyzing App.result].
      split; [reflexivity|]. split.
      - intros e [H | [H _]]; [inversion H; subst; split; reflexivity | discriminate H].
      - split; [intros r H; discriminate H|]. split.
        + intros [H | [H | []]]; discriminate H.
        + intros _. split; [reflexivity | eexists; left; reflexivity]. }
  destruct run as [r|er]; cbn [bind].
  2:{ cbn [fst snd App.analyzing App.result].
      split; [reflexivity|]. split.
      - intros e [H | [_ H]]; [discriminate H | inversion H; subst; split; reflexivity].
      - split; [intros r _ H; discriminate H|]. split.
        + intros [H | [H | []]]; discriminate H.
        + intros _. split; [reflexivity | eexists; left; reflexivity]. }
  destruct (contains "error" r) as [[|]|ek] eqn:Ek; cbn [bind].
  - (* the key is found *)
    assert (Hshape :
              forall m : py value,
                let st := match (msg <- m ;; Ret (inl msg)) : py (value + value) with
                          | Ret (inl msg) =>
                              ({| App.result := App.result s; App.analyzing := false |},
                               [App.StError (VStr ("❌ Error: " ++ str msg))])
                          | Ret (inr r0) =>
                              ({| App.result := r0; App.analyzing := false |},
                               [App.StSuccess (VStr "✅ Analysis Complete!"); App.StRerun])
                          | Raise e =>
                              ({| App.result := App.result s; App.analyzing := false |},
                               [App.StError (VStr ("❌ Analysis failed: " ++ exn_str e));
                                App.StException e])
                          end in
                App.analyzing (fst st) = false
                /\ App.result (fst st) = App.result s
                /\ ~ In App.StRerun (snd st)
                /\ exists msg, In (App.StError (VStr msg)) (snd st)).
    { intros [msg|e]; cbn; repeat split; try (eexists; left; reflexivity);
        intros H; repeat (destruct H as [H|H]; [discriminate H|]); exact H. }
    destruct (Hshape (subscript r "error")) as (Ha & Hr & Hn & Hm). cbv zeta in *.
    split; [exact Ha|]. split.
    + intros e [H | [_ H]]; discriminate H.
    + split; [intros r0 _ H Hk; inversion H; subst r0; rewrite Ek in Hk; discriminate Hk|].
      split; [intros H; contradiction | intros _; split; assumption].
  - (* the key is not found *)
    cbn [fst snd App.analyzing App.result].
    split; [reflexivity|]. split.
    + intros e [H | [_ H]]; discriminate H.
    + split; [intros r0 _ H _; inversion H; subst r0; split; reflexivity|].
      split.
      * intros _. exists r. repeat split; assumption.
      * intros H. contradiction H. right; left; reflexivity.
  - (* the test itself raises *)
    cbn [fst snd App.analyzing App.result].
    split; [reflexivity|]. split.
    + intros e [H | [_ H]]; discriminate H.
    + split; [intros r0 _ H Hk; inversion H; subst r0; rewrite Ek in Hk; discriminate Hk|].
      split.
      * intros [H | [H | []]]; discriminate H.
      * intros _. split; [reflexivity | eexists; left; reflexivity].
Qed.

End ShellFacts.

(** ** The segments of a URL *)




Section UrlSegments.

Variable requests_get : string -> py response.
Variable b64decode_utf8 : value -> py string.


End UrlSegments.


(** The fused record, with the clamped difference its band comes from. *)
Lemma calculate_final_score_bands (g c fa : value) :
  calculate_final_score g c = Ret fa ->
  exists diff category risk color ai tc flags hr,
    bands (clamp_num diff) = (category, risk, color)
    /\ fa = VDict [("authenticity_score", of_num (round1 (clamp_num diff)));
                   ("category", VStr category);
                   ("risk_level", VStr risk);
                   ("color", VStr color);
                   ("ai_generated_score", ai);
                   ("technical_complexity", tc);
                   ("red_flags", VList flags);
                   ("hiring_recommendation", hr);
                   ("groq_analysis", g);
                   ("commit_analysis", c)].
Proof.
  unfold calculate_final_score. intros H.
  destruct g as [| | | | |l|gd]; try discriminate H.
  do 3 bind_inv H.
  destruct (bands _) as [[category risk] color] eqn:B.
  repeat bind_inv H.
  inversion H. do 8 eexists. split; [exact B | reflexivity].
Qed.

Lemma as_num_of_num (n : num) : as_num (of_num n) = Some n.
Proof. destruct n; reflexivity. Qed.

(** The box of the recommendation is chosen by the score of the record. *)
Lemma recommendation_box_by_score (score : num) (category risk color : string)
      (ai tc hr g c : value) (flags : list value) :
  App.recommendation_box
    (VDict [("authenticity_score", of_num score);
            ("category", VStr category);
            ("risk_level", VStr risk);
            ("color", VStr color);
            ("ai_generated_score", ai);
            ("technical_complexity", tc);
            ("red_flags", VList flags);
            ("hiring_recommendation", hr);
            ("groq_analysis", g);
            ("commit_analysis", c)])
  = Ret (if num_ge score (NInt 75) then App.StSuccess hr
         else if num_ge score (NInt 50) then App.StWarning hr
         else App.StError hr).
Proof.
  unfold App.recommendation_box, App.ge.
  cbn [subscript lookup String.eqb Ascii.eqb Bool.eqb bind].
  rewrite as_num_of_num. cbn [bind].
  destruct (num_ge score (NInt 75)); [reflexivity|].
  destruct (num_ge score (NInt 50)); reflexivity.
Qed.

Lemma color_class_of_bands (d : num) (category risk color : string) :
  bands d = (category, risk, color) ->
  App.color_class (VStr color) = Ret (color ++ "-score").
Proof.
  unfold bands.
  destruct (num_ge d (NInt 75)); [intros H; inversion H; reflexivity|].
  destruct (num_ge d (NInt 50)); [intros H; inversion H; reflexivity|].
  destruct (num_ge d (NInt 25)); intros H; inversion H; reflexivity.
Qed.

(** X24.  The result view and the bands.  For every final analysis the
    fusion returns, the class of the big score is the one named after the
    record's color, and the box of the hiring recommendation is chosen by
    the score of the record: success from 75, warning from 50, error
    below.  The category comes from the score before its rounding; so for
    a score that is an integer the success box goes with AUTHENTIC, the
    warning box with SUSPICIOUS and the error box with LIKELY PADDED and
    FAKE/COPIED, while for the real score 74.96, returned as 75.0, the
    success box goes with SUSPICIOUS. *)
Theorem result_view_follows_returned_score (g c fa : value) :
  calculate_final_score g c = Ret fa ->
  (exists score category color hr,
     subscript fa "authenticity_score" = Ret (of_num score)
     /\ subscript fa "category" = Ret (VStr category)
     /\ subscript fa "color" = Ret (VStr color)
     /\ subscript fa "hiring_recommendation" = Ret hr
     /\ App.color_class (VStr color) = Ret (color ++ "-score")
     /\ App.recommendation_box fa
        = Ret (if num_ge score (NInt 75) then App.StSuccess hr
               else if num_ge score (NInt 50) then App.StWarning hr
               else App.StError hr)
     /\ (forall s, score = NInt s ->
           (category = "✅ AUTHENTIC"
            /\ App.recommendation_box fa = Ret (App.StSuccess hr))
           \/ (category = "⚠️ SUSPICIOUS"
               /\ App.recommendation_box fa = Ret (App.StWarning hr))
           \/ ((category = "🚨 LIKELY PADDED" \/ category = "💀 FAKE/COPIED")
               /\ App.recommendation_box fa = Ret (App.StError hr))))
  /\ (exists fa',
        calculate_final_score
          (VDict [("authenticity_score", VFloat (decimal 7496 2));
                  ("hiring_recommendation", VStr "Interview")]) (VDict []) = Ret fa'
        /\ subscript fa' "authenticity_score" = Ret (VFloat (decimal 750 1))
        /\ subscript fa' "category" = Ret (VStr "⚠️ SUSPICIOUS")
        /\ App.recommendation_box fa' = Ret (App.StSuccess (VStr "Interview"))).
Proof.
  intros H. split.
  - destruct (calculate_final_score_bands g c fa H)
      as (diff & category & risk & color & ai & tc & flags & hr & B & ->).
    exists (round1 (clamp_num diff)), category, color, hr.
    split; [reflexivity | split; [reflexivity | split; [reflexivity|]]].
    split; [reflexivity|].
    split; [exact (color_class_of_bands _ _ _ _ B)|].
    split; [apply recommendation_box_by_score|].
    intros s Hs. rewrite recommendation_box_by_score, Hs.
    assert (Ed : clamp_num diff = NInt s).
    { destruct (clamp_num diff); cbn [round1] in Hs; [exact Hs | discriminate Hs]. }
    rewrite Ed, bands_int in B. rewrite !num_ge_int.
    destruct (75 <=? s)%Z.
    { inversion B. left. split; reflexivity. }
    destruct (50 <=? s)%Z.
    { inversion B. right; left. split; reflexivity. }
    destruct (25 <=? s)%Z; inversion B; right; right; (split; [|reflexivity]);
      [left | right]; reflexivity.
  - eexists. split; [vm_compute; reflexivity|].
    repeat split; vm_compute; reflexivity.
Qed.

Lemma result_view_follows_returned_score_witness :
  calculate_final_score (VDict [("authenticity_score", VInt 80)]) Sample.heuristics
  = Ret Sample.fused
  /\ exists score category color hr,
       subscript Sample.fused "authenticity_score" = Ret (of_num score)
       /\ subscript Sample.fused "category" = Ret (VStr category)
       /\ subscript Sample.fused "color" = Ret (VStr color)
       /\ subscript Sample.fused "hiring_recommendation" = Ret hr
       /\ App.color_class (VStr color) = Ret (color ++ "-score")
       /\ App.recommendation_box Sample.fused
          = Ret (if num_ge score (NInt 75) then App.StSuccess hr
                 else if num_ge score (NInt 50) then App.StWarning hr
                 else App.StError hr).
Proof.
  assert (E : calculate_final_score (VDict [("authenticity_score", VInt 80)])
                Sample.heuristics = Ret Sample.fused) by (vm_compute; reflexivity).
  split; [exact E|].
  destruct (result_view_follows_returned_score _ _ _ E)
    as [(score & category & color & hr & H1 & H2 & H3 & H4 & H5 & H6 & _) _].
  exists score, category, color, hr. repeat split; assumption.
Defined.

Lemma analysis_step_rerun (construct : py unit) (run : py value) (s : App.session) :
  In App.StRerun (snd (App.analysis_step construct run s)) ->
  exists r, run = Ret r /\ contains "error" r = Ret false
            /\ App.result (fst (App.analysis_step construct run s)) = r.
Proof.
  unfold App.analysis_step, App.attempt.
  destruct construct as [[]|ec]; cbn [bind].
  2:{ cbn. intros H. repeat (destruct H as [H|H]; [discriminate H|]). contradiction. }
  destruct run as [r|er]; cbn [bind].
  2:{ cbn. intros H. repeat (destruct H as [H|H]; [discriminate H|]). contradiction. }
  destruct (contains "error" r) as [[|]|ek] eqn:Ek; cbn [bind].
  - destruct (subscript r "error") as [msg|e]; cbn;
      intros H; repeat (destruct H as [H|H]; [discriminate H|]); contradiction.
  - cbn. intros _. exists r. repeat split. exact Ek.
  - cbn. intros H. repeat (destruct H as [H|H]; [discriminate H|]). contradiction.
Qed.

Section ShellAndRun.

Variable requests_get : string -> py response.
Variable json_loads : string -> py value.
Variable b64decode_utf8 : value -> py string.
Variable groq_create : string -> py value.

Lemma run_without_error_key (repo_url : string) (out : list string) (r : value) :
  fst (analyze_repository requests_get json_loads b64decode_utf8 groq_create repo_url out)
  = Ret r ->
  contains "error" r = Ret false ->
  exists rd g ca fa report,
    r = VDict [("repo_data", rd); ("final_analysis", fa); ("report", VStr report)]
    /\ calculate_final_score g ca = Ret fa.
Proof.
  run_cases; cbn [fst]; intros H Hk; try discriminate H; inversion H; subst; clear H;
    first [ congruence
          | do 5 eexists; split; [reflexivity | eassumption] ].
Qed.

(** X25.  What the shell stores, the result view can show.  When the
    analysis step of the shell ends with the success message and a rerun,
    the stored result is the composite result of the run: it is truthy (so
    the next run of the script takes the result view), it holds the record,
    a final analysis returned by the fusion and the report text, and on that
    final analysis the class of the big score and the box of the hiring
    recommendation are computed without an exception. *)
Theorem stored_result_feeds_the_result_view
        (construct : py unit) (repo_url : string) (out : list string) (s : App.session) :
  let step :=
    App.analysis_step construct
      (fst (analyze_repository requests_get json_loads b64decode_utf8 groq_create
              repo_url out)) s in
  In App.StRerun (snd step) ->
  exists rd fa report cls box,
    App.result (fst step)
    = VDict [("repo_data", rd); ("final_analysis", fa); ("report", VStr report)]
    /\ truthy (App.result (fst step)) = true
    /\ App.analyzing (fst step) = false
    /\ subscript (App.result (fst step)) "final_analysis" = Ret fa
    /\ (color <- subscript fa "color" ;; App.color_class color) = Ret cls
    /\ App.recommendation_box fa = Ret box.
Proof.
  cbv zeta. intros H.
  destruct (analysis_step_rerun _ _ _ H) as (r & Er & Hk & Hres).
  destruct (run_without_error_key repo_url out r Er Hk)
    as (rd & g & ca & fa & report & -> & Hfa).
  destruct (calculate_final_score_bands g ca fa Hfa)
    as (diff & category & risk & color & ai & tc & flags & hr & B & ->).
  pose proof (color_class_of_bands _ _ _ _ B) as Vc.
  rewrite Hres.
  do 3 eexists. exists (color ++ "-score").
  assert (An : App.analyzing
                 (fst (App.analysis_step construct
                         (fst (analyze_repository requests_get json_loads b64decode_utf8
                                 groq_create repo_url out)) s)) = false).
  { unfold App.analysis_step.
    destruct (App.attempt _ _) as [[?|?]|?]; reflexivity. }
  eexists; (split; [reflexivity|]); (split; [reflexivity|]); (split; [exact An|]);
    (split; [reflexivity|]); (split; [exact Vc | apply recommendation_box_by_score]).
Qed.

End ShellAndRun.

Lemma stored_result_feeds_the_result_view_witness :
  let step :=
    App.analysis_step (Ret tt) (fst (Sample.run (dq "{'authenticity_score': 80}")))
      {| App.result := VNone; App.analyzing := true |} in
  In App.StRerun (snd step)
  /\ exists rd fa report cls box,
       App.result (fst step)
       = VDict [("repo_data", rd); ("final_analysis", fa); ("report", VStr report)]
       /\ truthy (App.result (fst step)) = true
       /\ App.analyzing (fst step) = false
       /\ subscript (App.result (fst step)) "final_analysis" = Ret fa
       /\ (color <- subscript fa "color" ;; App.color_class color) = Ret cls
       /\ App.recommendation_box fa = Ret box.
Proof.
  cbv zeta.
  assert (H : In App.StRerun
                (snd (App.analysis_step (Ret tt)
                        (fst (Sample.run (dq "{'authenticity_score': 80}")))
                        {| App.result := VNone; App.analyzing := true |})))
    by (vm_compute; right; left; reflexivity).
  split; [exact H|].
  exact (stored_result_feeds_the_result_view
           Sample.requests_get Json.loads Sample.b64decode_utf8
           (Sample.groq_says (dq "{'authenticity_score': 80}"))
           (Ret tt) Sample.url [] {| App.result := VNone; App.analyzing := true |} H).
Defined.

Lemma accepted_url_is_never_invalid_witness :
  App.on_analyze (VStr "gsk_key") Sample.url {| App.result := VNone; App.analyzing := false |}
  = ({| App.result := VNone; App.analyzing := true |}, [App.StRerun])
  /\ (3 <= List.length (Str.split "/" (Str.rstrip_slash Sample.url)))%nat
  /\ fetch_repo_data Sample.requests_get Sample.b64decode_utf8 Sample.url
     <> Ret (error_result "Invalid GitHub URL").
Proof.
  assert (E : App.on_analyze (VStr "gsk_key") Sample.url
                {| App.result := VNone; App.analyzing := false |}
              = ({| App.result := VNone; App.analyzing := true |}, [App.StRerun]))
    by (vm_compute; reflexivity).
  split; [exact E|].
  exact (proj2 (proj2 (accepted_url_is_never_invalid
                         Sample.requests_get Sample.b64decode_utf8
                         (VStr "gsk_key") Sample.url _ _ E))).
Defined.

(** X26.  The charts of the result view need numbers.  The fusion passes
    the model's [ai_generated_score] and [technical_complexity] on as they
    are (0 and 5 when absent).  On a final analysis it returned, the padding
    metric is always read without an exception, and when both fields are
    numbers the values of both charts are computed; when both are integers
    the radar values are the score, ten times the complexity and 100 minus
    the AI score, and the bar scores are the AI score, the padding and ten
    times (10 minus the complexity); when the AI score is not a number the
    radar values raise a TypeError, and when the complexity is not a number
    the bar scores do. *)
Theorem result_view_charts_need_numbers (g c fa : value) :
  calculate_final_score g c = Ret fa ->
  exists score ai tc pad,
    subscript fa "authenticity_score" = Ret (of_num score)
    /\ get g "ai_generated_score" (VInt 0) = Ret ai
    /\ get g "technical_complexity" (VInt 5) = Ret tc
    /\ App.padding fa = Ret pad
    /\ (is_number ai = true -> is_number tc = true ->
        returns (App.radar_values fa) /\ returns (App.risk_scores fa pad))
    /\ (forall x y, as_int ai = Some x -> as_int tc = Some y ->
          App.radar_values fa = Ret [of_num score; VInt (y * 10); VInt (100 - x)]
          /\ App.risk_scores fa pad = Ret [ai; pad; VInt ((10 - y) * 10)])
    /\ (is_number ai = false -> exists msg, App.radar_values fa = TypeError msg)
    /\ (is_number tc = false -> exists msg, App.risk_scores fa pad = TypeError msg).
Proof.
  unfold calculate_final_score. intros H.
  destruct g as [| | | | |l|gd]; try discriminate H.
  do 3 bind_inv H.
  destruct (bands _) as [[category risk] color].
  do 6 bind_inv H.
  match type of H with
  | bind ?m _ = _ => destruct m as [ai|] eqn:Eai; [|discriminate H]
  end.
  cbn [bind] in H.
  match type of H with
  | bind ?m _ = _ => destruct m as [tc|] eqn:Etc; [|discriminate H]
  end.
  cbn [bind] in H.
  bind_inv H.
  inversion H; subst fa; clear H.
  destruct (get (VDict gd) "resume_padding_score" (VInt 0)) as [pad|e] eqn:Ep;
    [|discriminate Ep].
  eexists _, ai, tc, pad.
  split; [reflexivity|]. split; [reflexivity|]. split; [reflexivity|].
  split; [exact Ep|].
  destruct (to_float_small 10 ltac:(lia)) as [f10 E10].
  destruct (to_float_small 100 ltac:(lia)) as [f100 E100].
  unfold App.radar_values, App.risk_scores, is_number.
  cbn [subscript lookup String.eqb Ascii.eqb Bool.eqb bind].
  split; [|split; [|split]].
  - intros Hai Htc.
    destruct tc as [|b|n|f| | |]; try discriminate Htc;
      destruct ai as [|b'|n'|f'| | |]; try discriminate Hai;
      unfold sub; cbn [App.times as_num of_num bind Z.of_nat Pos.of_succ_nat Pos.succ];
      rewrite ?E10, ?E100; cbn [App.times as_num of_num bind Z.of_nat Pos.of_succ_nat Pos.succ];
      rewrite ?E10, ?E100; cbn [bind];
      split; eexists; reflexivity.
  - intros ax ay Hx Hy.
    destruct tc as [|b|n|f| | |]; try discriminate Hy;
      destruct ai as [|b'|n'|f'| | |]; try discriminate Hx;
      cbn [as_int] in Hx, Hy; inversion Hx; inversion Hy; subst;
      split; reflexivity.
  - intros Hai.
    destruct ai as [|b'|n'|f'| | |]; try discriminate Hai;
      destruct tc as [|b|n|f| | |];
      unfold sub; cbn [App.times as_num of_num bind Z.of_nat Pos.of_succ_nat Pos.succ];
      rewrite ?E10; cbn [bind]; eexists; reflexivity.
  - intros Htc.
    destruct tc as [|b|n|f| | |]; try discriminate Htc;
      unfold sub; cbn [as_num bind]; eexists; reflexivity.
Qed.

Lemma result_view_charts_need_numbers_witness :
  let reply := dq "{'authenticity_score': 80, 'ai_generated_score': 'low'}" in
  let step :=
    App.analysis_step (Ret tt) (fst (Sample.run reply))
      {| App.result := VNone; App.analyzing := true |} in
  In App.StRerun (snd step)
  /\ exists fa,
       subscript (App.result (fst step)) "final_analysis" = Ret fa
       /\ exists msg, App.radar_values fa = TypeError msg.
Proof.
  cbv zeta.
  split; [vm_compute; right; left; reflexivity|].
  destruct (calculate_final_score
              (VDict [("authenticity_score", VInt 80); ("ai_generated_score", VStr "low")])
              Sample.heuristics) as [fa|e] eqn:E; [|vm_compute in E; discriminate E].
  exists fa. split; [vm_compute in E; inversion E; vm_compute; reflexivity|].
  destruct (result_view_charts_need_numbers _ _ fa E)
    as (score & ai & tc & pad & _ & Eai & _ & _ & _ & _ & Hai & _).
  apply Hai. vm_compute in Eai. inversion Eai. reflexivity.
Defined.
